(** * TAU Commander: software installation management

    A shallow embedding of [packages/tau/cf/software/installation.py]
    (classes [Installation] and [AutotoolsInstallation], and
    [parallel_make_flags]) together with the properties its specification
    states about it.

    The Python code runs against an operating system (file system, lock
    files, subprocesses, network).  That environment is an explicit
    [Platform] record; every call into it is recorded in an event trace, so
    that ordering properties can be stated.  Python exceptions are values of
    type [Exn]; a method is a function from a state to a result, a new state
    and the events it issued. *)

From Stdlib Require Import Ascii String ZArith.
From stdpp Require Import gmap strings list pretty.

Set Warnings "-register-all".

#[local] Open Scope Z_scope.
#[local] Open Scope string_scope.
#[local] Open Scope list_scope.
#[local] Open Scope stdpp_scope.

(** ** Strings and POSIX paths *)

Definition is_slash (c : ascii) : bool := Ascii.eqb c "/"%char.

Fixpoint endswith_slash (s : string) : bool :=
  match s with
  | EmptyString => false
  | String c EmptyString => is_slash c
  | String _ rest => endswith_slash rest
  end.

(** [posixpath.join(a, b)]: an absolute [b] replaces [a]; otherwise the two
    are concatenated with exactly one separator between them. *)
Definition os_path_join (a b : string) : string :=
  if String.prefix "/" b then b
  else if String.eqb a "" || endswith_slash a then a +:+ b
  else a +:+ "/" +:+ b.

(** [os.path.join(a, *p)] *)
Definition os_path_join_all (a : string) (p : list string) : string :=
  fold_left os_path_join p a.

Fixpoint basename_go (acc s : string) : string :=
  match s with
  | EmptyString => acc
  | String c rest =>
      if is_slash c then basename_go "" rest
      else basename_go (acc +:+ String c "") rest
  end.

(** [os.path.basename(p)]: what follows the last slash. *)
Definition os_path_basename (p : string) : string := basename_go "" p.

Definition lower_ascii (c : ascii) : ascii :=
  let n := N_of_ascii c in
  if ((65 <=? n) && (n <=? 90))%N then ascii_of_N (n + 32) else c.

(** [str.lower()] *)
Fixpoint lower (s : string) : string :=
  match s with
  | EmptyString => EmptyString
  | String c rest => String (lower_ascii c) (lower rest)
  end.

(** Truth value of a Python string-or-None, as tested by [if self.src:]. *)
Definition truthy (s : option string) : bool :=
  match s with
  | None => false
  | Some v => negb (String.eqb v "")
  end.

(** ** Exceptions *)

Inductive Exn : Type :=
| SoftwarePackageError (value : string) (hint : option string)
| ConfigurationError (value : string) (hint : option string)
| IOError (value : string)
| OSError (value : string)
| KeyError (key : string)
| TypeError (value : string)
| UnboundLocalError (variable : string)
| AssertionError
| RecursionDepthExceeded
| NotLocked.

(** [str(err)], as interpolated into messages with [%s]. *)
Definition str_exn (e : Exn) : string :=
  match e with
  | SoftwarePackageError v _ | ConfigurationError v _ | IOError v
  | OSError v | KeyError v | TypeError v | UnboundLocalError v => v
  | AssertionError => "AssertionError"
  | RecursionDepthExceeded => "maximum recursion depth exceeded"
  | NotLocked => "NotLocked"
  end.

Definition is_SoftwarePackageError (e : Exn) : bool :=
  match e with SoftwarePackageError _ _ => true | _ => false end.

Definition is_ConfigurationError (e : Exn) : bool :=
  match e with ConfigurationError _ _ => true | _ => false end.

Definition is_IOError (e : Exn) : bool :=
  match e with IOError _ => true | _ => false end.

Definition Res (A : Type) : Type := (Exn + A)%type.

Definition failed {A} (r : Res A) : bool :=
  match r with inl _ => true | inr _ => false end.

(** ** Events: the calls a run makes into its environment *)

Inductive Event : Type :=
| EvExists (path : string)                     (* os.path.exists *)
| EvIsdir (path : string)                      (* os.path.isdir *)
| EvAccess (path : string)                     (* os.access(path, os.X_OK) *)
| EvAccessible (path : string)                 (* util.file_accessible *)
| EvArchiveToplevel (archive : string) (ok : bool)
| EvRmtree (path : string)
| EvMkdirp (path : string)
| EvMkdtemp (dir : string)
| EvCopy (src dst : string)
| EvDownload (src dst : string)
| EvExtract (archive dst : string)
| EvSubprocess (cmd : list string) (cwd : string) (retcode : Z)
| EvSymlink (target link : string) (ok : bool)
| EvAcquire (lockfile : string)
| EvRelease (lockfile : string).

(** Events that only inspect the environment. *)
Definition is_query (e : Event) : bool :=
  match e with
  | EvExists _ | EvIsdir _ | EvAccess _ | EvAccessible _
  | EvArchiveToplevel _ _ => true
  | _ => false
  end.

(** The events of acquiring and unpacking an archive, its reads apart. *)
Definition is_staging (e : Event) : bool :=
  match e with
  | EvExists _ | EvIsdir _ | EvRmtree _ | EvMkdirp _ | EvCopy _ _
  | EvDownload _ _ | EvExtract _ _ => true
  | _ => false
  end.



Definition is_failed_symlink (e : Event) : bool :=
  match e with EvSymlink _ _ false => true | _ => false end.

(** Reads of the top-level directory of an archive. *)
Definition is_archive_read (e : Event) : bool :=
  match e with EvArchiveToplevel _ _ => true | _ => false end.

Definition is_subprocess (e : Event) : bool :=
  match e with EvSubprocess _ _ _ => true | _ => false end.

(** ** Storage levels *)

(** Modelled from the spec: a storage level of [tau.cf.storage.levels],
    "an ordered, named filesystem root with a writability flag" (the module
    is not part of the sources at hand). *)
Record Storage : Type := mkStorage {
  storage_name : string;
  storage_prefix : string;
  is_writable : bool
}.

(** ** The platform *)

Record Platform : Type := mkPlatform {
  FS : Type;
  fs_exists : FS -> string -> bool;
  fs_isdir : FS -> string -> bool;
  fs_access_X_OK : FS -> string -> bool;
  fs_file_accessible : FS -> string -> bool;
  fs_rmtree : string -> FS -> FS;
  fs_mkdirp : string -> FS -> string + FS;
  fs_mkdtemp : string -> FS -> string + string * FS;
  fs_copy : string -> string -> FS -> string + FS;
  fs_download : string -> string -> FS -> string + FS;
  fs_archive_toplevel : string -> FS -> string + string;
  fs_extract_archive : string -> string -> FS -> string + string * FS;
  fs_symlink : string -> string -> FS -> string + FS;
  fs_create_subprocess :
    list string -> string -> gmap string string -> FS -> Z * FS;
  cpu_count : Z;                      (* multiprocessing.cpu_count() *)
  md5_hexdigest : string -> string;   (* hashlib.md5(s).hexdigest() *)
  os_pathsep : string;
  sys_platform : string;
  (** [tau.cf.storage.levels.ORDERED_LEVELS], from lowest to highest
      precedence. *)
  ORDERED_LEVELS : list Storage
}.

(** ** A state, error and trace monad *)

Definition M (S A : Type) : Type := S -> Res A * S * list Event.

Definition ret {S A} (a : A) : M S A := fun s => (inr a, s, []).

Definition raise {S A} (e : Exn) : M S A := fun s => (inl e, s, []).

Definition bind {S A B} (m : M S A) (k : A -> M S B) : M S B := fun s =>
  match m s with
  | (inl e, s1, t1) => (inl e, s1, t1)
  | (inr a, s1, t1) =>
      match k a s1 with (r, s2, t2) => (r, s2, t1 ++ t2) end
  end.

Notation "x <- m ;; k" := (bind m (fun x => k))
  (at level 100, m at next level, right associativity).
Notation "m ;;; k" := (bind m (fun _ => k))
  (at level 100, right associativity).

(** [try: m except <handled by h>:]. An exception [h] does not handle
    propagates. *)
Definition try_except {S A} (m : M S A) (h : Exn -> option (M S A)) : M S A :=
  fun s =>
    match m s with
    | (inl e, s1, t1) =>
        match h e with
        | Some k => match k s1 with (r, s2, t2) => (r, s2, t1 ++ t2) end
        | None => (inl e, s1, t1)
        end
    | ok => ok
    end.

(** [for x in l: body(x)] *)
Fixpoint for_ {S A} (l : list A) (body : A -> M S unit) : M S unit :=
  match l with
  | [] => ret tt
  | x :: rest => body x ;;; for_ rest body
  end.

Definition when_ {S} (b : bool) (m : M S unit) : M S unit :=
  if b then m else ret tt.

Definition result {S A} (o : Res A * S * list Event) : Res A := o.1.1.
Definition state {S A} (o : Res A * S * list Event) : S := o.1.2.
Definition events {S A} (o : Res A * S * list Event) : list Event := o.2.

Arguments result {S A} o /.
Arguments state {S A} o /.
Arguments events {S A} o /.

(** ** The installation object *)

(** Modelled from the spec: [tau.cf.target.Architecture] and
    [OperatingSystem] are "an architecture/OS descriptor pair" and the
    compiler set is "a compiler/toolchain descriptor (family, executable
    paths)"; their classes are not part of the sources at hand. *)
Definition Architecture : Type := string.
Definition OperatingSystem : Type := string.

Record InstalledCompilerSet : Type := mkCompilers {
  family : string;
  executables : list string
}.

(** The attributes of [Installation] set by [__init__] and
    [_change_install_prefix].  [dependencies] is the dict of
    sub-installations in its iteration order. *)
Inductive Installation : Type := mkInstallation {
  name : string;
  title : string;
  target_arch : Architecture;
  target_os : OperatingSystem;
  compilers : InstalledCompilerSet;
  verify_commands : list string;
  verify_libraries : list string;
  verify_headers : list string;
  src_prefix : option string;
  is_installed : bool;
  src : option string;
  install_prefix : string;
  include_path : string;
  bin_path : string;
  lib_path : string;
  _lockfile : string;
  dependencies : list (string * Installation)
}.

Definition set_is_installed (b : bool) (i : Installation) : Installation :=
  mkInstallation (name i) (title i) (target_arch i) (target_os i)
    (compilers i) (verify_commands i) (verify_libraries i) (verify_headers i)
    (src_prefix i) b (src i) (install_prefix i) (include_path i)
    (bin_path i) (lib_path i) (_lockfile i) (dependencies i).

Definition set_src_prefix (v : option string) (i : Installation)
  : Installation :=
  mkInstallation (name i) (title i) (target_arch i) (target_os i)
    (compilers i) (verify_commands i) (verify_libraries i) (verify_headers i)
    v (is_installed i) (src i) (install_prefix i) (include_path i)
    (bin_path i) (lib_path i) (_lockfile i) (dependencies i).

Definition set_src (v : option string) (i : Installation) : Installation :=
  mkInstallation (name i) (title i) (target_arch i) (target_os i)
    (compilers i) (verify_commands i) (verify_libraries i) (verify_headers i)
    (src_prefix i) (is_installed i) v (install_prefix i) (include_path i)
    (bin_path i) (lib_path i) (_lockfile i) (dependencies i).

Definition set_dependencies (d : list (string * Installation))
  (i : Installation) : Installation :=
  mkInstallation (name i) (title i) (target_arch i) (target_os i)
    (compilers i) (verify_commands i) (verify_libraries i) (verify_headers i)
    (src_prefix i) (is_installed i) (src i) (install_prefix i)
    (include_path i) (bin_path i) (lib_path i) (_lockfile i) d.

(** [Installation._change_install_prefix] *)
Definition _change_install_prefix (value : string) (i : Installation)
  : Installation :=
  mkInstallation (name i) (title i) (target_arch i) (target_os i)
    (compilers i) (verify_commands i) (verify_libraries i) (verify_headers i)
    (src_prefix i) (is_installed i) (src i)
    value
    (os_path_join value "include")
    (os_path_join value "bin")
    (os_path_join value "lib")
    (os_path_join value ".tau_lock")
    (dependencies i).

(** The dicts [repos], [commands], [libraries] and [headers] passed to
    [__init__]: [dct[None]] is the default, [dct[arch]] is a dict indexed by
    operating system whose [None] key is the default of the architecture. *)
Record ArchDict (V : Type) : Type := mkArchDict {
  ad_default : option V;
  ad_os : gmap OperatingSystem V
}.
Arguments mkArchDict {V} _ _.
Arguments ad_default {V} _.
Arguments ad_os {V} _.

Record TargetDict (V : Type) : Type := mkTargetDict {
  td_default : option V;
  td_arch : gmap Architecture (ArchDict V)
}.
Arguments mkTargetDict {V} _ _.
Arguments td_default {V} _.
Arguments td_arch {V} _.

(** Truth value of such a dict: [None] and the empty dict are false. *)
Definition dict_truthy {V} (dct : option (TargetDict V)) : bool :=
  match dct with
  | None => false
  | Some d =>
      match td_default d with
      | Some _ => true
      | None => negb (bool_decide (dom (td_arch d) = ∅))
      end
  end.

(** Python's [%] formatting of the messages the code raises. *)
Definition quoted (s : string) : string := "'" +:+ s +:+ "'".

Section Methods.

Variable P : Platform.

(** The mutable environment: the file system, the lock files this process
    holds, the process environment [os.environ], and the heap of the lists
    and dicts passed to the configuration methods. *)
Record World : Type := mkWorld {
  w_fs : FS P;
  w_locks : gset string;
  w_environ : gmap string string;
  w_lists : gmap nat (list string);
  w_dicts : gmap nat (gmap string string)
}.

Definition set_fs (fs : FS P) (w : World) : World :=
  mkWorld fs (w_locks w) (w_environ w) (w_lists w) (w_dicts w).

Definition set_locks (l : gset string) (w : World) : World :=
  mkWorld (w_fs w) l (w_environ w) (w_lists w) (w_dicts w).

Definition set_lists (l : gmap nat (list string)) (w : World) : World :=
  mkWorld (w_fs w) (w_locks w) (w_environ w) l (w_dicts w).

Definition set_dicts (d : gmap nat (gmap string string)) (w : World) : World :=
  mkWorld (w_fs w) (w_locks w) (w_environ w) (w_lists w) d.

(** A method runs on its [self] and the world. *)
Definition St : Type := (Installation * World)%type.

Definition get_self : M St Installation := fun s => (inr s.1, s, []).

Definition modify_self (f : Installation -> Installation) : M St unit :=
  fun s => (inr tt, (f s.1, s.2), []).

Definition query (ev : Event) (f : FS P -> bool) : M St bool :=
  fun s => (inr (f (w_fs s.2)), s, [ev]).

Definition os_path_exists (p : string) : M St bool :=
  query (EvExists p) (fun fs => fs_exists P fs p).

Definition os_path_isdir (p : string) : M St bool :=
  query (EvIsdir p) (fun fs => fs_isdir P fs p).

Definition os_access_X_OK (p : string) : M St bool :=
  query (EvAccess p) (fun fs => fs_access_X_OK P fs p).

Definition util_file_accessible (p : string) : M St bool :=
  query (EvAccessible p) (fun fs => fs_file_accessible P fs p).

(** *** [Installation.verify] *)

Definition check_command (self : Installation) (cmd : string) : M St unit :=
  let path := os_path_join (bin_path self) cmd in
  there <- os_path_exists path ;;
  if negb there
  then raise (SoftwarePackageError (quoted path +:+ " is missing") None)
  else
    x_ok <- os_access_X_OK path ;;
    if negb x_ok
    then raise (SoftwarePackageError
                  (quoted path +:+ " exists but is not executable") None)
    else ret tt.

Definition check_library (self : Installation) (lib : string) : M St unit :=
  let path := os_path_join (lib_path self) lib in
  ok <- util_file_accessible path ;;
  if negb ok then
    (* Some systems (e.g. SuSE) append the machine bitwidth to the library
       path *)
    let path := os_path_join (lib_path self +:+ "64") lib in
    ok64 <- util_file_accessible path ;;
    if negb ok64
    then raise (SoftwarePackageError (quoted path +:+ " is not accessible")
                  None)
    else ret tt
  else ret tt.

Definition check_header (self : Installation) (header : string)
  : M St unit :=
  let path := os_path_join (include_path self) header in
  ok <- util_file_accessible path ;;
  if negb ok
  then raise (SoftwarePackageError (quoted path +:+ " is not accessible")
                None)
  else ret tt.

(** The body of [verify] after the loop over the dependencies. *)
Definition verify_own : M St unit :=
  self <- get_self ;;
  there <- os_path_exists (install_prefix self) ;;
  (if negb there
   then raise (SoftwarePackageError
                 (quoted (install_prefix self) +:+ " does not exist") None)
   else ret tt) ;;;
  for_ (verify_commands self) (check_command self) ;;;
  for_ (verify_libraries self) (check_library self) ;;;
  for_ (verify_headers self) (check_header self) ;;;
  modify_self (set_is_installed true).

(** [for pkg in self.dependencies.itervalues(): pkg.method()]: the
    dependencies are objects of their own; what the call does to one of them
    stays in the dict, also when a later call raises. *)
Section EachDependency.

Variable method : Installation -> World -> Res unit * St * list Event.

Fixpoint each_dependency (deps : list (string * Installation)) (w : World)
  : Res unit * (list (string * Installation) * World) * list Event :=
  match deps with
  | [] => (inr tt, ([], w), [])
  | (k, pkg) :: rest =>
      match method pkg w with
      | (inl e, (pkg', w1), t1) => (inl e, ((k, pkg') :: rest, w1), t1)
      | (inr _, (pkg', w1), t1) =>
          match each_dependency rest w1 with
          | (r, (rest', w2), t2) => (r, ((k, pkg') :: rest', w2), t1 ++ t2)
          end
      end
  end.

End EachDependency.

Fixpoint verify (self : Installation) (w : World) {struct self}
  : Res unit * St * list Event :=
  match each_dependency verify (dependencies self) w with
  | (inl e, (deps, w1), t1) => (inl e, (set_dependencies deps self, w1), t1)
  | (inr _, (deps, w1), t1) =>
      match verify_own (set_dependencies deps self, w1) with
      | (r, s2, t2) => (r, s2, t1 ++ t2)
      end
  end.

(** [self.verify()] as a step of a method of [self]. *)
Definition self_verify : M St unit := fun s => verify s.1 s.2.

(** *** Calls that change the environment *)

Definition fs_step {A} (ev : Event) (exn : string -> Exn)
  (f : FS P -> string + A * FS P) : M St A :=
  fun s =>
    match f (w_fs s.2) with
    | inl msg => (inl (exn msg), s, [ev])
    | inr (a, fs') => (inr a, (s.1, set_fs fs' s.2), [ev])
    end.

Definition unit_step (r : string + FS P) : string + unit * FS P :=
  match r with inl msg => inl msg | inr fs' => inr (tt, fs') end.

(** [util.rmtree(path, ignore_errors=True)] *)
Definition util_rmtree (p : string) : M St unit :=
  fun s => (inr tt, (s.1, set_fs (fs_rmtree P p (w_fs s.2)) s.2), [EvRmtree p]).

Definition util_mkdirp (p : string) : M St unit :=
  fs_step (EvMkdirp p) OSError (fun fs => unit_step (fs_mkdirp P p fs)).

Definition util_mkdtemp (dir : string) : M St string :=
  fs_step (EvMkdtemp dir) IOError (fs_mkdtemp P dir).

Definition shutil_copy (from to : string) : M St unit :=
  fs_step (EvCopy from to) IOError (fun fs => unit_step (fs_copy P from to fs)).

Definition util_download (from to : string) : M St unit :=
  fs_step (EvDownload from to) IOError
    (fun fs => unit_step (fs_download P from to fs)).

Definition util_archive_toplevel (archive : string) : M St string :=
  fun s =>
    match fs_archive_toplevel P archive (w_fs s.2) with
    | inl msg => (inl (IOError msg), s, [EvArchiveToplevel archive false])
    | inr top => (inr top, s, [EvArchiveToplevel archive true])
    end.

Definition util_extract_archive (archive dst : string) : M St string :=
  fs_step (EvExtract archive dst) IOError (fs_extract_archive P archive dst).

Definition os_symlink (target link : string) : M St unit :=
  fun s =>
    match fs_symlink P target link (w_fs s.2) with
    | inl msg => (inl (OSError msg), s, [EvSymlink target link false])
    | inr fs' => (inr tt, (s.1, set_fs fs' s.2), [EvSymlink target link true])
    end.

(** [util.create_subprocess(cmd, cwd=cwd, env=env, stdout=False)]: the
    return code of the command. *)
Definition util_create_subprocess (cmd : list string) (cwd : string)
  (env : gmap string string) : M St Z :=
  fun s =>
    match fs_create_subprocess P cmd cwd env (w_fs s.2) with
    | (rc, fs') => (inr rc, (s.1, set_fs fs' s.2), [EvSubprocess cmd cwd rc])
    end.

(** [LockFile.acquire] and [LockFile.release], seen from this process:
    releasing a lock that is not held raises [NotLocked]. *)
Definition lockfile_acquire (l : string) : M St unit :=
  fun s => (inr tt, (s.1, set_locks ({[ l ]} ∪ w_locks s.2) s.2), [EvAcquire l]).

Definition lockfile_release (l : string) : M St unit :=
  fun s =>
    if decide (l ∈ w_locks s.2)
    then (inr tt, (s.1, set_locks (w_locks s.2 ∖ {[ l ]}) s.2), [EvRelease l])
    else (inl NotLocked, s, [EvRelease l]).

(** Modelled from the spec: [highest_writable_storage()] of
    [tau.cf.storage.levels] "returns the highest-precedence level whose
    writability flag is true, or signals a fatal configuration error if none
    exists" (the function is not part of the sources at hand). *)
Definition highest_writable_storage : M St Storage :=
  match find is_writable (rev (ORDERED_LEVELS P)) with
  | Some storage => ret storage
  | None => raise (ConfigurationError "No writable storage levels" None)
  end.

(** *** [parallel_make_flags] *)

Definition parallel_make_flags (nprocs : option Z) : list string :=
  let nprocs :=
    match nprocs with
    | Some n => if (n =? 0)%Z then Z.max 1 (cpu_count P - 1) else n
    | None => Z.max 1 (cpu_count P - 1)
    end in
  ["-j"; pretty nprocs].

(** *** [Installation.__enter__] and [__exit__] *)

Definition __enter__ : M St unit :=
  self <- get_self ;;
  if truthy (src self) then
    util_mkdirp (install_prefix self) ;;;
    lockfile_acquire (_lockfile self)
  else ret tt.

(** The value returned is that of [__exit__]: [False], an exception raised
    in the [with] block is not suppressed. *)
Definition __exit__ : M St bool :=
  self <- get_self ;;
  try_except (lockfile_release (_lockfile self))
    (fun e => match e with NotLocked => Some (ret tt) | _ => None end) ;;;
  ret false.

(** *** [Installation._prepare_src] *)

(** The loop of the [reuse] branch over [reversed(ORDERED_LEVELS)].  Its
    state is the pair of the local variables [build_prefix] and [archive];
    [archive] is unbound until the first iteration. *)
Fixpoint search_archive (levels : list Storage) (archive_name : string)
  (build_prefix archive : option string)
  : M St (option string * option string) :=
  match levels with
  | [] => ret (build_prefix, archive)
  | storage :: rest =>
      let archive_prefix := os_path_join (storage_prefix storage) "src" in
      let build_prefix :=
        if truthy build_prefix then build_prefix else Some archive_prefix in
      let archive := os_path_join archive_prefix archive_name in
      there <- os_path_exists archive ;;
      if there then
        (if negb (bool_decide (build_prefix = Some archive_prefix)) then
           shutil_copy archive
             (os_path_join (default "" build_prefix) archive_name)
         else ret tt) ;;;
        ret (build_prefix, Some archive)
      else search_archive rest archive_name build_prefix (Some archive)
  end.

(** The [else] branch: acquire a new copy of the source archive. *)
Definition acquire_archive (self : Installation) (archive_name : string)
  (build_prefix : option string) : M St (option string * option string) :=
  storage <- highest_writable_storage ;;
  let archive_prefix := os_path_join (storage_prefix storage) "src" in
  let build_prefix :=
    if truthy build_prefix then build_prefix else Some archive_prefix in
  let archive := os_path_join (default "" build_prefix) archive_name in
  try_except (util_download (default "" (src self)) archive)
    (fun e =>
       if is_IOError e then
         Some (raise (ConfigurationError
                        ("Cannot acquire source archive "
                           +:+ quoted (default "" (src self)))
                        (Some "Check that the file or directory is accessable")))
       else None) ;;;
  (if negb (bool_decide (build_prefix = Some archive_prefix)) then
     util_mkdirp archive_prefix ;;;
     shutil_copy archive (os_path_join archive_prefix archive_name)
   else ret tt) ;;;
  ret (build_prefix, Some archive).

(** The end of [_prepare_src]: unpack [archive], unless its top-level
    directory is already there and may be reused. *)
Definition stage_source (build_prefix : option string)
  (archive topdir : string) (reuse : bool) : M St unit :=
  match build_prefix with
  | None => raise (TypeError "build_prefix")
  | Some build_prefix =>
      let src_prefix := os_path_join build_prefix topdir in
      staged <- (if reuse then os_path_isdir src_prefix else ret false) ;;
      src_prefix <-
        (if staged then ret src_prefix
         else
           util_rmtree src_prefix ;;;
           try_except (util_extract_archive archive build_prefix)
             (fun e =>
                if is_IOError e then
                  Some (raise (ConfigurationError
                    ("Cannot extract source archive "
                       +:+ quoted archive +:+ ": " +:+ str_exn e)
                    (Some "Check that the file or directory is accessable")))
                else None)) ;;
      modify_self (set_src_prefix (Some src_prefix))
  end.

(** One activation of [_prepare_src]; [self_prepare_src] is the method
    itself, called for the retry. *)
Definition _prepare_src_body
  (self_prepare_src : option string -> bool -> M St unit)
  (build_prefix : option string) (reuse : bool) : M St unit :=
  self <- get_self ;;
  if negb (truthy (src self)) then
    raise (ConfigurationError ("No source code provided for " +:+ title self)
             None)
  else
    let archive_name := os_path_basename (default "" (src self)) in
    found <-
      (if reuse
       then search_archive (rev (ORDERED_LEVELS P)) archive_name
              build_prefix None
       else acquire_archive self archive_name build_prefix) ;;
    let build_prefix := found.1 in
    match found.2 with
    | None => raise (UnboundLocalError "archive")
    | Some archive =>
        top <- try_except (t <- util_archive_toplevel archive ;; ret (inr t))
                 (fun e => if is_IOError e then Some (ret (inl e)) else None) ;;
        match top with
        | inl err =>
            if reuse then self_prepare_src build_prefix false
            else raise (ConfigurationError
                          ("Cannot read " +:+ title self +:+ " archive file "
                             +:+ quoted archive +:+ ": " +:+ str_exn err)
                          None)
        | inr topdir => stage_source build_prefix archive topdir reuse
        end
    end.

(** The recursion of [_prepare_src], cut at Python's recursion limit:
    [fuel] nested activations are available. *)
Fixpoint _prepare_src_fuel (fuel : nat) : option string -> bool -> M St unit :=
  match fuel with
  | O => fun _ _ => raise RecursionDepthExceeded
  | S fuel => _prepare_src_body (_prepare_src_fuel fuel)
  end.

(** [sys.getrecursionlimit()] is 1000 by default. *)
Definition _prepare_src : option string -> bool -> M St unit :=
  _prepare_src_fuel 1000.

(** *** [AutotoolsInstallation]: configure, make, make install *)

(** [assert self.src_prefix] *)
Definition assert_src_prefix : M St string :=
  self <- get_self ;;
  if truthy (src_prefix self) then ret (default "" (src_prefix self))
  else raise AssertionError.

Definition configure (flags : list string) (env : gmap string string)
  : M St unit :=
  cwd <- assert_src_prefix ;;
  self <- get_self ;;
  let flags := flags ++ ["--prefix=" +:+ install_prefix self] in
  let cmd := ["./configure"] ++ flags in
  rc <- util_create_subprocess cmd cwd env ;;
  if negb (rc =? 0)%Z
  then raise (SoftwarePackageError (title self +:+ " configure failed") None)
  else ret tt.

Definition make (flags : list string) (env : gmap string string)
  (parallel : bool) : M St unit :=
  cwd <- assert_src_prefix ;;
  self <- get_self ;;
  let par_flags := if parallel then parallel_make_flags None else [] in
  let cmd := ["make"] ++ par_flags ++ flags in
  rc <- util_create_subprocess cmd cwd env ;;
  if negb (rc =? 0)%Z then
    let cmd := ["make"] ++ flags in
    rc <- util_create_subprocess cmd cwd env ;;
    if negb (rc =? 0)%Z
    then raise (SoftwarePackageError (title self +:+ " compilation failed")
                  None)
    else ret tt
  else ret tt.

Definition make_install (flags : list string) (env : gmap string string)
  (parallel : bool) : M St unit :=
  cwd <- assert_src_prefix ;;
  self <- get_self ;;
  let flags := if parallel then flags ++ parallel_make_flags None else flags in
  let cmd := ["make"; "install"] ++ flags in
  rc <- util_create_subprocess cmd cwd env ;;
  if negb (rc =? 0)%Z
  then raise (SoftwarePackageError (title self +:+ " installation failed")
                None)
  else
    (* Some systems use lib64 instead of lib *)
    has64 <- os_path_isdir (lib_path self +:+ "64") ;;
    if has64 then
      has <- os_path_isdir (lib_path self) ;;
      if negb has then os_symlink (lib_path self +:+ "64") (lib_path self)
      else ret tt
    else ret tt.

(** *** [AutotoolsInstallation.install] *)

(** The three steps of the [try] block of [install], which share the
    environment [env = {}]. *)
Definition configure_make_install : M St unit :=
  let env : gmap string string := ∅ in
  configure [] env ;;;
  make [] env true ;;;
  make_install [] env false.

(** The build: what [install] does from [LOGGER.info("Installing ...")] to
    its end. *)
Definition build_from_source : M St unit :=
  self <- get_self ;;
  cleaning <- os_path_isdir (install_prefix self) ;;
  (if cleaning then util_rmtree (install_prefix self) else ret tt) ;;;
  (* Try to build in shared memory, if available *)
  build_prefix <-
    try_except (d <- util_mkdtemp "/dev/shm" ;; ret (Some d))
      (fun err => if is_IOError err then Some (ret None) else None) ;;
  _prepare_src build_prefix true ;;;
  (* an exception of the three steps is logged and raised again *)
  configure_make_install ;;;
  (* Delete the decompressed source code; the compressed source archive is
     retained *)
  self <- get_self ;;
  match src_prefix self with
  | None => raise (TypeError "src_prefix")
  | Some staged => util_rmtree staged
  end ;;;
  (* Verify the new installation *)
  self_verify.

(** What [install] does once the loop over the dependencies is over. *)
Definition install_own (force_reinstall : bool) : M St unit :=
  self <- get_self ;;
  build <-
    (if negb (truthy (src self)) then
       try_except (self_verify ;;; ret true)
         (fun err =>
            if is_SoftwarePackageError err then
              Some (raise (SoftwarePackageError
                ("Invalid " +:+ title self +:+ " installation at "
                   +:+ quoted (install_prefix self) +:+ ": " +:+ str_exn err)
                (Some "Specify source code path or URL to enable broken package reinstallation.")))
            else None)
     else if negb force_reinstall then
       (* [return self.verify()], unless it raises *)
       try_except (self_verify ;;; ret false)
         (fun err =>
            if is_SoftwarePackageError err then Some (ret true) else None)
     else ret true) ;;
  if negb build then ret tt else build_from_source.

Fixpoint install (force_reinstall : bool) (self : Installation) (w : World)
  {struct self} : Res unit * St * list Event :=
  match each_dependency (install force_reinstall) (dependencies self) w with
  | (inl e, (deps, w1), t1) => (inl e, (set_dependencies deps self, w1), t1)
  | (inr _, (deps, w1), t1) =>
      match install_own force_reinstall (set_dependencies deps self, w1) with
      | (r, s2, t2) => (r, s2, t1 ++ t2)
      end
  end.

(** *** [Installation.__init__] *)

(** [Installation._lookup_target_os_list]: [None] stands for the literal
    [[]] returned for a false [dct]. *)
Definition _lookup_target_os_list {V} (target_arch : Architecture)
  (target_os : OperatingSystem) (dct : option (TargetDict V))
  : M St (option V) :=
  match dct with
  | Some d =>
      if negb (dict_truthy dct) then ret None
      else
        match td_default d with
        | None => raise (KeyError "None")
        | Some dflt =>
            match td_arch d !! target_arch with
            | None => ret (Some dflt)
            | Some arch_dct =>
                ret (Some (default
                             (default dflt (ad_default arch_dct))
                             (ad_os arch_dct !! target_os)))
            end
        end
  | None => ret None
  end.

(** The search of the storage hierarchy for an existing installation: the
    body of [for storage in reversed(ORDERED_LEVELS)], which stops at the
    first level where [verify] passes.  Returns whether the loop was left by
    [break]. *)
Fixpoint search_storage (levels : list Storage) (prefix name uid : string)
  : M St bool :=
  match levels with
  | [] => ret false
  | storage :: rest =>
      modify_self
        (_change_install_prefix
           (os_path_join_all (storage_prefix storage) [prefix; name; uid])) ;;;
      found <- try_except (self_verify ;;; ret true)
                 (fun err =>
                    if is_SoftwarePackageError err then Some (ret false)
                    else None) ;;
      if found then ret true else search_storage rest prefix name uid
  end.

(** The constructor runs as a method of the object under construction; the
    attributes [install_prefix], [include_path], [bin_path], [lib_path] and
    [_lockfile] do not exist before [_change_install_prefix] sets them. *)
Definition __init__ (name title prefix : string)
  (sources : gmap string string)
  (target_arch : Architecture) (target_os : OperatingSystem)
  (compilers : InstalledCompilerSet)
  (repos : option (TargetDict string))
  (commands libraries headers : option (TargetDict (list string)))
  (w : World) : Res unit * St * list Event :=
  let blank :=
    mkInstallation name title target_arch target_os compilers
      [] [] [] None false None "" "" "" "" "" [] in
  (cmds <- _lookup_target_os_list target_arch target_os commands ;;
   libs <- _lookup_target_os_list target_arch target_os libraries ;;
   hdrs <- _lookup_target_os_list target_arch target_os headers ;;
   modify_self (fun _ =>
     mkInstallation name title target_arch target_os compilers
       (default [] cmds) (default [] libs) (default [] hdrs)
       None false None "" "" "" "" "" []) ;;;
   match sources !! name with
   | None => raise (KeyError name)
   | Some src =>
       installed <- os_path_isdir src ;;
       if installed then
         modify_self (set_src None) ;;;
         modify_self (_change_install_prefix src) ;;;
         self_verify
       else
         url <- (if negb (String.eqb (lower src) "download")
                 then ret (Some src)
                 else _lookup_target_os_list target_arch target_os repos) ;;
         match url with
         | None => raise (TypeError "must be string or buffer, not list")
         | Some self_src =>
             modify_self (set_src (Some self_src)) ;;;
             let uid := md5_hexdigest P self_src in
             (* Search the storage hierarchy for an existing installation *)
             found <- search_storage (rev (ORDERED_LEVELS P)) prefix name uid ;;
             if found then ret tt
             else
               (* No existing installation found, install at highest
                  writable storage level *)
               storage <- highest_writable_storage ;;
               modify_self
                 (_change_install_prefix
                    (os_path_join_all (storage_prefix storage)
                       [prefix; name; uid]))
         end
   end) (blank, w).

(** *** [compiletime_config] and [runtime_config] *)

(** The arguments [opts] and [env] are references to a list and a dict on
    the heap, or [None]. *)
Definition new_list (l : list string) : M St nat :=
  fun s =>
    let r := fresh (dom (w_lists s.2)) in
    (inr r, (s.1, set_lists (<[r := l]> (w_lists s.2)) s.2), []).

Definition new_dict (d : gmap string string) : M St nat :=
  fun s =>
    let r := fresh (dom (w_dicts s.2)) in
    (inr r, (s.1, set_dicts (<[r := d]> (w_dicts s.2)) s.2), []).

Definition read_list (r : nat) : M St (list string) :=
  fun s =>
    match w_lists s.2 !! r with
    | Some l => (inr l, s, [])
    | None => (inl (TypeError "not a list"), s, [])
    end.

Definition read_dict (r : nat) : M St (gmap string string) :=
  fun s =>
    match w_dicts s.2 !! r with
    | Some d => (inr d, s, [])
    | None => (inl (TypeError "not a dict"), s, [])
    end.

(** [d[key] = value] on the dict at reference [r] *)
Definition dict_setitem (r : nat) (key value : string) : M St unit :=
  fun s =>
    match w_dicts s.2 !! r with
    | Some d =>
        (inr tt,
         (s.1, set_dicts (<[r := <[key := value]> d]> (w_dicts s.2)) s.2), [])
    | None => (inl (TypeError "not a dict"), s, [])
    end.

Definition get_environ : M St (gmap string string) :=
  fun s => (inr (w_environ s.2), s, []).

(** [opts = list(opts) if opts else []] *)
Definition copy_opts (opts : option nat) : M St nat :=
  match opts with
  | None => new_list []
  | Some r =>
      l <- read_list r ;;
      match l with
      | [] => new_list []
      | _ => new_list l
      end
  end.

(** [env = dict(env) if env else dict(os.environ)] *)
Definition copy_env (env : option nat) : M St nat :=
  match env with
  | None => environ <- get_environ ;; new_dict environ
  | Some r =>
      d <- read_dict r ;;
      if bool_decide (d = ∅)
      then environ <- get_environ ;; new_dict environ
      else new_dict d
  end.

(** [try: env[var] = os.pathsep.join([path, env[var]])]
    [except KeyError: env[var] = path] *)
Definition prepend_path (env : nat) (var path : string) : M St unit :=
  d <- read_dict env ;;
  match d !! var with
  | Some old => dict_setitem env var (path +:+ os_pathsep P +:+ old)
  | None => dict_setitem env var path
  end.

(** [list(set(opts))]: the elements of the set in the order in which the set
    enumerates them. *)
Definition list_of_set (l : list string) : list string :=
  elements (list_to_set l : gset string).

Definition compiletime_config (opts env : option nat) : M St (nat * nat) :=
  self <- get_self ;;
  opts <- copy_opts opts ;;
  env <- copy_env env ;;
  has_bin <- os_path_isdir (bin_path self) ;;
  (if has_bin then prepend_path env "PATH" (bin_path self) else ret tt) ;;;
  l <- read_list opts ;;
  out <- new_list (list_of_set l) ;;
  ret (out, env).

Definition runtime_config (opts env : option nat) : M St (nat * nat) :=
  self <- get_self ;;
  opts <- copy_opts opts ;;
  env <- copy_env env ;;
  has_bin <- os_path_isdir (bin_path self) ;;
  (if has_bin then prepend_path env "PATH" (bin_path self) else ret tt) ;;;
  has_lib <- os_path_isdir (lib_path self) ;;
  (if has_lib then
     let library_path :=
       if String.eqb (sys_platform P) "darwin" then "DYLD_LIBRARY_PATH"
       else "LD_LIBRARY_PATH" in
     prepend_path env library_path (lib_path self)
   else ret tt) ;;;
  l <- read_list opts ;;
  out <- new_list (list_of_set l) ;;
  ret (out, env).

End Methods.

Arguments w_fs {P} _.
Arguments w_locks {P} _.
Arguments w_environ {P} _.
Arguments w_lists {P} _.
Arguments w_dicts {P} _.

(** ** Validity of an installation, as a predicate on the file system *)

Section Validity.

Variable P : Platform.
Variable fs : FS P.

Definition command_ok (self : Installation) (cmd : string) : bool :=
  let path := os_path_join (bin_path self) cmd in
  fs_exists P fs path && fs_access_X_OK P fs path.

Definition library_ok (self : Installation) (lib : string) : bool :=
  fs_file_accessible P fs (os_path_join (lib_path self) lib)
  || fs_file_accessible P fs (os_path_join (lib_path self +:+ "64") lib).

Definition header_ok (self : Installation) (header : string) : bool :=
  fs_file_accessible P fs (os_path_join (include_path self) header).

(** The package's own files are in place. *)
Definition own_valid (self : Installation) : bool :=
  fs_exists P fs (install_prefix self)
  && forallb (command_ok self) (verify_commands self)
  && forallb (library_ok self) (verify_libraries self)
  && forallb (header_ok self) (verify_headers self).

(** So are those of its dependencies, recursively. *)
Fixpoint valid (self : Installation) : bool :=
  forallb (fun d => valid d.2) (dependencies self) && own_valid self.

End Validity.

(** [is_installed] set on the package and on all its dependencies. *)
Fixpoint mark_installed (self : Installation) : Installation :=
  set_is_installed true
    (set_dependencies
       (map (fun d => (d.1, mark_installed d.2)) (dependencies self)) self).

(** The attributes no method assigns after construction: the object with
    [is_installed] and [src_prefix] reset, recursively. *)
Fixpoint skeleton (self : Installation) : Installation :=
  set_is_installed false
    (set_src_prefix None
       (set_dependencies
          (map (fun d => (d.1, skeleton d.2)) (dependencies self)) self)).

(** Every package of the tree has a source specifier. *)
Fixpoint all_sources (self : Installation) : bool :=
  truthy (src self) && forallb (fun d => all_sources d.2) (dependencies self).


(** ** What the configuration methods return *)

Section Configuration.

Variable P : Platform.
Variable self : Installation.
Variable w : World P.

(** The dict [d] after [path] has been prepended to its variable [var]. *)
Definition prepended (var path : string) (d : gmap string string)
  : gmap string string :=
  match d !! var with
  | Some old => <[var := path +:+ os_pathsep P +:+ old]> d
  | None => <[var := path]> d
  end.

(** The list an [opts] argument refers to, and the dict an [env] argument
    stands for: its own entries, or those of [os.environ] when it is [None]
    or empty. *)
Definition opts_of (opts : option nat) : list string :=
  match opts with
  | Some r => default [] (w_lists w !! r)
  | None => []
  end.

Definition env_of (env : option nat) : gmap string string :=
  match env with
  | Some r =>
      let d := default ∅ (w_dicts w !! r) in
      if bool_decide (d = ∅) then w_environ w else d
  | None => w_environ w
  end.

Definition with_bin (d : gmap string string) : gmap string string :=
  if fs_isdir P (w_fs w) (bin_path self)
  then prepended "PATH" (bin_path self) d else d.

Definition with_lib (d : gmap string string) : gmap string string :=
  if fs_isdir P (w_fs w) (lib_path self)
  then prepended
         (if String.eqb (sys_platform P) "darwin" then "DYLD_LIBRARY_PATH"
          else "LD_LIBRARY_PATH")
         (lib_path self) d
  else d.

(** A reference that points nowhere, which no Python value is. *)
Definition dangling (opts env : option nat) : Prop :=
  (exists r, opts = Some r /\ w_lists w !! r = None)
  \/ (exists r, env = Some r /\ w_dicts w !! r = None).

(** The run [o] of a configuration method on [opts] and [env] leaves every
    object of the heap as it was, and returns a new list holding the
    elements of [opts] once each and a new dict holding [expected]. *)
Definition configured (opts env : option nat)
  (expected : gmap string string)
  (o : Res (nat * nat) * St P * list Event) : Prop :=
  (state o).1 = self /\
  w_fs (state o).2 = w_fs w /\
  w_locks (state o).2 = w_locks w /\
  w_environ (state o).2 = w_environ w /\
  w_lists w ⊆ w_lists (state o).2 /\
  w_dicts w ⊆ w_dicts (state o).2 /\
  match result o with
  | inr (out, env') =>
      w_lists w !! out = None /\
      w_dicts w !! env' = None /\
      w_dicts (state o).2 !! env' = Some expected /\
      exists l, w_lists (state o).2 !! out = Some l /\ NoDup l
                /\ forall x, x ∈ l <-> x ∈ opts_of opts
  | inl _ => dangling opts env
  end.

End Configuration.

(** ** The ways a verification can fail *)

Section Failures.

Variable P : Platform.
Variable self : Installation.
Variable w : World P.

Definition verify_fails (pkg : Installation) : Prop :=
  failed (result (verify P pkg w)) = true.

Definition dependency_fails : Prop :=
  Exists (fun d => verify_fails d.2) (dependencies self).

Definition prefix_missing : Prop :=
  fs_exists P (w_fs w) (install_prefix self) = false.

Definition command_missing : Prop :=
  Exists (fun cmd =>
            let path := os_path_join (bin_path self) cmd in
            fs_exists P (w_fs w) path = false
            \/ fs_access_X_OK P (w_fs w) path = false)
    (verify_commands self).

Definition library_missing : Prop :=
  Exists (fun lib =>
            fs_file_accessible P (w_fs w) (os_path_join (lib_path self) lib)
            = false
            /\ fs_file_accessible P (w_fs w)
                 (os_path_join (lib_path self +:+ "64") lib) = false)
    (verify_libraries self).

Definition header_missing : Prop :=
  Exists (fun header =>
            fs_file_accessible P (w_fs w)
              (os_path_join (include_path self) header) = false)
    (verify_headers self).

(** Verification completeness as the specification words it: the four
    causes of failure, and no other. *)
Definition verification_completeness : Prop :=
  verify_fails self <->
  command_missing \/ library_missing \/ header_missing \/ dependency_fails.

End Failures.

(** ** The install prefix a constructor settles on *)

Section Resolution.

Variable P : Platform.

(** [<storage_root>/<prefix>/<name>/<uid>] *)
Definition candidate (prefix name uid : string) (storage : Storage) : string :=
  os_path_join_all (storage_prefix storage) [prefix; name; uid].

(** The installation [self] would pass verification at the candidate
    prefix of [storage]. *)
Definition verifies_at (w : World P) (self : Installation)
  (prefix name uid : string) (storage : Storage) : bool :=
  own_valid P (w_fs w)
    (_change_install_prefix (candidate prefix name uid storage) self).

(** The install prefix of [self] is the candidate of the first level of
    [scan] at which it verifies or, when there is none, the candidate of the
    highest-precedence writable level. *)
Definition resolved_by (scan : list Storage) (prefix name : string)
  (w : World P) (self : Installation) : Prop :=
  exists url,
    src self = Some url /\
    match find (verifies_at w self prefix name (md5_hexdigest P url)) scan with
    | Some storage =>
        install_prefix self
        = candidate prefix name (md5_hexdigest P url) storage
    | None =>
        exists storage,
          find is_writable (rev (ORDERED_LEVELS P)) = Some storage /\
          install_prefix self
          = candidate prefix name (md5_hexdigest P url) storage
    end.

(** The resolution as the specification words it: the levels are scanned
    from lowest to highest precedence, that is, in the order of
    [ORDERED_LEVELS]. *)
Definition resolves_lowest_first (name title prefix : string)
  (sources : gmap string string)
  (target_arch : Architecture) (target_os : OperatingSystem)
  (compilers : InstalledCompilerSet)
  (repos : option (TargetDict string))
  (commands libraries headers : option (TargetDict (list string)))
  (w : World P) : Prop :=
  forall self w' t,
    __init__ P name title prefix sources target_arch target_os compilers
      repos commands libraries headers w = (inr tt, (self, w'), t) ->
    resolved_by (ORDERED_LEVELS P) prefix name w self.

End Resolution.

(** ** Runs and what they leave unchanged *)

Section Runs.

Context {P : Platform}.

(** A run that inspects the file system and either passes or raises
    [SoftwarePackageError], leaving the state as it is. *)
Definition checks (o : Res unit * St P * list Event) (s : St P)
  (ok : bool) : Prop :=
  state o = s /\ Forall (fun e => is_query e = true) (events o) /\
  (if ok then result o = inr tt
   else exists msg, result o = inl (SoftwarePackageError msg None)).

(** What a run of [verify] amounts to. *)
Definition verify_post (self : Installation) (w : World P) : Prop :=
  exists r self' t,
    verify P self w = (r, (self', w), t) /\
    Forall (fun e => is_query e = true) t /\
    skeleton self' = skeleton self /\
    if valid P (w_fs w) self
    then r = inr tt /\ self' = mark_installed self
    else exists msg, r = inl (SoftwarePackageError msg None).

Definition refers_to {A} (m : gmap nat A) (r : option nat) : Prop :=
  forall x, r = Some x -> is_Some (m !! x).

(** The archive [_prepare_src] settles on, before it reads it. *)
Definition locate_archive (bp : option string) (reuse : bool)
  (s : St P) : Res (option string * option string) * St P * list Event :=
  let archive_name := os_path_basename (default "" (src s.1)) in
  (if reuse
   then search_archive P (rev (ORDERED_LEVELS P)) archive_name bp None
   else acquire_archive P s.1 archive_name bp) s.

(** Cleaning the prefix and asking for a build directory: the start of a
    build, which does not depend on the package having sources. *)
Definition cleaned (self : Installation) (w : World P) : World P :=
  if fs_isdir P (w_fs w) (install_prefix self)
  then set_fs P (fs_rmtree P (install_prefix self) (w_fs w)) w else w.

Definition cleaning_events (self : Installation) (w : World P)
  : list Event :=
  EvIsdir (install_prefix self)
  :: (if fs_isdir P (w_fs w) (install_prefix self)
      then [EvRmtree (install_prefix self)] else []).

(** The run [o], preceded by the events [t]. *)
Definition after {S A} (t : list Event) (o : Res A * S * list Event)
  : Res A * S * list Event :=
  (result o, state o, t ++ events o).

(** A step keeps the skeleton of [self]. *)
Definition keeps {A} (m : M (St P) A) : Prop :=
  forall s, skeleton (state (m s)).1 = skeleton s.1.

End Runs.

(** ** A small platform to run the code on

    Files are listed by path; a directory tree is removed by dropping the
    paths below it.  Downloads succeed for the sources listed in [online];
    an archive whose path is in [corrupt] cannot be read.  Every archive
    unpacks to the directory [pkg].  The build script decides what the
    subprocesses do. *)

Module Toy.

Record Disk : Type := mkDisk {
  dirs : list string;
  files : list string;       (* readable regular files *)
  execs : list string;       (* executable regular files *)
  online : list string;      (* sources that can be fetched *)
  corrupt : list string      (* unreadable archives *)
}.

Definition mem (p : string) (l : list string) : bool :=
  existsb (String.eqb p) l.

Definition below (root p : string) : bool :=
  String.eqb root p || String.prefix (root +:+ "/") p.

Definition prune (root : string) (l : list string) : list string :=
  filter (fun p => negb (below root p)) l.

Definition add_dir (p : string) (d : Disk) : Disk :=
  mkDisk (p :: dirs d) (files d) (execs d) (online d) (corrupt d).

Definition add_file (p : string) (d : Disk) : Disk :=
  mkDisk (dirs d) (p :: files d) (execs d) (online d) (corrupt d).

Definition add_exec (p : string) (d : Disk) : Disk :=
  mkDisk (dirs d) (files d) (p :: execs d) (online d) (corrupt d).

Definition exists_ (d : Disk) (p : string) : bool :=
  mem p (dirs d) || mem p (files d) || mem p (execs d).

Definition rmtree (root : string) (d : Disk) : Disk :=
  mkDisk (prune root (dirs d)) (prune root (files d)) (prune root (execs d))
    (online d) (corrupt d).

Definition mkdtemp (dir : string) (d : Disk) : string + string * Disk :=
  if mem dir (dirs d)
  then inr (dir +:+ "/tmp0", add_dir (dir +:+ "/tmp0") d)
  else inl ("No such directory: " +:+ dir).

Definition copy (from to : string) (d : Disk) : string + Disk :=
  if mem from (files d) then inr (add_file to d)
  else inl ("No such file: " +:+ from).

Definition download (from to : string) (d : Disk) : string + Disk :=
  if mem from (online d) then inr (add_file to d)
  else inl ("Cannot fetch " +:+ from).

Definition archive_toplevel (archive : string) (d : Disk) : string + string :=
  if mem archive (files d) && negb (mem archive (corrupt d)) then inr "pkg"
  else inl "not an archive".

Definition extract_archive (archive dst : string) (d : Disk)
  : string + string * Disk :=
  if mem archive (files d) && negb (mem archive (corrupt d))
  then inr (dst +:+ "/pkg", add_dir (dst +:+ "/pkg") d)
  else inl "not an archive".

Definition symlink (target link : string) (d : Disk) : string + Disk :=
  if exists_ d link then inl ("File exists: " +:+ link)
  else inr (add_dir link d).

Definition Script : Type :=
  list string -> string -> gmap string string -> Disk -> Z * Disk.

Definition platform (script : Script) (cpus : Z) (levels : list Storage)
  : Platform :=
  {| FS := Disk;
     fs_exists := exists_;
     fs_isdir := fun d p => mem p (dirs d);
     fs_access_X_OK := fun d p => mem p (execs d) || mem p (dirs d);
     fs_file_accessible := fun d p => mem p (files d) || mem p (execs d);
     fs_rmtree := rmtree;
     fs_mkdirp := fun p d => inr (add_dir p d);
     fs_mkdtemp := mkdtemp;
     fs_copy := copy;
     fs_download := download;
     fs_archive_toplevel := archive_toplevel;
     fs_extract_archive := extract_archive;
     fs_symlink := symlink;
     fs_create_subprocess := script;
     cpu_count := cpus;
     md5_hexdigest := fun s => "md5_" +:+ pretty (String.length s);
     os_pathsep := ":";
     sys_platform := "linux2";
     ORDERED_LEVELS := levels |}.

(** Two storage levels, from lowest to highest precedence. *)
Definition user_storage : Storage := mkStorage "user" "/home/u/.tau" true.
Definition system_storage : Storage := mkStorage "system" "/opt/tau" false.
Definition levels : list Storage := [user_storage; system_storage].

(** A build script whose every command succeeds and changes nothing. *)
Definition idle : Script := fun _ _ _ d => (0%Z, d).

(** A build script whose parallel [make] fails. *)
Definition flaky : Script := fun cmd _ _ d =>
  match cmd with
  | "make" :: "-j" :: _ => (2%Z, d)
  | _ => (0%Z, d)
  end.

(** The platform whose builds do nothing, on a machine with four cores. *)
Definition linux : Platform := platform idle 4 levels.

(** A world with the given disk, no lock held and an empty heap. *)
Definition world (script : Script) (cpus : Z) (levels : list Storage)
  (fs : Disk) : World (platform script cpus levels) :=
  mkWorld (platform script cpus levels) fs ∅ ∅ ∅ ∅.

Definition linux_world (fs : Disk) : World linux := world idle 4 levels fs.

Definition empty_disk : Disk := mkDisk [] [] [] [] [].

Definition gcc : InstalledCompilerSet := mkCompilers "GNU" ["gcc"; "g++"].

(** A package [name] installed at [prefix] from [source], with the given
    requirements and no dependencies. *)
Definition package (name : string) (source : option string) (prefix : string)
  (commands libraries headers : list string) : Installation :=
  _change_install_prefix prefix
    (mkInstallation name name "x86_64" "Linux" gcc
       commands libraries headers None false source "" "" "" "" "" []).

(** The package used in the examples: PDT, built from a downloaded
    archive; a valid installation provides the command [cparse]. *)
Definition pdt_url : string := "http://tau.uoregon.edu/pdt.tgz".

Definition pdt : Installation :=
  package "pdt" (Some pdt_url) "/home/u/.tau/pdt" ["cparse"] [] [].

(** A build script whose [make install] puts PDT in place. *)
Definition builder : Script := fun cmd _ _ d =>
  match cmd with
  | ["make"; "install"] =>
      (0%Z, add_exec "/home/u/.tau/pdt/bin/cparse"
              (add_dir "/home/u/.tau/pdt/bin"
                 (add_dir "/home/u/.tau/pdt" d)))
  | _ => (0%Z, d)
  end.

(** A machine on which nothing is installed yet: shared memory is
    available and the PDT archive can be downloaded. *)
Definition fresh_disk : Disk := mkDisk ["/dev/shm"] [] [] [pdt_url] [].

(** That machine, with the build script above. *)
Definition workshop : Platform := platform builder 4 levels.

Definition fresh_world : World workshop := world builder 4 levels fresh_disk.

(** PAPI installed by the system administrator under [/opt/papi], and
    named to the tool by that directory: a package without sources. *)
Definition papi : Installation :=
  package "papi" None "/opt/papi" [] ["libpapi.a"] ["papi.h"].

Definition papi_disk : Disk :=
  mkDisk ["/opt/papi"; "/opt/papi/lib"; "/opt/papi/include"]
    ["/opt/papi/lib/libpapi.a"; "/opt/papi/include/papi.h"] [] [] [].

(** The arguments with which PDT is constructed, and a machine on which
    the same PDT is installed at both storage levels. *)
Definition pdt_sources : gmap string string := {[ "pdt" := pdt_url ]}.

Definition pdt_commands : option (TargetDict (list string)) :=
  Some (mkTargetDict (Some ["cparse"]) ∅).

Definition twice_disk : Disk :=
  mkDisk ["/home/u/.tau/x86_64/pdt/md5_30"; "/opt/tau/x86_64/pdt/md5_30"]
    [] ["/home/u/.tau/x86_64/pdt/md5_30/bin/cparse";
        "/opt/tau/x86_64/pdt/md5_30/bin/cparse"] [] [].

(** The same package once its sources are staged. *)
Definition staged_pdt : Installation :=
  set_src_prefix (Some "/dev/shm/tmp0/pkg") pdt.

End Toy.

(** ** Further notions used to describe the code *)

(** The object with [is_installed] reset on the package and on all its
    dependencies: what [verify] cannot change. *)
Fixpoint unmarked (self : Installation) : Installation :=
  set_is_installed false
    (set_dependencies
       (map (fun d => (d.1, unmarked d.2)) (dependencies self)) self).

Definition is_download (e : Event) : bool :=
  match e with EvDownload _ _ => true | _ => false end.

Definition is_extract (e : Event) : bool :=
  match e with EvExtract _ _ => true | _ => false end.

Definition is_symlink (e : Event) : bool :=
  match e with EvSymlink _ _ _ => true | _ => false end.

(** The first command of [make]. *)
Definition first_make {P : Platform} (flags : list string) (parallel : bool)
  : list string :=
  ["make"] ++ (if parallel then parallel_make_flags P None else []) ++ flags.

Section Effects.

Context {P : Platform}.

(** A step that changes at most the files of the world, and nothing of the
    object. *)
Definition quiet {A} (m : M (St P) A) : Prop :=
  forall s, exists fs', state (m s) = (s.1, set_fs P fs' s.2).

(** A step that changes at most the files of the world, sets [src_prefix]
    when it returns, and changes nothing of the object when it raises. *)
Definition stages {A} (m : M (St P) A) : Prop :=
  forall s,
    exists fs',
      (state (m s)).2 = set_fs P fs' s.2 /\
      match result (m s) with
      | inr _ => exists p, (state (m s)).1 = set_src_prefix (Some p) s.1
      | inl _ => (state (m s)).1 = s.1
      end.

(** A step that changes, of the world, at most the files: the locks, the
    environment and the heap are as before. *)
Definition only_files {A} (m : M (St P) A) : Prop :=
  forall s, exists fs', (state (m s)).2 = set_fs P fs' s.2.

End Effects.

(** The directories and the lock file of an installation are those that
    [_change_install_prefix] derives from its install prefix. *)
Definition paths_derived (self : Installation) : Prop :=
  include_path self = os_path_join (install_prefix self) "include"
  /\ bin_path self = os_path_join (install_prefix self) "bin"
  /\ lib_path self = os_path_join (install_prefix self) "lib"
  /\ _lockfile self = os_path_join (install_prefix self) ".tau_lock".

(** ** Further runs on the small platform *)

Module Examples.

(** PAPI named to the tool by the directory where it is installed. *)
Definition papi_sources : gmap string string := {[ "papi" := "/opt/papi" ]}.

Definition papi_libraries : option (TargetDict (list string)) :=
  Some (mkTargetDict (Some ["libpapi.a"]) ∅).

Definition papi_headers : option (TargetDict (list string)) :=
  Some (mkTargetDict (Some ["papi.h"]) ∅).

(** PDT asked for by the keyword, in capitals. *)
Definition download_sources : gmap string string :=
  {[ "pdt" := "Download" ]}.

(** A machine on which PDT is installed at its prefix. *)
Definition pdt_disk : Toy.Disk :=
  Toy.mkDisk ["/home/u/.tau/pdt"; "/home/u/.tau/pdt/bin"] []
    ["/home/u/.tau/pdt/bin/cparse"] [] [].

(** A machine without shared memory, on which the PDT archive kept by the
    system level cannot be read. *)
Definition stale_disk : Toy.Disk :=
  Toy.mkDisk [] ["/opt/tau/src/pdt.tgz"] [] [Toy.pdt_url]
    ["/opt/tau/src/pdt.tgz"].

Definition stale_world : World Toy.workshop :=
  Toy.world Toy.builder 4 Toy.levels stale_disk.

(** What the search of the storage levels settles on there: the build
    prefix and the archive of the system level. *)
Definition stale_found : option string * option string :=
  (Some "/opt/tau/src", Some "/opt/tau/src/pdt.tgz").

(** The construction of PDT on the machine where it is installed at both
    storage levels. *)
Definition pdt_init : Res unit * St Toy.linux * list Event :=
  __init__ Toy.linux "pdt" "PDT" "x86_64" Toy.pdt_sources
    "x86_64" "Linux" Toy.gcc None Toy.pdt_commands None None
    (Toy.linux_world Toy.twice_disk).

End Examples.


(** * Properties *)

(** ** Induction on an installation and its dependencies *)

Lemma Installation_tree_ind (Q : Installation -> Prop) :
  (forall self, Forall (fun d => Q d.2) (dependencies self) -> Q self) ->
  forall self, Q self.
Proof.
  intros step.
  fix IH 1. intros self. apply step.
  destruct self as [? ? ? ? ? ? ? ? ? ? ? ? ? ? ? ? deps]. simpl.
  induction deps as [|[k d] rest IHrest]; constructor; [apply IH | exact IHrest].
Qed.

Section Properties.

Variable P : Platform.


(** ** Running the monad *)

Lemma bind_inr {S A B} (m : M S A) (k : A -> M S B) s a s1 t1 :
  m s = (inr a, s1, t1) ->
  bind m k s = (result (k a s1), state (k a s1), t1 ++ events (k a s1)).
Proof.
  intros E. unfold bind. rewrite E. destruct (k a s1) as [[r s2] t2]. done.
Qed.

Lemma bind_inl {S A B} (m : M S A) (k : A -> M S B) s e s1 t1 :
  m s = (inl e, s1, t1) -> bind m k s = (inl e, s1, t1).
Proof. intros E. unfold bind. by rewrite E. Qed.

Lemma run_eta {S A} (o : Res A * S * list Event) :
  o = (result o, state o, events o).
Proof. by destruct o as [[? ?] ?]. Qed.


(** ** [verify] only looks: its checks and what they decide *)

Lemma check_command_checks self cmd s :
  checks (check_command P self cmd s) s (command_ok P (w_fs s.2) self cmd).
Proof.
  unfold checks, check_command, command_ok, bind, os_path_exists,
    os_access_X_OK, query, raise, ret; simpl.
  destruct (fs_exists P _ _); simpl; [|by eauto 10].
  destruct (fs_access_X_OK P _ _); simpl; by eauto 10.
Qed.

Lemma check_library_checks self lib s :
  checks (check_library P self lib s) s (library_ok P (w_fs s.2) self lib).
Proof.
  unfold checks, check_library, library_ok, bind, util_file_accessible,
    query, raise, ret; simpl.
  destruct (fs_file_accessible P _ (os_path_join (lib_path self) lib));
    simpl; [by eauto 10|].
  destruct (fs_file_accessible P _ _); simpl; by eauto 10.
Qed.

Lemma check_header_checks self header s :
  checks (check_header P self header s) s (header_ok P (w_fs s.2) self header).
Proof.
  unfold checks, check_header, header_ok, bind, util_file_accessible,
    query, raise, ret; simpl.
  destruct (fs_file_accessible P _ _); simpl; by eauto 10.
Qed.

Lemma for_checks {A} (body : A -> M (St P) unit) (ok : A -> bool) s l :
  (forall x, checks (body x s) s (ok x)) ->
  checks (for_ l body s) s (forallb ok l).
Proof.
  intros Hbody. induction l as [|x l IH]; simpl.
  - by repeat split.
  - destruct (Hbody x) as (Hs & Hq & Hr).
    destruct (body x s) as [[r s1] t1] eqn:E; simpl in *. subst s1.
    destruct (ok x); simpl.
    + subst r. rewrite (bind_inr _ _ _ _ _ _ E).
      destruct IH as (IHs & IHq & IHr). repeat split; simpl; [done| |done].
      apply Forall_app; done.
    + destruct Hr as [msg ->]. rewrite (bind_inl _ _ _ _ _ _ E).
      repeat split; simpl; eauto.
Qed.


Local Ltac queries :=
  by repeat first [apply Forall_nil | apply Forall_cons; split
                  | apply Forall_app; split].

Local Ltac finish_run :=
  do 2 eexists; split; [reflexivity|]; split; [queries|by eauto].

Lemma verify_own_run self w :
  exists r t,
    verify_own P (self, w)
    = (r, (if own_valid P (w_fs w) self then set_is_installed true self
           else self, w), t) /\
    Forall (fun e => is_query e = true) t /\
    if own_valid P (w_fs w) self then r = inr tt
    else exists msg, r = inl (SoftwarePackageError msg None).
Proof.
  unfold verify_own, own_valid.
  unfold bind at 1; cbn [get_self fst snd].
  unfold bind at 1, os_path_exists at 1, query at 1; cbn [fst snd].
  destruct (fs_exists P (w_fs w) (install_prefix self));
    cbn [negb andb]; [|unfold bind, raise; finish_run].
  unfold bind at 1, ret at 1.
  pose proof (for_checks (check_command P self) (command_ok P (w_fs w) self)
                (self, w) (verify_commands self)
                (fun x => check_command_checks self x (self, w))) as Hc.
  unfold bind at 1.
  destruct (for_ (verify_commands self) _ _) as [[r1 s1] t1].
  destruct Hc as (Hs & Hq & Hr); simpl in Hs, Hq, Hr; subst s1.
  destruct (forallb (command_ok _ _ _) _); cbn [andb];
    [subst r1|destruct Hr as [msg ->]; finish_run].
  pose proof (for_checks (check_library P self) (library_ok P (w_fs w) self)
                (self, w) (verify_libraries self)
                (fun x => check_library_checks self x (self, w))) as Hl.
  unfold bind at 1.
  destruct (for_ (verify_libraries self) _ _) as [[r2 s2] t2].
  destruct Hl as (Hs2 & Hq2 & Hr2); simpl in Hs2, Hq2, Hr2; subst s2.
  destruct (forallb (library_ok _ _ _) _); cbn [andb];
    [subst r2|destruct Hr2 as [msg ->]; finish_run].
  pose proof (for_checks (check_header P self) (header_ok P (w_fs w) self)
                (self, w) (verify_headers self)
                (fun x => check_header_checks self x (self, w))) as Hh.
  unfold bind at 1.
  destruct (for_ (verify_headers self) _ _) as [[r3 s3] t3].
  destruct Hh as (Hs3 & Hq3 & Hr3); simpl in Hs3, Hq3, Hr3; subst s3.
  destruct (forallb (header_ok _ _ _) _).
  - subst r3. unfold modify_self; cbn [fst snd]. finish_run.
  - destruct Hr3 as [msg ->]. finish_run.
Qed.

Lemma valid_unfold fs self :
  valid P fs self
  = forallb (fun d => valid P fs d.2) (dependencies self) && own_valid P fs self.
Proof. by destruct self. Qed.

Lemma mark_installed_unfold self :
  mark_installed self
  = set_is_installed true
      (set_dependencies
         (map (fun d => (d.1, mark_installed d.2)) (dependencies self)) self).
Proof. by destruct self. Qed.

Lemma skeleton_unfold self :
  skeleton self
  = set_is_installed false
      (set_src_prefix None
         (set_dependencies
            (map (fun d => (d.1, skeleton d.2)) (dependencies self)) self)).
Proof. by destruct self. Qed.

Lemma all_sources_unfold self :
  all_sources self
  = truthy (src self)
    && forallb (fun d => all_sources d.2) (dependencies self).
Proof. by destruct self. Qed.

Lemma each_verify_run deps w :
  Forall (fun d => forall w : World P, verify_post d.2 w) deps ->
  exists r deps' t,
    each_dependency P (verify P) deps w = (r, (deps', w), t) /\
    Forall (fun e => is_query e = true) t /\
    map (fun d => (d.1, skeleton d.2)) deps'
    = map (fun d => (d.1, skeleton d.2)) deps /\
    if forallb (fun d => valid P (w_fs w) d.2) deps
    then r = inr tt
         /\ deps' = map (fun d => (d.1, mark_installed d.2)) deps
    else exists msg, r = inl (SoftwarePackageError msg None).
Proof.
  induction 1 as [|[k d] rest Hd _ IH]; cbn [each_dependency forallb map].
  - by exists (inr tt), [], [].
  - destruct (Hd w) as (r & d' & t1 & E & Hq & Hsk & Hr).
    cbn [snd] in *. rewrite E.
    destruct (valid P (w_fs w) d); cbn [andb].
    + destruct Hr as [-> ->].
      destruct IH as (r2 & rest' & t2 & -> & IHq & IHsk & IHr).
      do 3 eexists; split; [reflexivity|].
      split; [by apply Forall_app|].
      split; [cbn [map fst snd]; by rewrite IHsk, Hsk|].
      destruct (forallb _ rest); [|done].
      by destruct IHr as [-> ->].
    + destruct Hr as [msg ->].
      do 3 eexists; split; [reflexivity|].
      split; [done|]. split; [cbn [map fst snd]; by rewrite Hsk|by eauto].
Qed.

Lemma own_valid_irrel fs (a b : Installation) :
  install_prefix a = install_prefix b -> bin_path a = bin_path b ->
  lib_path a = lib_path b -> include_path a = include_path b ->
  verify_commands a = verify_commands b ->
  verify_libraries a = verify_libraries b ->
  verify_headers a = verify_headers b ->
  own_valid P fs a = own_valid P fs b.
Proof.
  intros E1 E2 E3 E4 E5 E6 E7.
  unfold own_valid, command_ok, library_ok, header_ok.
  by rewrite E1, E2, E3, E4, E5, E6, E7.
Qed.

Lemma verify_unfold self w :
  verify P self w
  = match each_dependency P (verify P) (dependencies self) w with
    | (inl e, (deps, w1), t1) => (inl e, (set_dependencies deps self, w1), t1)
    | (inr _, (deps, w1), t1) =>
        match verify_own P (set_dependencies deps self, w1) with
        | (r, s2, t2) => (r, s2, t1 ++ t2)
        end
    end.
Proof. by destruct self. Qed.

Lemma skeleton_set_dependencies deps deps' self :
  map (fun d => (d.1, skeleton d.2)) deps'
  = map (fun d => (d.1, skeleton d.2)) deps ->
  skeleton (set_dependencies deps' self) = skeleton (set_dependencies deps self).
Proof. intros E. rewrite !skeleton_unfold; cbn. by rewrite E. Qed.

Lemma set_dependencies_id self :
  set_dependencies (dependencies self) self = self.
Proof. by destruct self. Qed.

Lemma verify_run self : forall w : World P, verify_post self w.
Proof.
  induction self as [self IH] using Installation_tree_ind. intros w.
  destruct (each_verify_run (dependencies self) w IH)
    as (r & deps' & t1 & E & Hq & Hsk & Hr).
  unfold verify_post. rewrite valid_unfold, verify_unfold, E.
  assert (skeleton (set_dependencies deps' self) = skeleton self) as Hsk'.
  { rewrite (skeleton_set_dependencies (dependencies self)) by done.
    by rewrite set_dependencies_id. }
  destruct (forallb _ (dependencies self)); cbn [andb].
  - destruct Hr as [-> ->].
    destruct (verify_own_run
      (set_dependencies (map (fun d => (d.1, mark_installed d.2))
                           (dependencies self)) self) w)
      as (r2 & t2 & E2 & Hq2 & Hown).
    rewrite E2.
    rewrite (own_valid_irrel (w_fs w) _ self) in Hown |- * by done.
    do 3 eexists; split; [reflexivity|].
    split; [by apply Forall_app|].
    destruct (own_valid P (w_fs w) self).
    + subst r2. split; [|by rewrite mark_installed_unfold].
      by rewrite <- Hsk', !skeleton_unfold.
    + split; [done|]. destruct Hown as [msg ->]. by eauto.
  - destruct Hr as [msg ->].
    do 3 eexists; split; [reflexivity|]. split; [done|].
    split; [done|by eauto].
Qed.


Lemma verify_fails_valid self w :
  verify_fails P w self <-> valid P (w_fs w) self = false.
Proof.
  unfold verify_fails.
  destruct (verify_run self w) as (r & self' & t & -> & _ & _ & Hr). cbn.
  destruct (valid P (w_fs w) self).
  - by destruct Hr as [-> _].
  - by destruct Hr as [msg ->].
Qed.

Lemma forallb_false {A} (f : A -> bool) l :
  forallb f l = false <-> Exists (fun x => f x = false) l.
Proof.
  induction l as [|x l IH]; cbn.
  - split; [done|]. by inversion 1.
  - rewrite andb_false_iff, IH, Exists_cons. done.
Qed.

(** C2 (amended). [verify] raises if and only if the install prefix does
    not exist, or a required command is missing or not executable under
    [bin], or a required library is accessible neither under [lib] nor
    under [lib64], or a required header is not accessible under [include],
    or the verification of a dependency raises.  The check of one library
    raises exactly when the library is accessible under neither
    directory, so that a library found only under [lib64] passes. *)
Theorem verify_fails_iff self w :
  (verify_fails P w self <->
   prefix_missing P self w \/ command_missing P self w
   \/ library_missing P self w \/ header_missing P self w
   \/ dependency_fails P self w)
  /\ (forall lib,
        failed (result (check_library P self lib (self, w))) = true <->
        fs_file_accessible P (w_fs w) (os_path_join (lib_path self) lib)
        = false
        /\ fs_file_accessible P (w_fs w)
             (os_path_join (lib_path self +:+ "64") lib) = false).
Proof.
  split.
  - rewrite verify_fails_valid, valid_unfold.
    unfold prefix_missing, command_missing, library_missing, header_missing,
      dependency_fails, own_valid.
    rewrite !andb_false_iff, !forallb_false.
    unfold command_ok, library_ok, header_ok.
    setoid_rewrite andb_false_iff. setoid_rewrite orb_false_iff.
    setoid_rewrite verify_fails_valid. tauto.
  - intros lib.
    destruct (check_library_checks self lib (self, w)) as (_ & _ & Hr).
    unfold library_ok in Hr. cbn [snd] in Hr. rewrite <- orb_false_iff.
    destruct (_ || _).
    + rewrite Hr. done.
    + destruct Hr as [msg ->]. done.
Qed.


(** ** The build driver *)

(** C6. With a staged source tree, [make] with parallelism runs
    [make -j n flags] with [n = max(1, cpu_count - 1)]; if that exits
    non-zero it runs the same command without the parallelism flags, once;
    it raises [SoftwarePackageError] if that second run fails as well, and
    runs nothing further. *)
Theorem make_retries_serially_once flags env self w :
  truthy (src_prefix self) = true ->
  let cwd := default "" (src_prefix self) in
  let parallel_cmd :=
    ["make"] ++ ["-j"; pretty (Z.max 1 (cpu_count P - 1))] ++ flags in
  let serial_cmd := ["make"] ++ flags in
  let run1 := fs_create_subprocess P parallel_cmd cwd env (w_fs w) in
  let run2 := fs_create_subprocess P serial_cmd cwd env run1.2 in
  make P flags env true (self, w)
  = if (run1.1 =? 0)%Z
    then (inr tt, (self, set_fs P run1.2 w),
          [EvSubprocess parallel_cmd cwd run1.1])
    else (if (run2.1 =? 0)%Z then inr tt
          else inl (SoftwarePackageError
                      (title self +:+ " compilation failed") None),
          (self, set_fs P run2.2 w),
          [EvSubprocess parallel_cmd cwd run1.1;
           EvSubprocess serial_cmd cwd run2.1]).
Proof.
  intros Hsrc. cbv zeta.
  unfold make, assert_src_prefix.
  unfold bind at 1. unfold bind at 1; cbn [get_self fst snd].
  rewrite Hsrc. unfold ret at 1. unfold bind at 1; cbn [get_self fst snd].
  unfold parallel_make_flags.
  unfold bind at 1, util_create_subprocess at 1; cbn [fst snd].
  destruct (fs_create_subprocess P _ _ _ (w_fs w)) as [rc1 fs1]; cbn [fst snd].
  destruct (rc1 =? 0)%Z; cbn [negb]; [done|].
  unfold bind at 1, util_create_subprocess at 1; cbn [fst snd set_fs w_fs].
  destruct (fs_create_subprocess P _ _ _ fs1) as [rc2 fs2]; cbn [fst snd].
  by destruct (rc2 =? 0)%Z.
Qed.

(** ** The installation as a context manager *)

(** C9. [__enter__] creates the install prefix and acquires the lock file
    when the package has a source specifier, and does nothing at all
    otherwise; [__exit__] returns normally, with [False], from every state,
    whether the lock is held or not, so also after an [__enter__] that
    acquired nothing. *)
Theorem enter_exit self w :
  __enter__ P (self, w)
  = (if truthy (src self) then
       match fs_mkdirp P (install_prefix self) (w_fs w) with
       | inl msg =>
           (inl (OSError msg), (self, w), [EvMkdirp (install_prefix self)])
       | inr fs' =>
           (inr tt,
            (self, set_locks P ({[ _lockfile self ]} ∪ w_locks w)
                     (set_fs P fs' w)),
            [EvMkdirp (install_prefix self); EvAcquire (_lockfile self)])
       end
     else (inr tt, (self, w), []))
  /\ (forall s : St P,
        __exit__ P s
        = (inr false,
           (s.1, if decide (_lockfile s.1 ∈ w_locks s.2)
                 then set_locks P (w_locks s.2 ∖ {[ _lockfile s.1 ]}) s.2
                 else s.2),
           [EvRelease (_lockfile s.1)]))
  /\ result (__exit__ P (state (__enter__ P (self, w)))) = inr false.
Proof.
  assert (forall s : St P,
        __exit__ P s
        = (inr false,
           (s.1, if decide (_lockfile s.1 ∈ w_locks s.2)
                 then set_locks P (w_locks s.2 ∖ {[ _lockfile s.1 ]}) s.2
                 else s.2),
           [EvRelease (_lockfile s.1)])) as Hexit.
  { intros [self' w']. unfold __exit__.
    unfold bind at 1; cbn [get_self fst snd].
    unfold bind at 1, try_except, lockfile_release; cbn [fst snd].
    by destruct (decide _). }
  split; [|split; [exact Hexit|by rewrite Hexit]].
  unfold __enter__. unfold bind at 1; cbn [get_self fst snd].
  destruct (truthy (src self)); [|done].
  unfold bind, util_mkdirp, fs_step, unit_step; cbn [fst snd].
  by destruct (fs_mkdirp P _ _).
Qed.

(** ** The configuration methods *)

Lemma copy_opts_run opts self w :
  copy_opts P opts (self, w)
  = match opts with
    | Some r =>
        match w_lists w !! r with
        | None => (inl (TypeError "not a list"), (self, w), [])
        | Some _ =>
            (inr (fresh (dom (w_lists w))),
             (self, set_lists P (<[fresh (dom (w_lists w)) := opts_of P w opts]>
                                   (w_lists w)) w), [])
        end
    | None =>
        (inr (fresh (dom (w_lists w))),
         (self, set_lists P (<[fresh (dom (w_lists w)) := opts_of P w opts]>
                               (w_lists w)) w), [])
    end.
Proof.
  destruct opts as [r|]; [|done].
  unfold copy_opts, bind, read_list, opts_of, new_list; cbn [fst snd].
  destruct (w_lists w !! r) as [[|x l]|]; cbn; by rewrite ?app_nil_r.
Qed.

Lemma copy_env_run env self w :
  copy_env P env (self, w)
  = match env with
    | Some r =>
        match w_dicts w !! r with
        | None => (inl (TypeError "not a dict"), (self, w), [])
        | Some _ =>
            (inr (fresh (dom (w_dicts w))),
             (self, set_dicts P (<[fresh (dom (w_dicts w)) := env_of P w env]>
                                   (w_dicts w)) w), [])
        end
    | None =>
        (inr (fresh (dom (w_dicts w))),
         (self, set_dicts P (<[fresh (dom (w_dicts w)) := env_of P w env]>
                               (w_dicts w)) w), [])
    end.
Proof.
  destruct env as [r|]; [|done].
  unfold copy_env, bind, read_dict, env_of, new_dict, get_environ;
    cbn [fst snd].
  destruct (w_dicts w !! r) as [d|]; [|done].
  cbn [from_option id fst snd].
  destruct (bool_decide (d = ∅)); reflexivity.
Qed.

Lemma prepend_path_run env var path self w d :
  w_dicts w !! env = Some d ->
  prepend_path P env var path (self, w)
  = (inr tt,
     (self, set_dicts P (<[env := prepended P var path d]> (w_dicts w)) w),
     []).
Proof.
  intros E. unfold prepend_path, bind, read_dict, prepended; cbn [fst snd].
  rewrite E.
  destruct (d !! var); unfold dict_setitem; cbn [fst snd]; by rewrite E.
Qed.

Lemma fresh_lookup {A} (m : gmap nat A) : m !! fresh (dom m) = None.
Proof. apply not_elem_of_dom, is_fresh. Qed.

Lemma fresh_lookup_insert {A} (m : gmap nat A) x :
  m !! fresh (dom (<[fresh (dom m) := x]> m)) = None.
Proof.
  apply not_elem_of_dom. intros Hin.
  apply (is_fresh (dom (<[fresh (dom m) := x]> m))).
  apply elem_of_dom, lookup_insert_is_Some'. right. by apply elem_of_dom.
Qed.

Lemma list_of_set_spec l :
  NoDup (list_of_set l) /\ forall x, x ∈ list_of_set l <-> x ∈ l.
Proof.
  unfold list_of_set. split; [apply NoDup_elements|].
  intros x. by rewrite elem_of_elements, elem_of_list_to_set.
Qed.

Lemma copy_opts_ok opts self w :
  refers_to (w_lists w) opts ->
  copy_opts P opts (self, w)
  = (inr (fresh (dom (w_lists w))),
     (self, set_lists P (<[fresh (dom (w_lists w)) := opts_of P w opts]>
                           (w_lists w)) w), []).
Proof.
  intros Hok. rewrite copy_opts_run. destruct opts as [r|]; [|done].
  by destruct (Hok r eq_refl) as [l ->].
Qed.

Lemma copy_env_ok env self w :
  refers_to (w_dicts w) env ->
  copy_env P env (self, w)
  = (inr (fresh (dom (w_dicts w))),
     (self, set_dicts P (<[fresh (dom (w_dicts w)) := env_of P w env]>
                           (w_dicts w)) w), []).
Proof.
  intros Hok. rewrite copy_env_run. destruct env as [r|]; [|done].
  by destruct (Hok r eq_refl) as [l ->].
Qed.

(** The two copies, and [bin] on [PATH]: the part the methods share. *)
Lemma config_copies_run {A} opts env self w
  (k : nat -> nat -> M (St P) A) :
  refers_to (w_lists w) opts -> refers_to (w_dicts w) env ->
  (opts' <- copy_opts P opts ;;
   env' <- copy_env P env ;;
   has_bin <- os_path_isdir P (bin_path self) ;;
   (if has_bin then prepend_path P env' "PATH" (bin_path self) else ret tt) ;;;
   k opts' env') (self, w)
  = match k (fresh (dom (w_lists w))) (fresh (dom (w_dicts w)))
            (self,
             set_dicts P (<[fresh (dom (w_dicts w)) :=
                              with_bin P self w (env_of P w env)]> (w_dicts w))
               (set_lists P (<[fresh (dom (w_lists w)) := opts_of P w opts]>
                               (w_lists w)) w))
    with
    | (r, s, t) => (r, s, EvIsdir (bin_path self) :: t)
    end.
Proof.
  intros Hopts Henv.
  unfold bind at 1. rewrite copy_opts_ok by done.
  unfold bind at 1. rewrite copy_env_ok by done.
  unfold bind at 1, os_path_isdir at 1, query at 1; cbn [fst snd].
  unfold with_bin.
  change (w_fs (set_dicts P _ (set_lists P _ w))) with (w_fs w).
  change (env_of P (set_lists P _ w) env) with (env_of P w env).
  destruct (fs_isdir P (w_fs w) (bin_path self)).
  - unfold bind at 1.
    erewrite prepend_path_run by apply lookup_insert_eq.
    unfold set_dicts at 1; cbn [w_fs w_locks w_environ w_lists w_dicts
                                  set_dicts set_lists].
    rewrite insert_insert_eq.
    unfold set_dicts, set_lists; cbn [w_fs w_locks w_environ w_lists w_dicts].
    by destruct (k _ _ _) as [[? ?] ?].
  - unfold bind at 1, ret at 1.
    unfold set_dicts, set_lists; cbn [w_fs w_locks w_environ w_lists w_dicts].
    by destruct (k _ _ _) as [[? ?] ?].
Qed.

(** C10. [compiletime_config] and [runtime_config] leave the list and the
    dict they are given, and every other object of the heap, as they were:
    they return a new list and a new dict.  The dict has [bin] prepended
    to [PATH] exactly when [bin] is a directory and, for [runtime_config],
    [lib] prepended to the library path variable of the platform exactly
    when [lib] is a directory.  The list holds the elements of [opts]
    without duplicates, in the order in which a set enumerates them. *)
Theorem config_leaves_arguments self w opts env :
  configured P self w opts env (with_bin P self w (env_of P w env))
    (compiletime_config P opts env (self, w))
  /\ configured P self w opts env
       (with_lib P self w (with_bin P self w (env_of P w env)))
       (runtime_config P opts env (self, w)).
Proof.
  assert (forall (A : Type) (m : gmap nat A) x, m ⊆ <[fresh (dom m) := x]> m)
    as Hsub by (intros; apply insert_subseteq, fresh_lookup).
  pose proof (fresh_lookup (w_lists w)) as Hf1.
  pose proof (fresh_lookup (w_dicts w)) as Hf2.
  assert (forall (A : Type) (m : gmap nat A) o,
             refers_to m o \/ exists r, o = Some r /\ m !! r = None) as Hcase.
  { intros A m [r|]; [destruct (m !! r) eqn:E|].
    - left. intros x [= <-]. rewrite E. by eauto.
    - right. by eauto.
    - left. by intros x [=]. }
  destruct (Hcase _ (w_lists w) opts) as [Hopts|(r & -> & El)]; cycle 1.
  { (* [opts] points nowhere *)
    unfold compiletime_config, runtime_config.
    split; (unfold bind at 1; cbn [get_self fst snd]; unfold bind at 1;
            rewrite copy_opts_run, El; unfold configured; cbn;
            repeat split; try done; left; by eauto). }
  destruct (Hcase _ (w_dicts w) env) as [Henv|(r & -> & El)]; cycle 1.
  { (* [env] points nowhere *)
    unfold compiletime_config, runtime_config.
    split; (unfold bind at 1; cbn [get_self fst snd]; unfold bind at 1;
            rewrite copy_opts_ok by done; unfold bind at 1;
            rewrite copy_env_run;
            change (w_dicts (set_lists P _ w)) with (w_dicts w);
            rewrite El; unfold configured; cbn;
            repeat split; try done; try apply Hsub; right; by eauto). }
  split.
  - unfold compiletime_config. unfold bind at 1; cbn [get_self fst snd].
    rewrite (config_copies_run opts env self w
               (fun opts' env' =>
                  l <- read_list P opts' ;;
                  out <- new_list P (list_of_set l) ;; ret (out, env')))
      by done.
    unfold bind at 1, read_list at 1; cbn [fst snd].
    change (w_lists (set_dicts P _ (set_lists P ?l w))) with l.
    rewrite lookup_insert_eq.
    unfold bind, new_list, ret, configured;
      cbn [fst snd set_dicts set_lists w_fs w_dicts w_lists w_locks w_environ
             result state events].
    repeat split; try done; try apply Hsub.
    + etrans; apply Hsub.
    + apply fresh_lookup_insert.
    + apply lookup_insert_eq.
    + eexists; split; [apply lookup_insert_eq|apply list_of_set_spec].
  - unfold runtime_config. unfold bind at 1; cbn [get_self fst snd].
    rewrite (config_copies_run opts env self w
               (fun opts' env' =>
                  has_lib <- os_path_isdir P (lib_path self) ;;
                  (if has_lib then
                     prepend_path P env'
                       (if String.eqb (sys_platform P) "darwin"
                        then "DYLD_LIBRARY_PATH" else "LD_LIBRARY_PATH")
                       (lib_path self)
                   else ret tt) ;;;
                  l <- read_list P opts' ;;
                  out <- new_list P (list_of_set l) ;; ret (out, env')))
      by done.
    unfold bind at 1, os_path_isdir at 1, query at 1; cbn [fst snd].
    change (w_fs (set_dicts P _ (set_lists P _ w))) with (w_fs w).
    unfold with_lib.
    destruct (fs_isdir P (w_fs w) (lib_path self)).
    + unfold bind at 1.
      erewrite prepend_path_run by apply lookup_insert_eq.
      unfold bind at 1, read_list at 1; cbn [fst snd].
      change (w_lists (set_dicts P _ (set_dicts P _ (set_lists P ?l w))))
        with l.
      rewrite lookup_insert_eq.
      unfold bind, new_list, ret, configured;
        cbn [fst snd set_dicts set_lists w_fs w_dicts w_lists w_locks
               w_environ result state events].
      rewrite insert_insert_eq.
      repeat split; try done; try apply Hsub.
      * etrans; apply Hsub.
      * apply fresh_lookup_insert.
      * apply lookup_insert_eq.
      * eexists; split; [apply lookup_insert_eq|apply list_of_set_spec].
    + unfold bind at 1, ret at 1.
      unfold bind at 1, read_list at 1; cbn [fst snd].
      change (w_lists (set_dicts P _ (set_lists P ?l w))) with l.
      rewrite lookup_insert_eq.
      unfold bind, new_list, ret, configured;
        cbn [fst snd set_dicts set_lists w_fs w_dicts w_lists w_locks
               w_environ result state events].
      repeat split; try done; try apply Hsub.
      * etrans; apply Hsub.
      * apply fresh_lookup_insert.
      * apply lookup_insert_eq.
      * eexists; split; [apply lookup_insert_eq|apply list_of_set_spec].
Qed.

(** ** Source preparation *)

Local Ltac no_reads :=
  by repeat first [apply Forall_nil | apply Forall_cons; split
                  | apply Forall_app; split].

Lemma search_archive_events levels archive_name bp archive s :
  Forall (fun e => is_staging e = true)
    (events (search_archive P levels archive_name bp archive s)).
Proof.
  revert bp archive. induction levels as [|st rest IH]; intros bp archive.
  - by constructor.
  - cbn [search_archive].
    unfold bind at 1, os_path_exists at 1, query at 1; cbn [fst snd].
    destruct (fs_exists P _ _).
    + unfold bind, shutil_copy, fs_step, unit_step, ret; cbn [fst snd].
      destruct (negb _); [destruct (fs_copy P _ _ _)|]; cbn; no_reads.
    + specialize (IH (if truthy bp then bp
                      else Some (os_path_join (storage_prefix st) "src"))
                    (Some (os_path_join
                             (os_path_join (storage_prefix st) "src")
                             archive_name))).
      destruct (search_archive P rest _ _ _ s) as [[r s1] t1].
      cbn in *. by constructor.
Qed.

Lemma acquire_archive_events self archive_name bp s :
  Forall (fun e => is_staging e = true)
    (events (acquire_archive P self archive_name bp s)).
Proof.
  unfold acquire_archive, highest_writable_storage.
  destruct (find is_writable _) as [st|]; [|by constructor].
  unfold bind at 1, ret at 1. cbn [fst snd].
  unfold bind at 1, try_except, util_download, fs_step, unit_step.
  destruct (fs_download P _ _ _) as [msg|fs']; cbn; [no_reads|].
  destruct (negb _); [|cbn; no_reads].
  unfold bind, util_mkdirp, shutil_copy, fs_step, unit_step, ret;
    cbn [fst snd set_fs w_fs].
  destruct (fs_mkdirp P _ _) as [msg|fs'']; cbn; [no_reads|].
  destruct (fs_copy P _ _ _); cbn; no_reads.
Qed.

Lemma stage_source_events bp archive topdir reuse s :
  Forall (fun e => is_staging e = true)
    (events (stage_source P bp archive topdir reuse s)).
Proof.
  unfold stage_source. destruct bp as [bp|]; [|by constructor].
  unfold bind at 1.
  destruct reuse; unfold os_path_isdir, query, ret at 1; cbn [fst snd].
  1: destruct (fs_isdir P _ _).
  all: unfold bind, util_rmtree, try_except, util_extract_archive, fs_step,
         modify_self, ret, raise; cbn [fst snd set_fs w_fs].
  all: try destruct (fs_extract_archive P _ _ _) as [msg|[p fs']]; cbn;
       no_reads.
Qed.

Lemma locate_archive_events bp reuse (s : St P) :
  Forall (fun e => is_staging e = true)
    (events (locate_archive bp reuse s)).
Proof.
  unfold locate_archive. destruct reuse;
    [apply search_archive_events|apply acquire_archive_events].
Qed.

(** One activation of [_prepare_src], step by step. *)
Lemma prepare_src_body_run rec bp reuse s :
  truthy (src s.1) = true ->
  _prepare_src_body P rec bp reuse s
  = match locate_archive bp reuse s with
    | (inl e, s1, t1) => (inl e, s1, t1)
    | (inr found, s1, t1) =>
        match found.2 with
        | None => (inl (UnboundLocalError "archive"), s1, t1)
        | Some archive =>
            match fs_archive_toplevel P archive (w_fs s1.2) with
            | inl msg =>
                if reuse then
                  let o := rec found.1 false s1 in
                  (result o, state o,
                   t1 ++ EvArchiveToplevel archive false :: events o)
                else
                  (inl (ConfigurationError
                          ("Cannot read " +:+ title s.1 +:+ " archive file "
                             +:+ quoted archive +:+ ": " +:+ msg) None),
                   s1, t1 ++ [EvArchiveToplevel archive false])
            | inr topdir =>
                let o := stage_source P found.1 archive topdir reuse s1 in
                (result o, state o,
                 t1 ++ EvArchiveToplevel archive true :: events o)
            end
        end
    end.
Proof.
  intros Hsrc. unfold _prepare_src_body, locate_archive.
  unfold bind at 1; cbn [get_self fst snd]. rewrite Hsrc; cbn [negb].
  unfold bind at 1.
  match goal with
  | |- context [(if reuse then ?a else ?b) s] =>
      destruct ((if reuse then a else b) s) as [[[e|found] s1] t1]; [done|]
  end.
  destruct found.2 as [archive|]; [|unfold raise; by rewrite app_nil_r].
  unfold bind at 1, try_except at 1, bind at 1, util_archive_toplevel at 1.
  destruct (fs_archive_toplevel P archive (w_fs s1.2)) as [msg|topdir];
    cbn [is_IOError ret fst snd app].
  - destruct reuse.
    + by destruct (rec found.1 false s1) as [[r s2] t2].
    + unfold raise; cbn. by rewrite ?app_nil_r.
  - destruct (stage_source P found.1 archive topdir reuse s1) as [[r s2] t2].
    cbn. by rewrite ?app_nil_r.
Qed.

Lemma staging_no_read t :
  Forall (fun e => is_staging e = true) t ->
  Forall (fun e => is_archive_read e = false) t.
Proof. intros H. eapply Forall_impl; [exact H|]. by intros []. Qed.

Lemma prepare_src_body_no_src rec bp reuse s :
  truthy (src s.1) = false ->
  _prepare_src_body P rec bp reuse s
  = (inl (ConfigurationError
            ("No source code provided for " +:+ title s.1) None), s, []).
Proof.
  intros Hsrc. unfold _prepare_src_body.
  unfold bind at 1; cbn [get_self fst snd]. by rewrite Hsrc.
Qed.

(** An activation calls the method again only for a retry with
    [reuse = False]. *)
Lemma prepare_src_body_ext rec rec' bp reuse s :
  (forall bp' s', rec bp' false s' = rec' bp' false s') ->
  _prepare_src_body P rec bp reuse s = _prepare_src_body P rec' bp reuse s.
Proof.
  intros Hrec. destruct (truthy (src s.1)) eqn:Hsrc.
  - rewrite !prepare_src_body_run by done.
    destruct (locate_archive bp reuse s) as [[[e|found] s1] t1]; [done|].
    destruct found.2 as [archive|]; [|done].
    destruct (fs_archive_toplevel P _ _); [|done].
    destruct reuse; [|done]. by rewrite Hrec.
  - by rewrite !prepare_src_body_no_src.
Qed.

(** Without [reuse] it does not call the method at all. *)
Lemma prepare_src_body_fresh rec rec' bp s :
  _prepare_src_body P rec bp false s = _prepare_src_body P rec' bp false s.
Proof.
  destruct (truthy (src s.1)) eqn:Hsrc.
  - by rewrite !prepare_src_body_run.
  - by rewrite !prepare_src_body_no_src.
Qed.

Lemma prepare_src_unroll rec bp reuse s :
  _prepare_src P bp reuse s
  = _prepare_src_body P (_prepare_src_body P rec) bp reuse s.
Proof.
  unfold _prepare_src.
  change (_prepare_src_fuel P 1000)
    with (_prepare_src_body P
            (_prepare_src_body P (_prepare_src_fuel P 998))).
  apply prepare_src_body_ext. intros bp' s'. apply prepare_src_body_fresh.
Qed.

Lemma prepare_src_fresh_unroll rec bp s :
  _prepare_src P bp false s = _prepare_src_body P rec bp false s.
Proof.
  rewrite (prepare_src_unroll rec). apply prepare_src_body_fresh.
Qed.

(** A run without [reuse] reads the archive at most once, and a failed read
    ends it with [ConfigurationError]. *)
Lemma prepare_src_fresh_run bp s :
  exists t1 rest,
    events (_prepare_src P bp false s) = t1 ++ rest /\
    Forall (fun e => is_archive_read e = false) t1 /\
    (rest = []
     \/ (exists a msg,
           rest = [EvArchiveToplevel a false]
           /\ result (_prepare_src P bp false s)
              = inl (ConfigurationError msg None))
     \/ (exists a t2,
           rest = EvArchiveToplevel a true :: t2
           /\ Forall (fun e => is_archive_read e = false) t2)).
Proof.
  rewrite (prepare_src_fresh_unroll (fun _ _ => ret tt)).
  destruct (truthy (src s.1)) eqn:Hsrc.
  - rewrite prepare_src_body_run by done.
    pose proof (staging_no_read _ (locate_archive_events bp false s)) as Hloc.
    destruct (locate_archive bp false s) as [[[e|found] s1] t1]; cbn in Hloc.
    { exists t1, []. rewrite app_nil_r. by eauto. }
    destruct found.2 as [archive|];
      [|exists t1, []; rewrite app_nil_r; by eauto].
    destruct (fs_archive_toplevel P _ _) as [msg|topdir].
    + exists t1, [EvArchiveToplevel archive false]. cbn. by eauto 10.
    + pose proof (staging_no_read _ (stage_source_events found.1 archive topdir false s1)) as Hst.
      destruct (stage_source P _ _ _ _ _) as [[r s2] t2]; cbn in *.
      exists t1, (EvArchiveToplevel archive true :: t2). by eauto 10.
  - rewrite prepare_src_body_no_src by done. exists [], []. by eauto.
Qed.

Lemma prepare_src_step bp reuse s :
  _prepare_src P bp reuse s
  = _prepare_src_body P (_prepare_src P) bp reuse s.
Proof.
  rewrite (prepare_src_unroll (fun _ _ => ret tt)).
  apply prepare_src_body_ext. intros bp' s'.
  by rewrite (prepare_src_fresh_unroll (fun _ _ => ret tt)).
Qed.

Lemma not_a_read (e : Event) (t : list Event) :
  is_archive_read e = true ->
  Forall (fun e => is_archive_read e = false) t -> e ∉ t.
Proof.
  intros He Ht Hin. rewrite Forall_forall in Ht.
  specialize (Ht e Hin). congruence.
Qed.

(** ** [install] *)

Lemma build_from_source_start self w :
  build_from_source P (self, w)
  = let w1 := cleaned self w in
    let made := fs_mkdtemp P "/dev/shm" (w_fs w1) in
    let bp := match made with inl _ => None | inr (d, _) => Some d end in
    let w2 := match made with inl _ => w1 | inr (_, fs') => set_fs P fs' w1 end in
    match
      (_prepare_src P bp true ;;;
       configure_make_install P ;;;
       self <- get_self P ;;
       match src_prefix self with
       | None => raise (TypeError "src_prefix")
       | Some staged => util_rmtree P staged
       end ;;;
       self_verify P) (self, w2)
    with
    | (r, s, t) =>
        (r, s, cleaning_events self w ++ EvMkdtemp "/dev/shm" :: t)
    end.
Proof.
  unfold build_from_source, cleaned, cleaning_events.
  unfold bind at 1; cbn [get_self fst snd].
  unfold bind at 1, os_path_isdir at 1, query at 1; cbn [fst snd].
  destruct (fs_isdir P (w_fs w) (install_prefix self)).
  - unfold bind at 1, util_rmtree at 1; cbn [fst snd].
    unfold bind at 1, try_except at 1, bind at 1, util_mkdtemp at 1,
      fs_step at 1; cbn [fst snd].
    destruct (fs_mkdtemp P "/dev/shm" _) as [msg|[d fs']];
      cbn [is_IOError ret fst snd].
    + by destruct (bind _ _ _) as [[r s] t].
    + by destruct (bind _ _ _) as [[r s] t].
  - unfold bind at 1, ret at 1; cbn [fst snd].
    unfold bind at 1, try_except at 1, bind at 1, util_mkdtemp at 1,
      fs_step at 1; cbn [fst snd].
    destruct (fs_mkdtemp P "/dev/shm" _) as [msg|[d fs']];
      cbn [is_IOError ret fst snd].
    + by destruct (bind _ _ _) as [[r s] t].
    + by destruct (bind _ _ _) as [[r s] t].
Qed.

(** *** What no method changes *)

Lemma keeps_same {A} (m : M (St P) A) :
  (forall s, (state (m s)).1 = s.1) -> keeps m.
Proof. intros H s. by rewrite H. Qed.

Lemma keeps_bind {A B} (m : M (St P) A) (k : A -> M (St P) B) :
  keeps m -> (forall a, keeps (k a)) -> keeps (bind m k).
Proof.
  intros Hm Hk s. unfold bind. specialize (Hm s).
  destruct (m s) as [[[e|a] s1] t1]; [done|].
  specialize (Hk a s1). destruct (k a s1) as [[r s2] t2]. cbn in *.
  congruence.
Qed.

Lemma keeps_try_except {A} (m : M (St P) A) h :
  keeps m -> (forall e k, h e = Some k -> keeps k) -> keeps (try_except m h).
Proof.
  intros Hm Hh s. unfold try_except. specialize (Hm s).
  destruct (m s) as [[[e|a] s1] t1]; [|done].
  destruct (h e) as [k|] eqn:E; [|done].
  specialize (Hh e k E s1). destruct (k s1) as [[r s2] t2]. cbn in *.
  congruence.
Qed.

Lemma keeps_fs_step {A} ev exn (f : FS P -> string + A * FS P) :
  keeps (fs_step P ev exn f).
Proof.
  apply keeps_same. intros s. unfold fs_step.
  by destruct (f _) as [?|[? ?]].
Qed.

Lemma keeps_set_src_prefix v : keeps (modify_self P (set_src_prefix v)).
Proof. intros [[] w]. done. Qed.

Lemma keeps_self_verify : keeps (self_verify P).
Proof.
  intros [self w]. unfold self_verify; cbn [fst snd].
  by destruct (verify_run self w) as (r & self' & t & -> & _ & Hsk & _).
Qed.

Lemma keeps_for {A} (l : list A) (body : A -> M (St P) unit) :
  (forall x, keeps (body x)) -> keeps (for_ l body).
Proof.
  intros H. induction l; cbn [for_]; [by apply keeps_same|].
  by apply keeps_bind.
Qed.

Local Ltac keeps_step :=
  first
    [ apply keeps_bind; [|intros ?]
    | apply keeps_try_except; [|intros ? ? ?]
    | apply keeps_fs_step
    | apply keeps_set_src_prefix
    | apply keeps_self_verify
    | match goal with
      | H : (if ?b then _ else _) = Some _ |- _ =>
          destruct b; [|discriminate]; injection H as <-
      | H : match ?e with _ => _ end = Some _ |- _ =>
          destruct e; try discriminate; injection H as <-
      | |- keeps (if ?b then _ else _) => destruct b
      | |- keeps (match ?x with _ => _ end) => destruct x
      | |- keeps (let (_, _) := ?x in _) => destruct x
      end
    | by apply keeps_same ].

Local Ltac keeps_all := repeat keeps_step.

Lemma keeps_search_archive levels archive_name bp archive :
  keeps (search_archive P levels archive_name bp archive).
Proof.
  revert bp archive. induction levels as [|st rest IH]; intros bp archive;
    cbn [search_archive]; [by apply keeps_same|].
  unfold shutil_copy. keeps_all. apply IH.
Qed.

Lemma keeps_acquire_archive self archive_name bp :
  keeps (acquire_archive P self archive_name bp).
Proof.
  unfold acquire_archive, highest_writable_storage, util_download,
    util_mkdirp, shutil_copy.
  keeps_all.
Qed.

Lemma keeps_stage_source bp archive topdir reuse :
  keeps (stage_source P bp archive topdir reuse).
Proof.
  unfold stage_source, util_extract_archive. keeps_all.
Qed.

Lemma keeps_prepare_src bp reuse : keeps (_prepare_src P bp reuse).
Proof.
  unfold _prepare_src. generalize 1000%nat. intros n. revert bp reuse.
  induction n as [|n IH]; intros bp reuse; cbn [_prepare_src_fuel];
    [by apply keeps_same|].
  unfold _prepare_src_body.
  apply keeps_bind; [by apply keeps_same|intros self].
  destruct (negb _); [by apply keeps_same|].
  apply keeps_bind.
  { destruct reuse;
      [apply keeps_search_archive|apply keeps_acquire_archive]. }
  intros found. destruct found.2 as [archive|]; [|by apply keeps_same].
  apply keeps_bind.
  { apply keeps_try_except.
    - apply keeps_bind; [|intros ?; by apply keeps_same].
      apply keeps_same. intros s. unfold util_archive_toplevel.
      by destruct (fs_archive_toplevel P _ _).
    - intros e k Hk. destruct (is_IOError e); [|done].
      injection Hk as <-. by apply keeps_same. }
  intros [err|topdir]; [|apply keeps_stage_source].
  destruct reuse; [apply IH|by apply keeps_same].
Qed.

Lemma keeps_subprocess cmd cwd env :
  keeps (util_create_subprocess P cmd cwd env).
Proof.
  apply keeps_same. intros s. unfold util_create_subprocess.
  by destruct (fs_create_subprocess P _ _ _ _).
Qed.

Lemma keeps_symlink a b : keeps (os_symlink P a b).
Proof.
  apply keeps_same. intros s. unfold os_symlink.
  by destruct (fs_symlink P _ _ _).
Qed.

Lemma keeps_assert_src_prefix : keeps (assert_src_prefix P).
Proof. unfold assert_src_prefix. keeps_all. Qed.

Lemma keeps_configure_make_install : keeps (configure_make_install P).
Proof.
  unfold configure_make_install, configure, make, make_install.
  repeat first [apply keeps_subprocess | apply keeps_symlink
               | apply keeps_assert_src_prefix | keeps_step].
Qed.

Lemma keeps_build_from_source : keeps (build_from_source P).
Proof.
  unfold build_from_source, util_mkdtemp.
  repeat first [apply keeps_prepare_src | apply keeps_configure_make_install
               | keeps_step].
Qed.

Lemma keeps_install_own force : keeps (install_own P force).
Proof.
  unfold install_own.
  repeat first [apply keeps_build_from_source | keeps_step].
Qed.

(** *** Runs that return *)

Lemma bind_returns {S A B} (m : M S A) (k : A -> M S B) s b s2 t :
  bind m k s = (inr b, s2, t) ->
  exists a s1 t1 t2,
    m s = (inr a, s1, t1) /\ k a s1 = (inr b, s2, t2) /\ t = t1 ++ t2.
Proof.
  unfold bind. destruct (m s) as [[[e|a] s1] t1]; [done|].
  destruct (k a s1) as [[r s2'] t2] eqn:E. intros [= -> -> <-].
  by exists a, s1, t1, t2.
Qed.

Lemma skeleton_src a b : skeleton a = skeleton b -> src a = src b.
Proof.
  rewrite (skeleton_unfold a), (skeleton_unfold b).
  destruct a, b; cbn. by intros [=].
Qed.

Lemma skeleton_all_sources a b :
  skeleton a = skeleton b -> all_sources a = all_sources b.
Proof.
  revert b. induction a as [a IH] using Installation_tree_ind. intros b Hsk.
  rewrite (all_sources_unfold a), (all_sources_unfold b).
  rewrite (skeleton_src _ _ Hsk). f_equal.
  rewrite (skeleton_unfold a), (skeleton_unfold b) in Hsk.
  assert (map (fun d => (d.1, skeleton d.2)) (dependencies a)
          = map (fun d => (d.1, skeleton d.2)) (dependencies b)) as Hmap
    by (destruct a, b; cbn in *; by injection Hsk).
  clear Hsk. revert Hmap. generalize (dependencies b) as db.
  induction IH as [|[k d] rest Hd _ IHrest]; intros [|[k' d'] db]; try done.
  cbn in Hd |- *. intros [= -> Hd' Hrest].
  by rewrite (Hd d' Hd'), (IHrest db Hrest).
Qed.

Lemma build_from_source_no_src self w :
  truthy (src self) = false ->
  exists w',
    build_from_source P (self, w)
    = (inl (ConfigurationError
              ("No source code provided for " +:+ title self) None),
       (self, w'),
       cleaning_events self w ++ [EvMkdtemp "/dev/shm"])
    /\ w_fs w'
       = match fs_mkdtemp P "/dev/shm" (w_fs (cleaned self w)) with
         | inl _ => w_fs (cleaned self w)
         | inr (_, fs') => fs'
         end.
Proof.
  intros Hsrc. rewrite build_from_source_start. cbv zeta.
  unfold bind at 1. rewrite prepare_src_step.
  rewrite prepare_src_body_no_src by done. cbn [fst snd].
  eexists. split; [reflexivity|].
  by destruct (fs_mkdtemp P _ _) as [?|[? ?]].
Qed.

Lemma build_from_source_returns s s1 t :
  build_from_source P s = (inr tt, s1, t) ->
  exists X t0 tv, t = t0 ++ tv /\ verify P X s1.2 = (inr tt, s1, tv).
Proof.
  unfold build_from_source. intros H.
  apply bind_returns in H as (self & s' & t1 & t2 & _ & H & ->).
  apply bind_returns in H as (? & ? & ? & ? & _ & H & ->).
  apply bind_returns in H as (? & ? & ? & ? & _ & H & ->).
  apply bind_returns in H as (? & ? & ? & ? & _ & H & ->).
  apply bind_returns in H as (? & ? & ? & ? & _ & H & ->).
  apply bind_returns in H as (? & ? & ? & ? & _ & H & ->).
  apply bind_returns in H as (? & ? & ? & ? & _ & H & ->).
  apply bind_returns in H as (? & [X wx] & ? & tv & _ & H & ->).
  unfold self_verify in H; cbn [fst snd] in H.
  destruct (verify_run X wx) as (r & X' & tv' & E & _).
  rewrite E in H. injection H as -> <- <-.
  exists X. eexists. exists tv'. split; [|done].
  rewrite !app_assoc. reflexivity.
Qed.

Lemma install_own_returns force self w s1 t :
  install_own P force (self, w) = (inr tt, s1, t) ->
  truthy (src self) = true
  /\ exists X t0 tv, t = t0 ++ tv /\ verify P X s1.2 = (inr tt, s1, tv).
Proof.
  unfold install_own. intros H.
  apply bind_returns in H as (self0 & s0 & t0 & t' & E0 & H & ->).
  cbn in E0. injection E0 as <- <- <-.
  apply bind_returns in H as (build & [self' w'] & t1 & t2 & Hd & H & ->).
  destruct (verify_run self w) as (r & sv & tv & Ev & _ & Hsk & Hr).
  destruct (truthy (src self)) eqn:Hsrc; cbn [negb] in Hd.
  - split; [done|]. destruct force; cbn [negb] in Hd.
    + injection Hd as <- <- <- <-. cbn [negb] in H.
      apply build_from_source_returns in H as (X & t0 & tv0 & -> & Hv).
      by exists X, t0, tv0.
    + unfold try_except, bind, self_verify in Hd; cbn [fst snd] in Hd.
      rewrite Ev in Hd.
      destruct r as [e|[]]; cbn in Hd.
      * destruct (is_SoftwarePackageError e); [|done].
        injection Hd as <- <- <- <-. cbn [negb] in H.
        apply build_from_source_returns in H as (X & t0 & tv0 & -> & Hv).
        exists X, ((tv ++ []) ++ t0), tv0. split; [|done].
        by rewrite <- !app_assoc.
      * injection Hd as <- <- <- <-. cbn in H. injection H as <- <-.
        exists self, [], tv. split; [|done].
        cbn. by rewrite !app_nil_r.
  - exfalso.
    unfold try_except, bind, self_verify in Hd; cbn [fst snd] in Hd.
    rewrite Ev in Hd.
    destruct r as [e|[]]; cbn in Hd.
    + by destruct (is_SoftwarePackageError e).
    + injection Hd as <- <- <- <-. cbn [negb] in H.
      destruct (build_from_source_no_src sv w) as (w0 & E & _).
      { by rewrite <- (skeleton_src _ _ Hsk) in Hsrc. }
      by rewrite E in H.
Qed.

Lemma install_unfold force self w :
  install P force self w
  = match each_dependency P (install P force) (dependencies self) w with
    | (inl e, (deps, w1), t1) => (inl e, (set_dependencies deps self, w1), t1)
    | (inr _, (deps, w1), t1) =>
        match install_own P force (set_dependencies deps self, w1) with
        | (r, s2, t2) => (r, s2, t1 ++ t2)
        end
    end.
Proof. by destruct self. Qed.

Lemma each_dependency_keeps method deps w :
  Forall (fun d => forall w, skeleton (state (method d.2 w)).1 = skeleton d.2)
    deps ->
  map (fun d => (d.1, skeleton d.2)) (state (each_dependency P method deps w)).1
  = map (fun d => (d.1, skeleton d.2)) deps.
Proof.
  intros H. revert w. induction H as [|[k d] rest Hd _ IH]; intros w; [done|].
  cbn [each_dependency]. specialize (Hd w). cbn [snd] in Hd.
  destruct (method d w) as [[[e|[]] [d' w1]] t1]; cbn in Hd |- *.
  - by rewrite Hd.
  - specialize (IH w1).
    destruct (each_dependency P method rest w1) as [[r [rest' w2]] t2].
    cbn in IH |- *. by rewrite Hd, IH.
Qed.

Lemma each_dependency_returns method deps w deps' w' t :
  each_dependency P method deps w = (inr tt, (deps', w'), t) ->
  Forall (fun d => exists w0 d' w1 t1, method d.2 w0 = (inr tt, (d', w1), t1))
    deps.
Proof.
  revert w deps' w' t. induction deps as [|[k d] rest IH];
    intros w deps' w' t; [by constructor|].
  cbn [each_dependency].
  destruct (method d w) as [[[e|[]] [d' w1]] t1] eqn:E; [done|].
  destruct (each_dependency P method rest w1) as [[r [rest' w2]] t2] eqn:E2.
  intros [= -> <- <- <-]. constructor; [by eauto|by eapply IH].
Qed.

Lemma install_keeps force self :
  forall w, skeleton (state (install P force self w)).1 = skeleton self.
Proof.
  induction self as [self IH] using Installation_tree_ind. intros w.
  rewrite install_unfold.
  pose proof (each_dependency_keeps (install P force) (dependencies self) w IH)
    as Hdeps.
  destruct (each_dependency P _ _ _) as [[r [deps' w1]] t1]; cbn in Hdeps.
  assert (skeleton (set_dependencies deps' self) = skeleton self) as Hsk.
  { rewrite (skeleton_set_dependencies (dependencies self)) by done.
    by rewrite set_dependencies_id. }
  destruct r as [e|[]]; [done|].
  pose proof (keeps_install_own force (set_dependencies deps' self, w1)) as Hown.
  destruct (install_own P force _) as [[r2 s2] t2].
  cbn [state fst snd] in Hown |- *. by rewrite Hown.
Qed.

(** A run of [install] that returns ends with a [verify] that passes, and
    every package it went through has a source specifier. *)
Lemma install_returns force self :
  forall w s1 t,
    install P force self w = (inr tt, s1, t) ->
    all_sources self = true
    /\ exists X t0 tv, t = t0 ++ tv /\ verify P X s1.2 = (inr tt, s1, tv).
Proof.
  induction self as [self IH] using Installation_tree_ind. intros w s1 t.
  rewrite install_unfold.
  destruct (each_dependency P _ _ _) as [[[e|[]] [deps' w1]] t1] eqn:Ed;
    [done|].
  destruct (install_own P force _) as [[r2 s2] t2] eqn:Eo.
  intros [= -> -> <-].
  apply install_own_returns in Eo as [Hsrc (X & t0 & tv & -> & Hv)]. split.
  - rewrite all_sources_unfold. cbn in Hsrc. rewrite Hsrc. cbn [andb].
    apply each_dependency_returns in Ed.
    apply forallb_forall. intros d Hd. apply list_elem_of_In in Hd.
    rewrite Forall_forall in IH, Ed.
    destruct (Ed d Hd) as (w0 & d' & w' & t' & E).
    by apply (IH d Hd w0 _ _ E).
  - exists X, (t1 ++ t0), tv. split; [by rewrite app_assoc|done].
Qed.

Lemma dependencies_mark_installed self :
  dependencies (mark_installed self)
  = map (fun d => (d.1, mark_installed d.2)) (dependencies self).
Proof. by destruct self. Qed.

Lemma remark_installed deps self :
  set_is_installed true (set_dependencies deps (mark_installed self))
  = set_is_installed true (set_dependencies deps self).
Proof. by destruct self. Qed.

Lemma valid_mark_installed fs self :
  valid P fs (mark_installed self) = valid P fs self.
Proof.
  induction self as [self IH] using Installation_tree_ind.
  rewrite (valid_unfold fs self), valid_unfold, dependencies_mark_installed.
  rewrite (own_valid_irrel fs _ self) by (by destruct self). f_equal.
  induction IH as [|[k d] rest Hd _ IHrest]; [done|].
  cbn [map forallb fst snd] in Hd |- *. by rewrite Hd, IHrest.
Qed.

Lemma mark_installed_idemp self :
  mark_installed (mark_installed self) = mark_installed self.
Proof.
  induction self as [self IH] using Installation_tree_ind.
  rewrite (mark_installed_unfold (mark_installed self)).
  rewrite dependencies_mark_installed, remark_installed.
  rewrite (mark_installed_unfold self). do 2 f_equal.
  induction IH as [|[k d] rest Hd _ IHrest]; [done|].
  cbn [map fst snd] in Hd |- *. by rewrite Hd, IHrest.
Qed.

Lemma mark_installed_flag b self :
  mark_installed (set_is_installed b self) = mark_installed self.
Proof. by destruct self. Qed.

Lemma valid_flag fs b self :
  valid P fs (set_is_installed b self) = valid P fs self.
Proof. by destruct self. Qed.

Lemma marked_dependencies self :
  set_is_installed true
    (set_dependencies
       (map (fun d => (d.1, mark_installed d.2)) (dependencies self)) self)
  = mark_installed self.
Proof. by rewrite <- mark_installed_unfold. Qed.

(** The fast path: a valid package with sources is verified and left as it
    is. *)
Lemma install_own_fast self w :
  truthy (src self) = true -> valid P (w_fs w) self = true ->
  exists t,
    install_own P false (self, w) = (inr tt, (mark_installed self, w), t)
    /\ Forall (fun e => is_query e = true) t.
Proof.
  intros Hsrc Hvalid.
  destruct (verify_run self w) as (r & self' & tv & Ev & Hq & _ & Hr).
  rewrite Hvalid in Hr. destruct Hr as [-> ->].
  exists tv. split; [|done].
  unfold install_own. unfold bind at 1; cbn [get_self fst snd].
  rewrite Hsrc; cbn [negb].
  unfold bind at 1, try_except, bind, self_verify; cbn [fst snd].
  rewrite Ev; cbn. by rewrite !app_nil_r.
Qed.

Lemma each_install_fast deps w :
  Forall (fun d => forall w,
            all_sources d.2 = true -> valid P (w_fs w) d.2 = true ->
            exists t,
              install P false d.2 w = (inr tt, (mark_installed d.2, w), t)
              /\ Forall (fun e => is_query e = true) t) deps ->
  forallb (fun d => all_sources d.2) deps = true ->
  forallb (fun d => valid P (w_fs w) d.2) deps = true ->
  exists t,
    each_dependency P (install P false) deps w
    = (inr tt, (map (fun d => (d.1, mark_installed d.2)) deps, w), t)
    /\ Forall (fun e => is_query e = true) t.
Proof.
  induction 1 as [|[k d] rest Hd _ IH]; cbn [forallb map each_dependency snd fst].
  - intros _ _. by exists [].
  - cbn [snd] in Hd.
    intros [Hs1 Hs2]%andb_true_iff [Hv1 Hv2]%andb_true_iff.
    destruct (Hd w Hs1 Hv1) as (t1 & -> & Hq1).
    destruct (IH Hs2 Hv2) as (t2 & -> & Hq2).
    exists (t1 ++ t2). split; [done|by apply Forall_app].
Qed.

Lemma install_fast self :
  forall w,
    all_sources self = true -> valid P (w_fs w) self = true ->
    exists t,
      install P false self w = (inr tt, (mark_installed self, w), t)
      /\ Forall (fun e => is_query e = true) t.
Proof.
  induction self as [self IH] using Installation_tree_ind.
  intros w Hsrc Hvalid.
  rewrite all_sources_unfold in Hsrc. rewrite valid_unfold in Hvalid.
  apply andb_true_iff in Hsrc as [Hsrc Hsrcs].
  apply andb_true_iff in Hvalid as [Hvalids Hown].
  destruct (each_install_fast (dependencies self) w IH Hsrcs Hvalids)
    as (t1 & Ed & Hq1).
  rewrite install_unfold, Ed.
  destruct (install_own_fast
              (set_dependencies
                 (map (fun d => (d.1, mark_installed d.2)) (dependencies self))
                 self) w) as (t2 & Eo & Hq2).
  { by destruct self. }
  { rewrite <- (valid_flag _ true), marked_dependencies, valid_mark_installed.
    rewrite valid_unfold. by rewrite Hvalids, Hown. }
  rewrite Eo. exists (t1 ++ t2). split; [|by apply Forall_app].
  by rewrite <- (mark_installed_flag true), marked_dependencies,
       mark_installed_idemp.
Qed.

(** C3. When [install(force_reinstall=False)] has returned, a second call
    in the state the first one left returns as well, changes neither the
    object nor the world, and only inspects the file system: it builds
    nothing, stages nothing and deletes nothing. *)
Theorem install_idempotent self w self1 w1 t1 :
  install P false self w = (inr tt, (self1, w1), t1) ->
  exists t2,
    install P false self1 w1 = (inr tt, (self1, w1), t2)
    /\ Forall (fun e => is_query e = true) t2.
Proof.
  intros E.
  pose proof (install_keeps false self w) as Hsk. rewrite E in Hsk.
  cbn [state fst snd] in Hsk.
  apply install_returns in E as (Hsrc & X & t0 & tv & _ & Ev).
  cbn [snd] in Ev.
  destruct (verify_run X w1) as (r & X' & tv' & Ev' & _ & _ & Hr).
  rewrite Ev in Ev'. injection Ev' as <- <- <-.
  destruct (valid P (w_fs w1) X) eqn:HX; [|by destruct Hr as [msg [=]]].
  destruct Hr as [_ ->].
  destruct (install_fast (mark_installed X) w1) as (t2 & E2 & Hq).
  - by rewrite (skeleton_all_sources _ _ Hsk).
  - by rewrite valid_mark_installed.
  - rewrite mark_installed_idemp in E2. by exists t2.
Qed.

(** *** The three build steps *)


Lemma set_fs_same (w : World P) : set_fs P (w_fs w) w = w.
Proof. by destruct w. Qed.


Lemma assert_src_prefix_run self w :
  assert_src_prefix P (self, w)
  = (if truthy (src_prefix self) then inr (default "" (src_prefix self))
     else inl AssertionError, (self, w), []).
Proof.
  unfold assert_src_prefix, bind; cbn [get_self fst snd].
  by destruct (truthy (src_prefix self)).
Qed.





Lemma prepare_src_events bp reuse s :
  Forall (fun e => is_staging e || is_archive_read e = true)
    (events (_prepare_src P bp reuse s)).
Proof.
  assert (forall t, Forall (fun e => is_staging e = true) t ->
                    Forall (fun e => is_staging e || is_archive_read e = true) t)
    as Hweak.
  { intros t Ht. eapply Forall_impl; [exact Ht|]. by intros e ->. }
  assert (forall bp s,
             Forall (fun e => is_staging e || is_archive_read e = true)
               (events (_prepare_src P bp false s))) as Hfresh.
  { clear bp s. intros bp s.
    rewrite (prepare_src_fresh_unroll (fun _ _ => ret tt)).
    destruct (truthy (src s.1)) eqn:Hsrc;
      [|rewrite prepare_src_body_no_src by done; by constructor].
    rewrite prepare_src_body_run by done.
    pose proof (Hweak _ (locate_archive_events bp false s)) as Hloc.
    destruct (locate_archive bp false s) as [[[e|found] s1] t1];
      cbn in Hloc; [done|].
    destruct found.2 as [archive|]; [|done].
    destruct (fs_archive_toplevel P _ _) as [msg|topdir].
    - cbn. apply Forall_app; split; [done|]. by repeat constructor.
    - pose proof (Hweak _ (stage_source_events found.1 archive topdir false s1))
        as Hst.
      destruct (stage_source P _ _ _ _ _) as [[r s2] t2]; cbn in *.
      apply Forall_app; split; [done|]. by constructor. }
  destruct reuse; [|apply Hfresh].
  rewrite prepare_src_step.
  destruct (truthy (src s.1)) eqn:Hsrc;
    [|rewrite prepare_src_body_no_src by done; by constructor].
  rewrite prepare_src_body_run by done.
  pose proof (Hweak _ (locate_archive_events bp true s)) as Hloc.
  destruct (locate_archive bp true s) as [[[e|found] s1] t1];
    cbn in Hloc; [done|].
  destruct found.2 as [archive|]; [|done].
  destruct (fs_archive_toplevel P _ _) as [msg|topdir].
  - cbn. apply Forall_app; split; [done|]. constructor; [done|apply Hfresh].
  - pose proof (Hweak _ (stage_source_events found.1 archive topdir true s1))
      as Hst.
    destruct (stage_source P _ _ _ _ _) as [[r s2] t2]; cbn in *.
    apply Forall_app; split; [done|]. by constructor.
Qed.




Lemma staging_not_symlink t :
  Forall (fun e => is_staging e || is_archive_read e = true) t ->
  Forall (fun e => is_failed_symlink e = false) t.
Proof. intros H. eapply Forall_impl; [exact H|]. by intros []. Qed.




(** What [install] does after the dependencies, by cases on the source
    specifier, on [force_reinstall] and on the outcome of [verify]. *)
Lemma install_own_run force self w :
  exists r sv tv,
    verify P self w = (r, (sv, w), tv) /\
    install_own P force (self, w)
    = if negb (truthy (src self)) then
        match r with
        | inl e =>
            (inl (SoftwarePackageError
                    ("Invalid " +:+ title self +:+ " installation at "
                       +:+ quoted (install_prefix self) +:+ ": "
                       +:+ str_exn e)
                    (Some "Specify source code path or URL to enable broken package reinstallation.")),
             (sv, w), tv)
        | inr _ => after tv (build_from_source P (sv, w))
        end
      else if force then after [] (build_from_source P (self, w))
      else
        match r with
        | inl e => after tv (build_from_source P (sv, w))
        | inr _ => (inr tt, (sv, w), tv)
        end.
Proof.
  destruct (verify_run self w) as (r & sv & tv & Ev & _ & _ & Hr).
  exists r, sv, tv. split; [done|].
  unfold install_own, after.
  unfold bind at 1; cbn [get_self fst snd].
  destruct (truthy (src self)); cbn [negb].
  - destruct force; cbn [negb].
    + unfold bind at 1, ret at 1; cbn [negb fst snd].
      by destruct (build_from_source P (self, w)) as [[? ?] ?].
    + unfold bind at 1, try_except, bind, self_verify; cbn [fst snd].
      rewrite Ev.
      destruct (valid P (w_fs w) self).
      * destruct Hr as [-> _]. cbn -[build_from_source].
        by rewrite !app_nil_r.
      * destruct Hr as [msg ->]. cbn -[build_from_source].
        destruct (build_from_source P (sv, w)) as [[? ?] ?].
        cbn -[build_from_source]. by rewrite !app_nil_r.
  - unfold bind at 1, try_except, bind, self_verify; cbn [fst snd].
    rewrite Ev.
    destruct (valid P (w_fs w) self).
    + destruct Hr as [-> _]. cbn -[build_from_source].
      destruct (build_from_source P (sv, w)) as [[? ?] ?].
      cbn -[build_from_source]. by rewrite !app_nil_r.
    + destruct Hr as [msg ->]. cbn -[build_from_source].
      by rewrite !app_nil_r.
Qed.

(** C7 (what the code does). For a package without source specifier whose
    installation is valid, [install] does not stop after the verification:
    it goes on to the build, deletes the install prefix, asks for a build
    directory, and raises [ConfigurationError] from [_prepare_src]. *)
Theorem install_preinstalled_rebuilds force self w :
  truthy (src self) = false ->
  valid P (w_fs w) self = true ->
  fs_isdir P (w_fs w) (install_prefix self) = true ->
  exists tv w',
    install_own P force (self, w)
    = (inl (ConfigurationError
              ("No source code provided for " +:+ title self) None),
       (mark_installed self, w'),
       tv ++ [EvIsdir (install_prefix self);
              EvRmtree (install_prefix self);
              EvMkdtemp "/dev/shm"])
    /\ Forall (fun e => is_query e = true) tv
    /\ w_fs w'
       = match fs_mkdtemp P "/dev/shm"
                 (fs_rmtree P (install_prefix self) (w_fs w)) with
         | inl _ => fs_rmtree P (install_prefix self) (w_fs w)
         | inr (_, fs') => fs'
         end.
Proof.
  intros Hsrc Hvalid Hdir.
  destruct (install_own_run force self w) as (r & sv & tv & Ev & ->).
  destruct (verify_run self w) as (r' & sv' & tv' & Ev' & Hq & _ & Hr).
  rewrite Ev in Ev'. injection Ev' as <- <- <-.
  rewrite Hvalid in Hr. destruct Hr as [-> ->].
  rewrite Hsrc; cbn [negb].
  destruct (build_from_source_no_src (mark_installed self) w)
    as (w' & -> & Hw'); [by destruct self|].
  assert (install_prefix (mark_installed self) = install_prefix self) as Hp
    by (by destruct self).
  assert (title (mark_installed self) = title self) as Ht
    by (by destruct self).
  unfold cleaned, cleaning_events in *. rewrite Hp, Ht, Hdir in *.
  exists tv, w'. unfold after; cbn [result state events fst snd app].
  split; [done|]. split; [done|]. exact Hw'.
Qed.



(** ** Dependencies come first *)




(** ** The constructor *)

Lemma lookup_run {V} arch os (dct : option (TargetDict V)) (s : St P) :
  exists r,
    _lookup_target_os_list P arch os dct s = (r, s, []) /\
    match r with inl e => e = KeyError "None" | inr _ => True end.
Proof.
  unfold _lookup_target_os_list. destruct dct as [d|]; [|by exists (inr None)].
  destruct (negb _); [by exists (inr None)|].
  destruct (td_default d) as [dflt|]; [|by exists (inl (KeyError "None"))].
  destruct (td_arch d !! arch); by eexists (inr _).
Qed.

Lemma find_same {A} (f g : A -> bool) l :
  (forall x, f x = g x) -> find f l = find g l.
Proof.
  intros H. induction l as [|x l IH]; [done|]. cbn. by rewrite H, IH.
Qed.

(** [verify] on a package without dependencies. *)
Lemma verify_leaf self w :
  dependencies self = [] ->
  exists r t,
    verify P self w
    = (r, (if own_valid P (w_fs w) self then set_is_installed true self
           else self, w), t) /\
    if own_valid P (w_fs w) self then r = inr tt
    else exists msg, r = inl (SoftwarePackageError msg None).
Proof.
  intros Hdeps. rewrite verify_unfold, Hdeps. cbn [each_dependency].
  rewrite <- Hdeps, set_dependencies_id.
  destruct (verify_own_run self w) as (r & t & -> & _ & Hr).
  by exists r, t.
Qed.

(** Two objects with the same requirements verify at the same prefixes. *)
Lemma verifies_at_irrel w a b prefix name uid st :
  verify_commands a = verify_commands b ->
  verify_libraries a = verify_libraries b ->
  verify_headers a = verify_headers b ->
  verifies_at P w a prefix name uid st = verifies_at P w b prefix name uid st.
Proof. intros. unfold verifies_at. by apply own_valid_irrel. Qed.

Lemma search_storage_run levels prefix name uid :
  forall self w,
    dependencies self = [] ->
    exists self' t,
      search_storage P levels prefix name uid (self, w)
      = (inr (match find (verifies_at P w self prefix name uid) levels with
              | Some _ => true
              | None => false
              end), (self', w), t) /\
      src self' = src self /\
      verify_commands self' = verify_commands self /\
      verify_libraries self' = verify_libraries self /\
      verify_headers self' = verify_headers self /\
      match find (verifies_at P w self prefix name uid) levels with
      | Some st => install_prefix self' = candidate prefix name uid st
      | None => True
      end.
Proof.
  induction levels as [|st rest IH]; intros self w Hdeps.
  - exists self, []. by repeat split.
  - cbn [search_storage find].
    unfold bind at 1, modify_self at 1; cbn [fst snd].
    unfold bind at 1, try_except, bind, self_verify; cbn [fst snd].
    fold (candidate prefix name uid st).
    destruct (verify_leaf
                (_change_install_prefix (candidate prefix name uid st) self) w)
      as (r & t & -> & Hr); [by destruct self|].
    fold (verifies_at P w self prefix name uid st) in Hr |- *.
    destruct (verifies_at P w self prefix name uid st).
    + subst r. cbn [ret fst snd]. do 2 eexists. split; [reflexivity|].
      by destruct self.
    + destruct Hr as [msg ->]. cbn [is_SoftwarePackageError ret fst snd].
      destruct (IH (_change_install_prefix (candidate prefix name uid st) self)
                  w) as (self' & t' & E & H1 & H2 & H3 & H4 & H5);
        [by destruct self|].
      rewrite E. cbn [fst snd].
      assert (forall st',
        verifies_at P w
          (_change_install_prefix (candidate prefix name uid st) self)
          prefix name uid st'
        = verifies_at P w self prefix name uid st') as Hirr
        by (intros; by apply verifies_at_irrel).
      rewrite (find_same _ _ _ Hirr) in H5 |- *.
      do 2 eexists. split; [reflexivity|]. by destruct self.
Qed.

(** C1 (amended). When the source specifier is not an existing directory,
    the constructor leaves the world as it is and, if it returns, has set
    the install prefix to [<storage_root>/<prefix>/<name>/<md5(src)>] for
    the first storage level, scanning [reversed(ORDERED_LEVELS)], that is
    from highest to lowest precedence, at which this prefix passes
    verification, or else for the highest-precedence writable level.  It
    raises [ConfigurationError] when no level verifies and none is
    writable; its other failures are those of the lookups in its
    arguments. *)
Theorem init_resolves_prefix name title prefix sources target_arch target_os
  compilers repos commands libraries headers w src0 :
  sources !! name = Some src0 ->
  fs_isdir P (w_fs w) src0 = false ->
  exists r self t,
    __init__ P name title prefix sources target_arch target_os compilers
      repos commands libraries headers w = (r, (self, w), t) /\
    match r with
    | inr _ => resolved_by P (rev (ORDERED_LEVELS P)) prefix name w self
    | inl e =>
        e = KeyError "None"
        \/ e = TypeError "must be string or buffer, not list"
        \/ (e = ConfigurationError "No writable storage levels" None
            /\ find is_writable (rev (ORDERED_LEVELS P)) = None
            /\ exists url,
                 src self = Some url
                 /\ find (verifies_at P w self prefix name
                            (md5_hexdigest P url))
                      (rev (ORDERED_LEVELS P)) = None)
    end.
Proof.
  intros Hsrc Hdir. unfold __init__.
  unfold bind at 1.
  match goal with
  | |- context [_lookup_target_os_list P _ _ commands ?s] =>
      destruct (lookup_run target_arch target_os commands s) as (r1 & -> & H1)
  end.
  destruct r1 as [e|cmds]; [subst e; do 3 eexists; split; [done|by left]|].
  unfold bind at 1.
  match goal with
  | |- context [_lookup_target_os_list P _ _ libraries ?s] =>
      destruct (lookup_run target_arch target_os libraries s) as (r2 & -> & H2)
  end.
  destruct r2 as [e|libs]; [subst e; do 3 eexists; split; [done|by left]|].
  unfold bind at 1.
  match goal with
  | |- context [_lookup_target_os_list P _ _ headers ?s] =>
      destruct (lookup_run target_arch target_os headers s) as (r3 & -> & H3)
  end.
  destruct r3 as [e|hdrs]; [subst e; do 3 eexists; split; [done|by left]|].
  unfold bind at 1, modify_self at 1; cbn [fst snd]. rewrite Hsrc.
  unfold bind at 1, os_path_isdir at 1, query at 1; cbn [fst snd w_fs].
  rewrite Hdir.
  set (obj := mkInstallation name title target_arch target_os compilers
                (default [] cmds) (default [] libs) (default [] hdrs)
                None false None "" "" "" "" "" []).
  unfold bind at 1.
  assert (exists r4,
    (if negb (String.eqb (lower src0) "download") then ret (Some src0)
     else _lookup_target_os_list P target_arch target_os repos) (obj, w)
    = (r4, (obj, w), [])
    /\ match r4 with inl e => e = KeyError "None" | inr _ => True end)
    as (r4 & -> & H4).
  { destruct (negb _); [by exists (inr (Some src0))|apply lookup_run]. }
  destruct r4 as [e|[url|]];
    [subst e; do 3 eexists; split; [done|by left]|
    |do 3 eexists; split; [done|right; by left]].
  unfold bind at 1, modify_self at 1; cbn [fst snd].
  unfold bind at 1.
  destruct (search_storage_run (rev (ORDERED_LEVELS P)) prefix name
              (md5_hexdigest P url) (set_src (Some url) obj) w eq_refl)
    as (self' & t' & -> & Hs & Hc & Hl & Hh & Hp).
  assert (forall self'',
             verify_commands self'' = verify_commands self' ->
             verify_libraries self'' = verify_libraries self' ->
             verify_headers self'' = verify_headers self' ->
             find (verifies_at P w self'' prefix name (md5_hexdigest P url))
               (rev (ORDERED_LEVELS P))
             = find (verifies_at P w (set_src (Some url) obj) prefix name
                       (md5_hexdigest P url))
                 (rev (ORDERED_LEVELS P))) as Hfind.
  { intros self'' E1 E2 E3. apply find_same. intros st.
    apply verifies_at_irrel; congruence. }
  destruct (find (verifies_at P w (set_src (Some url) obj) prefix name
                    (md5_hexdigest P url)) (rev (ORDERED_LEVELS P)))
    as [st|] eqn:Efind.
  - do 3 eexists; split; [reflexivity|]. cbn [fst snd].
    exists url. split; [done|]. by rewrite (Hfind self').
  - unfold highest_writable_storage.
    destruct (find is_writable (rev (ORDERED_LEVELS P))) as [st|] eqn:Ew.
    + unfold bind, ret, modify_self; cbn [fst snd].
      do 3 eexists; split; [reflexivity|].
      exists url. split; [by destruct self'|].
      rewrite Hfind by (by destruct self').
      exists st. split; [done|by destruct self'].
    + unfold bind, raise; cbn [fst snd].
      do 3 eexists; split; [reflexivity|]. right; right.
      split; [done|]. split; [done|]. exists url. split; [done|].
      by rewrite (Hfind self').
Qed.

(** * Further properties of the code *)

(** ** [verify] *)

Lemma unmarked_unfold self :
  unmarked self
  = set_is_installed false
      (set_dependencies
         (map (fun d => (d.1, unmarked d.2)) (dependencies self)) self).
Proof. by destruct self. Qed.

Lemma each_dependency_preserves {B} (f : Installation -> B)
  (method : Installation -> World P -> Res unit * St P * list Event) deps w :
  Forall (fun d => forall w, f (state (method d.2 w)).1 = f d.2) deps ->
  map (fun d => (d.1, f d.2)) (state (each_dependency P method deps w)).1
  = map (fun d => (d.1, f d.2)) deps.
Proof.
  intros H. revert w. induction H as [|[k d] rest Hd _ IH]; intros w; [done|].
  cbn [each_dependency]. specialize (Hd w). cbn [snd] in Hd.
  destruct (method d w) as [[[e|[]] [d' w1]] t1];
    cbn [state fst snd map] in Hd |- *.
  - by rewrite Hd.
  - specialize (IH w1).
    destruct (each_dependency P method rest w1) as [[r [rest' w2]] t2].
    cbn [state fst snd map] in IH |- *. by rewrite Hd, IH.
Qed.

Lemma verify_posts (deps : list (string * Installation)) :
  Forall (fun d => forall w : World P, verify_post d.2 w) deps.
Proof. apply Forall_forall. intros d _ w. apply verify_run. Qed.

(** The flags after a run of [verify]. *)
Lemma verify_flags self :
  forall w : World P,
    unmarked (state (verify P self w)).1 = unmarked self
    /\ is_installed (state (verify P self w)).1
       = is_installed self || valid P (w_fs w) self.
Proof.
  induction self as [self IH] using Installation_tree_ind. intros w.
  assert (Forall (fun d => forall w,
                    unmarked (state (verify P d.2 w)).1 = unmarked d.2)
            (dependencies self)) as IHu.
  { eapply Forall_impl; [exact IH|]. intros d Hd w'. by destruct (Hd w'). }
  pose proof (each_dependency_preserves unmarked (verify P)
                (dependencies self) w IHu) as Hmap.
  destruct (each_verify_run (dependencies self) w
              (verify_posts (dependencies self)))
    as (r & deps' & t1 & E & _ & _ & Hr).
  rewrite E in Hmap. cbn [state fst snd] in Hmap.
  rewrite verify_unfold, E, valid_unfold.
  assert (unmarked (set_dependencies deps' self) = unmarked self) as Hu.
  { rewrite (unmarked_unfold self), unmarked_unfold.
    destruct self; cbn in *. by rewrite Hmap. }
  destruct (forallb _ (dependencies self)); cbn [andb].
  - destruct Hr as [-> ->].
    destruct (verify_own_run
      (set_dependencies (map (fun d => (d.1, mark_installed d.2))
                           (dependencies self)) self) w)
      as (r2 & t2 & -> & _ & _).
    rewrite (own_valid_irrel (w_fs w) _ self) by done.
    cbn [state fst snd].
    destruct (own_valid P (w_fs w) self).
    + split; [|by rewrite orb_true_r].
      rewrite <- Hu. by rewrite !unmarked_unfold.
    + split; [done|]. rewrite orb_false_r. by destruct self.
  - destruct Hr as [msg ->]. cbn [state fst snd].
    split; [done|]. rewrite orb_false_r. by destruct self.
Qed.

(** X1. [verify] changes nothing but [is_installed] flags: whatever its
    outcome, the world is as before, every event is a query of the file
    system, and the package and its dependencies keep all their other
    attributes. *)
Theorem verify_only_inspects self w :
  exists r self' t,
    verify P self w = (r, (self', w), t) /\
    Forall (fun e => is_query e = true) t /\
    unmarked self' = unmarked self.
Proof.
  destruct (verify_run self w) as (r & self' & t & E & Hq & _ & _).
  exists r, self', t. split; [done|]. split; [done|].
  destruct (verify_flags self w) as [Hu _]. by rewrite E in Hu.
Qed.

(** X2. [verify] sets [is_installed] when it passes and leaves it as it
    was when it raises: the flag is never cleared, so a package once marked
    stays marked although its files have since disappeared. *)
Theorem verify_never_clears_flag self w :
  is_installed (state (verify P self w)).1
  = is_installed self || negb (failed (result (verify P self w))).
Proof.
  destruct (verify_flags self w) as [_ ->]. f_equal.
  destruct (verify_run self w) as (r & self' & t & -> & _ & _ & Hr).
  cbn [result fst].
  destruct (valid P (w_fs w) self).
  - by destruct Hr as [-> _].
  - by destruct Hr as [msg ->].
Qed.

(** X3. When [verify] returns, the package and all its dependencies,
    recursively, are marked installed, and a second [verify] returns too and
    changes nothing. *)
Theorem verify_marks_and_repeats self w self' t :
  verify P self w = (inr tt, (self', w), t) ->
  self' = mark_installed self
  /\ exists t', verify P self' w = (inr tt, (self', w), t').
Proof.
  intros E.
  destruct (verify_run self w) as (r & sv & tv & Ev & _ & _ & Hr).
  rewrite E in Ev. injection Ev as <- <- <-.
  destruct (valid P (w_fs w) self) eqn:Hv; [|by destruct Hr as [msg [=]]].
  destruct Hr as [_ ->]. split; [done|].
  destruct (verify_run (mark_installed self) w)
    as (r2 & s2 & t2 & E2 & _ & _ & Hr2).
  rewrite valid_mark_installed, Hv in Hr2. destruct Hr2 as [-> ->].
  rewrite mark_installed_idemp in E2. by exists t2.
Qed.

(** ** The steps of a build *)

(** X4. Without a staged source tree ([src_prefix] is [None] or empty)
    [configure], [make] and [make_install] stop at their assertion: they
    raise [AssertionError], run no command and change nothing. *)
Theorem build_steps_need_staged_source flags env parallel self w :
  truthy (src_prefix self) = false ->
  configure P flags env (self, w) = (inl AssertionError, (self, w), [])
  /\ make P flags env parallel (self, w)
     = (inl AssertionError, (self, w), [])
  /\ make_install P flags env parallel (self, w)
     = (inl AssertionError, (self, w), []).
Proof.
  intros Hsrc. unfold configure, make, make_install.
  repeat split; unfold bind at 1; by rewrite assert_src_prefix_run, Hsrc.
Qed.

(** X5. [configure] runs exactly one command, in the staged source tree:
    [./configure], the caller's flags, and [--prefix=<install_prefix>] as its
    last argument.  It raises exactly when the command exits with a non-zero
    code, and leaves the object as it was. *)
Theorem configure_installs_to_prefix flags env self w :
  truthy (src_prefix self) = true ->
  exists rc fs',
    configure P flags env (self, w)
    = (if (rc =? 0)%Z then inr tt
       else inl (SoftwarePackageError (title self +:+ " configure failed")
                   None),
       (self, set_fs P fs' w),
       [EvSubprocess
          ("./configure" :: flags ++ ["--prefix=" +:+ install_prefix self])
          (default "" (src_prefix self)) rc]).
Proof.
  intros Hsrc. unfold configure.
  unfold bind at 1. rewrite assert_src_prefix_run, Hsrc.
  unfold bind at 1; cbn [get_self fst snd].
  unfold bind, util_create_subprocess; cbn [fst snd].
  destruct (fs_create_subprocess P _ _ _ _) as [rc fs'].
  exists rc, fs'. by destruct (rc =? 0)%Z.
Qed.

(** X6. [make] runs one command or two, never more.  The second is run
    only after the first has failed; it is [make] with the caller's flags and
    no [-j], so with [parallel=False] the very same command is run again.
    [make] raises exactly when both have failed. *)
Theorem make_attempts flags env parallel self w :
  truthy (src_prefix self) = true ->
  exists r fs' t,
    make P flags env parallel (self, w) = (r, (self, set_fs P fs' w), t) /\
    ((r = inr tt /\
      t = [EvSubprocess (first_make (P:=P) flags parallel)
             (default "" (src_prefix self)) 0])
     \/ exists rc1 rc2,
          rc1 <> 0%Z /\
          t = [EvSubprocess (first_make (P:=P) flags parallel)
                 (default "" (src_prefix self)) rc1;
               EvSubprocess ("make" :: flags)
                 (default "" (src_prefix self)) rc2] /\
          r = if (rc2 =? 0)%Z then inr tt
              else inl (SoftwarePackageError
                          (title self +:+ " compilation failed") None)).
Proof.
  intros Hsrc. unfold make, first_make.
  unfold bind at 1. rewrite assert_src_prefix_run, Hsrc.
  unfold bind at 1; cbn [get_self fst snd].
  unfold bind at 1, util_create_subprocess at 1; cbn [fst snd].
  destruct (fs_create_subprocess P _ _ _ _) as [rc fs'].
  destruct (rc =? 0)%Z eqn:Hrc; cbn [negb].
  - apply Z.eqb_eq in Hrc as ->.
    do 3 eexists; split; [reflexivity|]. by left.
  - apply Z.eqb_neq in Hrc.
    unfold bind, util_create_subprocess; cbn [fst snd set_fs w_fs].
    destruct (fs_create_subprocess P _ _ _ _) as [rc2 fs2].
    exists (if (rc2 =? 0)%Z then inr tt
            else inl (SoftwarePackageError
                        (title self +:+ " compilation failed") None)),
      fs2, [EvSubprocess
              (["make"] ++ (if parallel then parallel_make_flags P None
                            else []) ++ flags)
              (default "" (src_prefix self)) rc;
            EvSubprocess ("make" :: flags) (default "" (src_prefix self)) rc2].
    split; [by destruct (rc2 =? 0)%Z|].
    right. by exists rc, rc2.
Qed.

(** X7. [make_install] links [lib] to [lib64] exactly when, after a
    successful [make install], [lib64] is a directory and [lib] is not.  When
    [make install] fails the directories are not looked at and no link is
    made. *)
Theorem make_install_links_lib64 flags env parallel self w :
  truthy (src_prefix self) = true ->
  exists r fs' rc fs1 t,
    make_install P flags env parallel (self, w)
    = (r, (self, set_fs P fs' w),
       EvSubprocess
         ("make" :: "install"
            :: (if parallel then flags ++ parallel_make_flags P None
                else flags))
         (default "" (src_prefix self)) rc :: t) /\
    fs_create_subprocess P
      ("make" :: "install"
         :: (if parallel then flags ++ parallel_make_flags P None else flags))
      (default "" (src_prefix self)) env (w_fs w) = (rc, fs1) /\
    if (rc =? 0)%Z then
      (Exists (fun e => e = EvSymlink (lib_path self +:+ "64") (lib_path self)
                               (negb (failed r))) t
       <-> fs_isdir P fs1 (lib_path self +:+ "64") = true
           /\ fs_isdir P fs1 (lib_path self) = false)
      /\ Forall (fun e => is_symlink e = true -> 
                   e = EvSymlink (lib_path self +:+ "64") (lib_path self)
                         (negb (failed r))) t
    else
      t = [] /\ fs' = fs1 /\
      r = inl (SoftwarePackageError (title self +:+ " installation failed")
                 None).
Proof.
  intros Hsrc. unfold make_install.
  unfold bind at 1. rewrite assert_src_prefix_run, Hsrc.
  unfold bind at 1; cbn [get_self fst snd].
  unfold bind at 1, util_create_subprocess at 1; cbn [fst snd].
  destruct (fs_create_subprocess P _ _ _ _) as [rc fs1] eqn:Erun.
  destruct (rc =? 0)%Z eqn:Hrc; cbn [negb].
  2:{ exists (inl (SoftwarePackageError
                     (title self +:+ " installation failed") None)),
        fs1, rc, fs1, [].
      split; [done|]. split; [done|]. by rewrite Hrc. }
  unfold bind at 1, os_path_isdir at 1, query at 1; cbn [fst snd set_fs w_fs].
  destruct (fs_isdir P fs1 (lib_path self +:+ "64")) eqn:H64.
  2:{ exists (inr tt), fs1, rc, fs1, [EvIsdir (lib_path self +:+ "64")].
      split; [done|]. split; [done|]. rewrite Hrc. split.
      - split; [|intros [? ?]; congruence].
        intros H. apply Exists_cons in H as [[=]|H]. by inversion H.
      - apply Forall_cons; split; [by intros [=]|by constructor]. }
  unfold bind at 1, os_path_isdir at 1, query at 1; cbn [fst snd set_fs w_fs].
  destruct (fs_isdir P fs1 (lib_path self)) eqn:Hlib; cbn [negb].
  { exists (inr tt), fs1, rc, fs1,
      [EvIsdir (lib_path self +:+ "64"); EvIsdir (lib_path self)].
    split; [done|]. split; [done|]. rewrite Hrc. split.
    - split; [|intros [? ?]; congruence].
      intros H. apply Exists_cons in H as [[=]|H].
      apply Exists_cons in H as [[=]|H]. by inversion H.
    - repeat (apply Forall_cons; split; [by intros [=]|]). by constructor. }
  unfold os_symlink; cbn [fst snd set_fs w_fs].
  destruct (fs_symlink P _ _ fs1) as [msg|fs2].
  - exists (inl (OSError msg)), fs1, rc, fs1,
      [EvIsdir (lib_path self +:+ "64"); EvIsdir (lib_path self);
       EvSymlink (lib_path self +:+ "64") (lib_path self) false].
    split; [done|]. split; [done|]. rewrite Hrc. split.
    + split; [done|]. intros _.
      do 2 apply Exists_cons_tl. by apply Exists_cons_hd.
    + repeat (apply Forall_cons; split; [by intros|]). by constructor.
  - exists (inr tt), fs2, rc, fs1,
      [EvIsdir (lib_path self +:+ "64"); EvIsdir (lib_path self);
       EvSymlink (lib_path self +:+ "64") (lib_path self) true].
    split; [done|]. split; [done|]. rewrite Hrc. split.
    + split; [done|]. intros _.
      do 2 apply Exists_cons_tl. by apply Exists_cons_hd.
    + repeat (apply Forall_cons; split; [by intros|]). by constructor.
Qed.

(** X8. By default [parallel_make_flags] asks for one job less than the
    machine has cores, and never for fewer than one; a job count of zero is
    taken for no job count at all, any other is passed on as it is. *)
Theorem parallel_make_flags_jobs nprocs :
  exists n,
    parallel_make_flags P nprocs = ["-j"; pretty n] /\
    match nprocs with
    | Some m =>
        if (m =? 0)%Z then parallel_make_flags P nprocs
                           = parallel_make_flags P None
        else n = m
    | None => (1 <= n)%Z /\ (cpu_count P - 1 <= n)%Z
              /\ (n = 1 \/ n = cpu_count P - 1)%Z
    end.
Proof.
  unfold parallel_make_flags. destruct nprocs as [m|].
  - destruct (m =? 0)%Z eqn:Hm.
    + by eexists.
    + by exists m.
  - eexists. split; [reflexivity|]. lia.
Qed.

(** ** The constructor *)

(** X9. [_lookup_target_os_list] raises [KeyError] exactly when the dict
    is not empty and has no [None] key, also when it has an entry for the
    very architecture and operating system of the target.  It changes
    nothing. *)
Theorem lookup_needs_default {V} arch os (dct : option (TargetDict V))
  (s : St P) :
  exists r,
    _lookup_target_os_list P arch os dct s = (r, s, []) /\
    (failed r = true <->
     exists d, dct = Some d /\ td_default d = None
               /\ dom (td_arch d) <> ∅) /\
    (failed r = true -> r = inl (KeyError "None")).
Proof.
  unfold _lookup_target_os_list, dict_truthy.
  destruct dct as [d|].
  2:{ exists (inr None). split; [done|]. split; [|done].
      split; [done|]. by intros (d & [=] & _). }
  destruct (td_default d) as [dflt|] eqn:Hd; cbn [negb].
  - destruct (td_arch d !! arch) as [arch_dct|];
      (eexists; split; [reflexivity|]; split; [|done]; split; [done|]);
      intros (d' & [= <-] & H & _); congruence.
  - destruct (bool_decide (dom (td_arch d) = ∅)) eqn:He; cbn [negb].
    + apply bool_decide_eq_true in He.
      exists (inr None). split; [done|]. split; [|done]. split; [done|].
      by intros (d' & [= <-] & _ & H).
    + apply bool_decide_eq_false in He.
      exists (inl (KeyError "None")). split; [done|]. split; [|done].
      split; [|done]. intros _. by exists d.
Qed.

(** X10. When the source given for the package is an existing directory,
    the constructor takes it for the installation itself: the object has no
    source, its prefix is that directory, no storage level is looked at, and
    the world is left as it is.  The constructor returns, with the object
    marked installed, when the directory passes verification, and raises
    [SoftwarePackageError] when it does not; its other failures are those of
    the lookups in its arguments. *)
Theorem init_existing_installation name title prefix sources target_arch
  target_os compilers repos commands libraries headers w src0 :
  sources !! name = Some src0 ->
  fs_isdir P (w_fs w) src0 = true ->
  exists r self t,
    __init__ P name title prefix sources target_arch target_os compilers
      repos commands libraries headers w = (r, (self, w), t) /\
    (r = inl (KeyError "None") \/
     (src self = None /\ install_prefix self = src0 /\
      dependencies self = [] /\
      Forall (fun e => is_query e = true) t /\
      is_installed self = own_valid P (w_fs w) self /\
      if own_valid P (w_fs w) self then r = inr tt
      else exists msg, r = inl (SoftwarePackageError msg None))).
Proof.
  intros Hsrc Hdir. unfold __init__.
  unfold bind at 1.
  match goal with
  | |- context [_lookup_target_os_list P _ _ commands ?s] =>
      destruct (lookup_run target_arch target_os commands s) as (r1 & -> & H1)
  end.
  destruct r1 as [e|cmds]; [subst e; do 3 eexists; split; [done|by left]|].
  unfold bind at 1.
  match goal with
  | |- context [_lookup_target_os_list P _ _ libraries ?s] =>
      destruct (lookup_run target_arch target_os libraries s) as (r2 & -> & H2)
  end.
  destruct r2 as [e|libs]; [subst e; do 3 eexists; split; [done|by left]|].
  unfold bind at 1.
  match goal with
  | |- context [_lookup_target_os_list P _ _ headers ?s] =>
      destruct (lookup_run target_arch target_os headers s) as (r3 & -> & H3)
  end.
  destruct r3 as [e|hdrs]; [subst e; do 3 eexists; split; [done|by left]|].
  unfold bind at 1, modify_self at 1; cbn [fst snd]. rewrite Hsrc.
  unfold bind at 1, os_path_isdir at 1, query at 1; cbn [fst snd w_fs].
  rewrite Hdir.
  unfold bind at 1, modify_self at 1; cbn [fst snd].
  unfold bind at 1, modify_self at 1; cbn [fst snd].
  unfold self_verify; cbn [fst snd].
  match goal with
  | |- context [verify P ?obj w] =>
      destruct (verify_run obj w) as (r & self' & t & E & Hq & _ & _);
      destruct (verify_leaf obj w eq_refl) as (r' & t' & E' & Hr);
      rewrite E in E'; injection E' as <- -> <-; rewrite E;
      set (o := obj) in *
  end.
  do 3 eexists. split; [reflexivity|]. right.
  assert (own_valid P (w_fs w)
            (if own_valid P (w_fs w) o then set_is_installed true o else o)
          = own_valid P (w_fs w) o) as Hirr.
  { destruct (own_valid P (w_fs w) o) eqn:Ho; [|done].
    rewrite <- Ho. by apply own_valid_irrel. }
  rewrite Hirr.
  split; [by destruct (own_valid P (w_fs w) o)|].
  split; [by destruct (own_valid P (w_fs w) o)|].
  split; [by destruct (own_valid P (w_fs w) o)|].
  split; [by apply Forall_cons|].
  split; [by destruct (own_valid P (w_fs w) o)|].
  by destruct (own_valid P (w_fs w) o).
Qed.

(** X11. The keyword [download] is recognised in any letter case.  With
    it, and no repository to download from ([repos] is [None] or empty), the
    constructor cannot return: it raises [TypeError] when it comes to hash
    the source, unless a lookup in its other arguments has raised
    [KeyError] before.  No storage level is looked at. *)
Theorem init_download_needs_repos name title prefix sources target_arch
  target_os compilers repos commands libraries headers w src0 :
  sources !! name = Some src0 ->
  fs_isdir P (w_fs w) src0 = false ->
  lower src0 = "download" ->
  dict_truthy repos = false ->
  exists e self t,
    __init__ P name title prefix sources target_arch target_os compilers
      repos commands libraries headers w = (inl e, (self, w), t) /\
    (e = KeyError "None" /\ t = []
     \/ e = TypeError "must be string or buffer, not list"
        /\ t = [EvIsdir src0]).
Proof.
  intros Hsrc Hdir Hlow Hrepos. unfold __init__.
  unfold bind at 1.
  match goal with
  | |- context [_lookup_target_os_list P _ _ commands ?s] =>
      destruct (lookup_run target_arch target_os commands s) as (r1 & -> & H1)
  end.
  destruct r1 as [e|cmds]; [subst e; do 3 eexists; split; [done|by left]|].
  unfold bind at 1.
  match goal with
  | |- context [_lookup_target_os_list P _ _ libraries ?s] =>
      destruct (lookup_run target_arch target_os libraries s) as (r2 & -> & H2)
  end.
  destruct r2 as [e|libs]; [subst e; do 3 eexists; split; [done|by left]|].
  unfold bind at 1.
  match goal with
  | |- context [_lookup_target_os_list P _ _ headers ?s] =>
      destruct (lookup_run target_arch target_os headers s) as (r3 & -> & H3)
  end.
  destruct r3 as [e|hdrs]; [subst e; do 3 eexists; split; [done|by left]|].
  unfold bind at 1, modify_self at 1; cbn [fst snd]. rewrite Hsrc.
  unfold bind at 1, os_path_isdir at 1, query at 1; cbn [fst snd w_fs].
  rewrite Hdir, Hlow. cbn [String.eqb negb].
  unfold bind at 1, _lookup_target_os_list.
  destruct repos as [d|]; [rewrite Hrepos|]; cbn [negb ret fst snd];
    do 3 eexists; (split; [reflexivity|by right]).
Qed.

(** X12. A package that has no entry in [sources] cannot be constructed:
    the constructor raises [KeyError] before it looks at the file system. *)
Theorem init_needs_source_entry name title prefix sources target_arch
  target_os compilers repos commands libraries headers w :
  sources !! name = None ->
  exists k self,
    __init__ P name title prefix sources target_arch target_os compilers
      repos commands libraries headers w
    = (inl (KeyError k), (self, w), []) /\
    (k = "None" \/ k = name).
Proof.
  intros Hsrc. unfold __init__.
  unfold bind at 1.
  match goal with
  | |- context [_lookup_target_os_list P _ _ commands ?s] =>
      destruct (lookup_run target_arch target_os commands s) as (r1 & -> & H1)
  end.
  destruct r1 as [e|cmds]; [subst e; do 2 eexists; split; [done|by left]|].
  unfold bind at 1.
  match goal with
  | |- context [_lookup_target_os_list P _ _ libraries ?s] =>
      destruct (lookup_run target_arch target_os libraries s) as (r2 & -> & H2)
  end.
  destruct r2 as [e|libs]; [subst e; do 2 eexists; split; [done|by left]|].
  unfold bind at 1.
  match goal with
  | |- context [_lookup_target_os_list P _ _ headers ?s] =>
      destruct (lookup_run target_arch target_os headers s) as (r3 & -> & H3)
  end.
  destruct r3 as [e|hdrs]; [subst e; do 2 eexists; split; [done|by left]|].
  unfold bind at 1, modify_self at 1; cbn [fst snd]. rewrite Hsrc.
  do 2 eexists; split; [reflexivity|by right].
Qed.

(** ** [_prepare_src] *)

Lemma quiet_same {A} (m : M (St P) A) :
  (forall s, state (m s) = s) -> quiet m.
Proof.
  intros H [self w]. exists (w_fs w). by rewrite H, set_fs_same.
Qed.

Lemma quiet_bind {A B} (m : M (St P) A) (k : A -> M (St P) B) :
  quiet m -> (forall a, quiet (k a)) -> quiet (bind m k).
Proof.
  intros Hm Hk s. unfold bind. destruct (Hm s) as [fs1 H1].
  destruct (m s) as [[[e|a] s1] t1]; cbn [state fst snd] in *;
    [by exists fs1|].
  destruct (Hk a s1) as [fs2 H2].
  destruct (k a s1) as [[r s2] t2]. cbn [state fst snd] in *.
  exists fs2. by rewrite H2, H1.
Qed.

Lemma quiet_try_except {A} (m : M (St P) A) h :
  quiet m -> (forall e k, h e = Some k -> quiet k) -> quiet (try_except m h).
Proof.
  intros Hm Hh s. unfold try_except. destruct (Hm s) as [fs1 H1].
  destruct (m s) as [[[e|a] s1] t1]; cbn [state fst snd] in *;
    [|by exists fs1].
  destruct (h e) as [k|] eqn:E; [|by exists fs1].
  destruct (Hh e k E s1) as [fs2 H2].
  destruct (k s1) as [[r s2] t2]. cbn [state fst snd] in *.
  exists fs2. by rewrite H2, H1.
Qed.

Lemma quiet_fs_step {A} ev exn (f : FS P -> string + A * FS P) :
  quiet (fs_step P ev exn f).
Proof.
  intros [self w]. unfold fs_step; cbn [fst snd].
  destruct (f _) as [?|[? fs']]; cbn [state fst snd].
  - exists (w_fs w). by rewrite set_fs_same.
  - by exists fs'.
Qed.

Lemma quiet_rmtree p : quiet (util_rmtree P p).
Proof. intros [self w]. by eexists. Qed.

Local Ltac quiet_step :=
  first
    [ apply quiet_bind; [|intros ?]
    | apply quiet_try_except; [|intros ? ? ?]
    | apply quiet_fs_step
    | apply quiet_rmtree
    | match goal with
      | H : (if ?b then _ else _) = Some _ |- _ =>
          destruct b; [|discriminate]; injection H as <-
      | |- quiet (if ?b then _ else _) => destruct b
      | |- quiet (match ?x with _ => _ end) => destruct x
      end
    | by apply quiet_same ].

Local Ltac quiet_all := repeat quiet_step.

Lemma quiet_search_archive levels archive_name bp archive :
  quiet (search_archive P levels archive_name bp archive).
Proof.
  revert bp archive. induction levels as [|st rest IH]; intros bp archive;
    cbn [search_archive]; [by apply quiet_same|].
  unfold shutil_copy. quiet_all. apply IH.
Qed.

Lemma quiet_acquire_archive self archive_name bp :
  quiet (acquire_archive P self archive_name bp).
Proof.
  unfold acquire_archive, highest_writable_storage, util_download,
    util_mkdirp, shutil_copy.
  quiet_all.
Qed.

Lemma quiet_locate_archive bp reuse (s : St P) :
  exists fs', state (locate_archive bp reuse s) = (s.1, set_fs P fs' s.2).
Proof.
  unfold locate_archive. destruct reuse.
  - apply quiet_search_archive.
  - apply quiet_acquire_archive.
Qed.

Lemma stages_intro {A} (m : M (St P) A) :
  (forall self w,
      exists r self' fs' t,
        m (self, w) = (r, (self', set_fs P fs' w), t) /\
        match r with
        | inr _ => exists p, self' = set_src_prefix (Some p) self
        | inl _ => self' = self
        end) ->
  stages m.
Proof.
  intros H [self w]. destruct (H self w) as (r & self' & fs' & t & -> & Hr).
  by exists fs'.
Qed.

Lemma stages_stage_source bp archive topdir reuse :
  stages (stage_source P bp archive topdir reuse).
Proof.
  apply stages_intro. intros self w. unfold stage_source.
  destruct bp as [bp|].
  2:{ exists (inl (TypeError "build_prefix")), self, (w_fs w), [].
    by rewrite set_fs_same. }
  unfold bind at 1.
  assert (exists staged t0,
    (if reuse then os_path_isdir P (os_path_join bp topdir) else ret false)
      (self, w) = (inr staged, (self, w), t0)) as (staged & t0 & ->).
  { destruct reuse; by do 2 eexists. }
  unfold bind at 1. destruct staged.
  { cbn. do 2 eexists. exists (w_fs w). eexists.
    rewrite set_fs_same. split; [reflexivity|by eexists]. }
  unfold bind at 1, util_rmtree at 1; cbn [fst snd].
  unfold try_except, util_extract_archive, fs_step; cbn [fst snd w_fs set_fs].
  destruct (fs_extract_archive P _ _ _) as [msg|[p fs']];
    cbn [is_IOError raise modify_self bind fst snd].
  - do 4 eexists. split; [reflexivity|done].
  - do 4 eexists. split; [reflexivity|by eexists].
Qed.

Lemma stages_prepare_src_fuel n :
  forall bp reuse, stages (_prepare_src_fuel P n bp reuse).
Proof.
  induction n as [|n IH]; intros bp reuse [self w]; cbn [_prepare_src_fuel].
  { exists (w_fs w). by rewrite set_fs_same. }
  destruct (truthy (src self)) eqn:Hsrc.
  2:{ rewrite prepare_src_body_no_src by done.
      exists (w_fs w). by rewrite set_fs_same. }
  rewrite prepare_src_body_run by done.
  destruct (quiet_locate_archive bp reuse (self, w)) as [fs1 H1].
  destruct (locate_archive bp reuse (self, w)) as [[[e|found] s1] t1];
    cbn [state fst snd] in H1; subst s1; [by exists fs1|].
  destruct found.2 as [archive|]; [|by exists fs1].
  cbn [fst snd w_fs set_fs].
  destruct (fs_archive_toplevel P archive fs1) as [msg|topdir].
  - destruct reuse; [|by exists fs1].
    destruct (IH found.1 false (self, set_fs P fs1 w)) as [fs2 [H2 H3]].
    cbn [result state fst snd] in *. exists fs2. by rewrite H2.
  - destruct (stages_stage_source found.1 archive topdir reuse
                (self, set_fs P fs1 w)) as [fs2 [H2 H3]].
    cbn [result state fst snd] in *. exists fs2. by rewrite H2.
Qed.

(** X13. [_prepare_src] works on files only: every event is one of
    acquiring, reading or unpacking an archive (no command is run, no lock
    taken, no link made), and of the world only the files change.  It sets
    [src_prefix] when it returns, and leaves the object as it was when it
    raises. *)
Theorem prepare_src_effect bp reuse self w :
  exists r self' fs' t,
    _prepare_src P bp reuse (self, w) = (r, (self', set_fs P fs' w), t) /\
    Forall (fun e => is_staging e || is_archive_read e = true) t /\
    match r with
    | inr _ => exists p, self' = set_src_prefix (Some p) self
    | inl _ => self' = self
    end.
Proof.
  pose proof (prepare_src_events bp reuse (self, w)) as Hev.
  destruct (stages_prepare_src_fuel 1000 bp reuse (self, w)) as [fs' [H1 H2]].
  fold (_prepare_src P) in H1, H2.
  destruct (_prepare_src P bp reuse (self, w)) as [[r [self' w']] t].
  cbn [result state events fst snd] in *. subst w'.
  by exists r, self', fs', t.
Qed.

(** X14. Without a source, [_prepare_src] raises [ConfigurationError] at
    once: nothing is looked for, downloaded or changed. *)
Theorem prepare_src_needs_source bp reuse self w :
  truthy (src self) = false ->
  _prepare_src P bp reuse (self, w)
  = (inl (ConfigurationError
            ("No source code provided for " +:+ title self) None),
     (self, w), []).
Proof.
  intros Hsrc. rewrite prepare_src_step.
  by rewrite prepare_src_body_no_src.
Qed.

Local Ltac no_downloads :=
  by repeat first [apply Forall_nil | apply Forall_cons; split
                  | apply Forall_app; split].

Lemma search_archive_no_download levels archive_name bp archive s :
  Forall (fun e => is_download e = false)
    (events (search_archive P levels archive_name bp archive s)).
Proof.
  revert bp archive. induction levels as [|st rest IH]; intros bp archive.
  - by constructor.
  - cbn [search_archive].
    unfold bind at 1, os_path_exists at 1, query at 1; cbn [fst snd].
    destruct (fs_exists P _ _).
    + destruct (negb _).
      * unfold bind, shutil_copy, fs_step, unit_step, ret; cbn [fst snd].
        destruct (fs_copy P _ _ _); cbn; no_downloads.
      * cbn. no_downloads.
    + specialize (IH (if truthy bp then bp
                      else Some (os_path_join (storage_prefix st) "src"))
                    (Some (os_path_join
                             (os_path_join (storage_prefix st) "src")
                             archive_name))).
      destruct (search_archive P rest _ _ _ s) as [[r s1] t1].
      cbn [events fst snd] in *. by apply Forall_cons.
Qed.

Lemma stage_source_no_download bp archive topdir reuse s :
  Forall (fun e => is_download e = false)
    (events (stage_source P bp archive topdir reuse s)).
Proof.
  unfold stage_source. destruct bp as [bp|]; [|by constructor].
  unfold bind at 1.
  destruct reuse; unfold os_path_isdir, query, ret at 1; cbn [fst snd].
  1: destruct (fs_isdir P _ _).
  all: unfold bind, util_rmtree, try_except, util_extract_archive, fs_step,
         modify_self, ret, raise; cbn [fst snd set_fs w_fs].
  all: try destruct (fs_extract_archive P _ _ _) as [msg|[p fs']]; cbn;
       no_downloads.
Qed.

(** The place where a fresh copy of the archive is downloaded to. *)
Lemma acquire_archive_run self archive_name bp s :
  match find is_writable (rev (ORDERED_LEVELS P)) with
  | None =>
      acquire_archive P self archive_name bp s
      = (inl (ConfigurationError "No writable storage levels" None), s, [])
  | Some st =>
      exists t,
        events (acquire_archive P self archive_name bp s)
        = EvDownload (default "" (src self))
            (os_path_join
               (default ""
                  (if truthy bp then bp
                   else Some (os_path_join (storage_prefix st) "src")))
               archive_name) :: t
        /\ Forall (fun e => is_download e = false) t
  end.
Proof.
  unfold acquire_archive, highest_writable_storage.
  destruct (find is_writable _) as [st|]; [|done].
  unfold bind at 1, ret at 1. cbn [fst snd].
  unfold bind at 1, try_except, util_download, fs_step, unit_step.
  destruct (fs_download P _ _ _) as [msg|fs']; cbn [is_IOError raise fst snd].
  { eexists. split; [reflexivity|no_downloads]. }
  destruct (negb _).
  2:{ cbn. eexists. split; [reflexivity|no_downloads]. }
  unfold bind, util_mkdirp, shutil_copy, fs_step, unit_step, ret;
    cbn [fst snd set_fs w_fs].
  destruct (fs_mkdirp P _ _) as [msg|fs''];
    [cbn; eexists; split; [reflexivity|no_downloads]|].
  destruct (fs_copy P _ _ _); cbn; eexists; (split; [reflexivity|]);
    no_downloads.
Qed.

Lemma prepare_src_fresh_download bp s :
  truthy (src s.1) = true ->
  match find is_writable (rev (ORDERED_LEVELS P)) with
  | None =>
      _prepare_src P bp false s
      = (inl (ConfigurationError "No writable storage levels" None), s, [])
  | Some st =>
      exists t,
        events (_prepare_src P bp false s)
        = EvDownload (default "" (src s.1))
            (os_path_join
               (default ""
                  (if truthy bp then bp
                   else Some (os_path_join (storage_prefix st) "src")))
               (os_path_basename (default "" (src s.1)))) :: t
        /\ Forall (fun e => is_download e = false) t
  end.
Proof.
  intros Hsrc. rewrite (prepare_src_fresh_unroll (_prepare_src P)).
  rewrite prepare_src_body_run by done. unfold locate_archive.
  pose proof (acquire_archive_run s.1
                (os_path_basename (default "" (src s.1))) bp s) as Ha.
  destruct (find is_writable _) as [st|]; [|by rewrite Ha].
  destruct Ha as (t & Ht & Hnd).
  destruct (acquire_archive P _ _ _ s) as [[[e|found] s1] t1];
    cbn [events fst snd] in Ht; subst t1; [by exists t|].
  destruct found.2 as [archive|]; [|by exists t].
  destruct (fs_archive_toplevel P archive _) as [msg|topdir].
  - exists (t ++ [EvArchiveToplevel archive false]).
    split; [done|]. apply Forall_app; split; [done|no_downloads].
  - exists (t ++ EvArchiveToplevel archive true
              :: events (stage_source P found.1 archive topdir false s1)).
    split; [done|]. apply Forall_app; split; [done|].
    apply Forall_cons; split; [done|apply stage_source_no_download].
Qed.

(** X15. Called not to reuse what is there, [_prepare_src] first of all
    downloads the source, whether or not its archive is already in storage:
    into [build_prefix] when one is given, else into the [src] directory of
    the highest writable storage level.  Nothing else is downloaded.  When
    no storage level is writable, it raises before anything is touched. *)
Theorem prepare_src_fresh_downloads_first bp self w :
  truthy (src self) = true ->
  match find is_writable (rev (ORDERED_LEVELS P)) with
  | None =>
      _prepare_src P bp false (self, w)
      = (inl (ConfigurationError "No writable storage levels" None),
         (self, w), [])
  | Some st =>
      exists t,
        events (_prepare_src P bp false (self, w))
        = EvDownload (default "" (src self))
            (os_path_join
               (default ""
                  (if truthy bp then bp
                   else Some (os_path_join (storage_prefix st) "src")))
               (os_path_basename (default "" (src self)))) :: t
        /\ Forall (fun e => is_download e = false) t
  end.
Proof. intros Hsrc. by apply (prepare_src_fresh_download bp (self, w)). Qed.

(** X16. Called to reuse what is there, [_prepare_src] downloads nothing
    unless reading the archive it has settled on fails: whatever is
    downloaded comes after a failed read of an archive. *)
Theorem prepare_src_reuse_downloads_last bp s :
  exists t1 t2,
    events (_prepare_src P bp true s) = t1 ++ t2 /\
    Forall (fun e => is_download e = false) t1 /\
    (t2 = [] \/ exists a t3, t2 = EvArchiveToplevel a false :: t3).
Proof.
  rewrite prepare_src_step.
  destruct (truthy (src s.1)) eqn:Hsrc.
  2:{ rewrite prepare_src_body_no_src by done. exists [], []. by auto. }
  rewrite prepare_src_body_run by done. unfold locate_archive.
  pose proof (search_archive_no_download (rev (ORDERED_LEVELS P))
                (os_path_basename (default "" (src s.1))) bp None s) as Hs.
  destruct (search_archive P _ _ _ _ s) as [[[e|found] s1] t1];
    cbn [events fst snd] in Hs.
  { exists t1, []. rewrite app_nil_r. by auto. }
  destruct found.2 as [archive|].
  2:{ exists t1, []. rewrite app_nil_r. by auto. }
  destruct (fs_archive_toplevel P archive _) as [msg|topdir].
  - exists t1, (EvArchiveToplevel archive false
                  :: events (_prepare_src P found.1 false s1)).
    split; [done|]. split; [done|]. right. by do 2 eexists.
  - exists (t1 ++ EvArchiveToplevel archive true
               :: events (stage_source P found.1 archive topdir true s1)), [].
    rewrite app_nil_r. split; [done|]. split; [|by left].
    apply Forall_app; split; [done|].
    apply Forall_cons; split; [done|apply stage_source_no_download].
Qed.

Lemma truthy_join_src a : truthy (Some (os_path_join a "src")) = true.
Proof.
  unfold truthy, os_path_join. cbn [String.prefix].
  destruct (String.eqb a "" || endswith_slash a); by destruct a.
Qed.

Lemma search_archive_prefix levels archive_name :
  forall bp archive s found s1 t1,
    search_archive P levels archive_name bp archive s = (inr found, s1, t1) ->
    found.1 = (if truthy bp then bp
               else match levels with
                    | [] => bp
                    | st :: _ => Some (os_path_join (storage_prefix st) "src")
                    end).
Proof.
  induction levels as [|st rest IH]; intros bp archive s found s1 t1.
  - cbn. intros [= <- _ _]. by destruct (truthy bp).
  - cbn [search_archive].
    unfold bind at 1, os_path_exists at 1, query at 1; cbn [fst snd].
    destruct (fs_exists P _ _).
    + destruct (negb _).
      * unfold bind, shutil_copy, fs_step, unit_step, ret; cbn [fst snd].
        destruct (fs_copy P _ _ _); cbn; [done|]. by intros [= <- _ _].
      * cbn. by intros [= <- _ _].
    + destruct (search_archive P rest _ _ _ s) as [[r s2] t2] eqn:E.
      intros [= -> <- <-]. apply IH in E. rewrite E.
      destruct (truthy bp) eqn:Hbp; [by rewrite Hbp|].
      by rewrite truthy_join_src.
Qed.

(** X17. When the search for a stored archive ends in a download, the
    source is downloaded into [build_prefix] when one is given, and else
    into the [src] directory of the storage level of highest precedence,
    whether or not that level is writable. *)
Theorem prepare_src_retry_target bp self w st rest :
  truthy (src self) = true ->
  rev (ORDERED_LEVELS P) = st :: rest ->
  Forall (fun e =>
            is_download e = true ->
            e = EvDownload (default "" (src self))
                  (os_path_join
                     (default ""
                        (if truthy bp then bp
                         else Some (os_path_join (storage_prefix st) "src")))
                     (os_path_basename (default "" (src self)))))
    (events (_prepare_src P bp true (self, w))).
Proof.
  intros Hsrc Hlv. rewrite prepare_src_step.
  rewrite prepare_src_body_run by done. unfold locate_archive.
  cbn [fst snd]. rewrite Hlv.
  pose proof (search_archive_no_download (st :: rest)
                (os_path_basename (default "" (src self))) bp None (self, w))
    as Hs.
  pose proof (search_archive_prefix (st :: rest)
                (os_path_basename (default "" (src self))) bp None (self, w))
    as Hp.
  destruct (quiet_search_archive (st :: rest)
              (os_path_basename (default "" (src self))) bp None (self, w))
    as [fs1 Hq].
  assert (forall t : list Event,
             Forall (fun e => is_download e = false) t ->
             Forall (fun e =>
               is_download e = true ->
               e = EvDownload (default "" (src self))
                     (os_path_join
                        (default ""
                           (if truthy bp then bp
                            else Some (os_path_join (storage_prefix st)
                                         "src")))
                        (os_path_basename (default "" (src self))))) t)
    as Hweak.
  { intros t Ht. eapply Forall_impl; [exact Ht|]. intros e -> [=]. }
  destruct (search_archive P _ _ _ _ (self, w)) as [[[e|found] s1] t1];
    cbn [events state fst snd] in *; [by apply Hweak|].
  subst s1. specialize (Hp found _ _ eq_refl).
  destruct found.2 as [archive|]; [|by apply Hweak].
  cbn [fst snd w_fs set_fs].
  destruct (fs_archive_toplevel P archive fs1) as [msg|topdir].
  - cbn [events fst snd].
    apply Forall_app; split; [by apply Hweak|].
    apply Forall_cons; split; [by intros [=]|].
    pose proof (prepare_src_fresh_download found.1
                  (self, set_fs P fs1 w) Hsrc) as Hf.
    assert (truthy found.1 = true) as Htr.
    { rewrite Hp. destruct (truthy bp) eqn:Hbp; [done|].
      apply truthy_join_src. }
    rewrite Htr in Hf. cbn [fst snd] in Hf.
    destruct (find is_writable _) as [stw|].
    + destruct Hf as (t & Hf & Hnd). cbn [events] in Hf. rewrite Hf.
      apply Forall_cons; split; [|by apply Hweak].
      intros _. by rewrite Hp.
    + rewrite Hf. by constructor.
  - cbn [events fst snd].
    apply Forall_app; split; [by apply Hweak|].
    apply Forall_cons; split; [by intros [=]|].
    apply Hweak, stage_source_no_download.
Qed.

Lemma filter_no_read (t : list Event) :
  Forall (fun e => is_archive_read e = false) t ->
  List.filter is_archive_read t = [].
Proof.
  induction 1 as [|e t He _ IH]; [done|]. cbn. by rewrite He.
Qed.

(** C5. In a run of [_prepare_src] with [reuse=True], let the search of the
    storage levels settle on [archive], and let the read of its top-level
    directory fail.  Then the run is that search and that read, followed by
    one run of the whole method with [reuse=False] from the state the
    search has left, whose result and state are those of the run.  That
    second run calls the method no further, whatever the method is: it
    raises when no storage level is writable, and else starts by
    downloading the source and downloads nothing more; when the read of
    the archive it has acquired fails too, it ends there with
    [ConfigurationError].  In all, no more than two archives are read. *)
Theorem prepare_src_retries_once bp self w found s1 t1 archive msg :
  truthy (src self) = true ->
  search_archive P (rev (ORDERED_LEVELS P))
    (os_path_basename (default "" (src self))) bp None (self, w)
  = (inr found, s1, t1) ->
  found.2 = Some archive ->
  fs_archive_toplevel P archive (w_fs s1.2) = inl msg ->
  _prepare_src P bp true (self, w)
  = after (t1 ++ [EvArchiveToplevel archive false])
      (_prepare_src P found.1 false s1)
  /\ (forall rec,
        _prepare_src P found.1 false s1
        = _prepare_src_body P rec found.1 false s1)
  /\ match find is_writable (rev (ORDERED_LEVELS P)) with
     | None =>
         _prepare_src P found.1 false s1
         = (inl (ConfigurationError "No writable storage levels" None),
            s1, [])
     | Some _ =>
         exists t,
           events (_prepare_src P found.1 false s1)
           = EvDownload (default "" (src self))
               (os_path_join (default "" found.1)
                  (os_path_basename (default "" (src self)))) :: t
           /\ Forall (fun e => is_download e = false) t
     end
  /\ (forall found2 s2 t2 archive2 msg2,
        acquire_archive P self (os_path_basename (default "" (src self)))
          found.1 s1 = (inr found2, s2, t2) ->
        found2.2 = Some archive2 ->
        fs_archive_toplevel P archive2 (w_fs s2.2) = inl msg2 ->
        _prepare_src P found.1 false s1
        = (inl (ConfigurationError
                  ("Cannot read " +:+ title self +:+ " archive file "
                     +:+ quoted archive2 +:+ ": " +:+ msg2) None),
           s2, t2 ++ [EvArchiveToplevel archive2 false]))
  /\ (length (List.filter is_archive_read
                (events (_prepare_src P bp true (self, w)))) <= 2)%nat.
Proof.
  intros Hsrc Hs Hf Har.
  pose proof (search_archive_events (rev (ORDERED_LEVELS P))
                (os_path_basename (default "" (src self))) bp None (self, w))
    as Hev.
  pose proof (search_archive_prefix _ _ _ _ _ _ _ _ Hs) as Hbp.
  destruct (quiet_search_archive (rev (ORDERED_LEVELS P))
              (os_path_basename (default "" (src self))) bp None (self, w))
    as [fs1 Hq].
  rewrite Hs in Hq, Hev. cbn [state events fst snd] in Hq, Hev. subst s1.
  assert (truthy found.1 = true) as Htr.
  { rewrite Hbp. destruct (truthy bp) eqn:Hb; [done|].
    destruct (rev (ORDERED_LEVELS P)) as [|st rest]; [|apply truthy_join_src].
    cbn in Hs. injection Hs as <- _ _. cbn in Hf. done. }
  assert (_prepare_src P bp true (self, w)
          = after (t1 ++ [EvArchiveToplevel archive false])
              (_prepare_src P found.1 false (self, set_fs P fs1 w))) as Hrun.
  { rewrite (prepare_src_step bp true).
    rewrite prepare_src_body_run by done. unfold locate_archive.
    cbn [fst snd]. rewrite Hs, Hf. cbn [fst snd] in Har |- *. rewrite Har.
    unfold after. cbv zeta. by rewrite <- app_assoc. }
  split; [exact Hrun|].
  split; [intros rec; apply prepare_src_fresh_unroll|].
  split.
  { pose proof (prepare_src_fresh_download found.1 (self, set_fs P fs1 w)
                  Hsrc) as Hd.
    rewrite Htr in Hd. exact Hd. }
  split.
  { intros found2 s2 t2 archive2 msg2 Ha Hf2 Har2.
    rewrite (prepare_src_fresh_unroll (_prepare_src P)).
    rewrite prepare_src_body_run by done. unfold locate_archive.
    cbn [fst snd]. rewrite Ha, Hf2, Har2. done. }
  destruct (prepare_src_fresh_run found.1 (self, set_fs P fs1 w))
    as (t2 & rest & Hev2 & Hno & Hrest).
  rewrite Hrun. unfold after. cbn [events fst snd] in Hev2 |- *.
  rewrite Hev2.
  rewrite !List.filter_app, !length_app.
  rewrite (filter_no_read t1) by (by apply staging_no_read).
  rewrite (filter_no_read t2) by done.
  destruct Hrest as [->|[(a & m & -> & _)|(a & t3 & -> & Hno3)]]; cbn.
  - lia.
  - lia.
  - rewrite (filter_no_read t3) by done. cbn. lia.
Qed.

(** ** [install] *)

Lemma only_files_quiet {A} (m : M (St P) A) : quiet m -> only_files m.
Proof. intros H s. destruct (H s) as [fs' ->]. by exists fs'. Qed.

Lemma only_files_stages {A} (m : M (St P) A) : stages m -> only_files m.
Proof. intros H s. destruct (H s) as [fs' [-> _]]. by exists fs'. Qed.

Lemma only_files_world {A} (m : M (St P) A) :
  (forall s, (state (m s)).2 = s.2) -> only_files m.
Proof.
  intros H [self w]. exists (w_fs w). by rewrite H, set_fs_same.
Qed.

Lemma only_files_bind {A B} (m : M (St P) A) (k : A -> M (St P) B) :
  only_files m -> (forall a, only_files (k a)) -> only_files (bind m k).
Proof.
  intros Hm Hk s. unfold bind. destruct (Hm s) as [fs1 H1].
  destruct (m s) as [[[e|a] s1] t1]; cbn [state fst snd] in *;
    [by exists fs1|].
  destruct (Hk a s1) as [fs2 H2].
  destruct (k a s1) as [[r s2] t2]. cbn [state fst snd] in *.
  exists fs2. by rewrite H2, H1.
Qed.

Lemma only_files_try_except {A} (m : M (St P) A) h :
  only_files m -> (forall e k, h e = Some k -> only_files k) ->
  only_files (try_except m h).
Proof.
  intros Hm Hh s. unfold try_except. destruct (Hm s) as [fs1 H1].
  destruct (m s) as [[[e|a] s1] t1]; cbn [state fst snd] in *;
    [|by exists fs1].
  destruct (h e) as [k|] eqn:E; [|by exists fs1].
  destruct (Hh e k E s1) as [fs2 H2].
  destruct (k s1) as [[r s2] t2]. cbn [state fst snd] in *.
  exists fs2. by rewrite H2, H1.
Qed.

Lemma only_files_self_verify : only_files (self_verify P).
Proof.
  apply only_files_world. intros [self w]. unfold self_verify; cbn [fst snd].
  by destruct (verify_run self w) as (r & self' & t & -> & _).
Qed.

Lemma only_files_subprocess cmd cwd env :
  only_files (util_create_subprocess P cmd cwd env).
Proof.
  intros [self w]. unfold util_create_subprocess; cbn [fst snd].
  destruct (fs_create_subprocess P _ _ _ _) as [rc fs']. by exists fs'.
Qed.

Lemma only_files_symlink a b : only_files (os_symlink P a b).
Proof.
  intros [self w]. unfold os_symlink; cbn [fst snd].
  destruct (fs_symlink P _ _ _) as [msg|fs']; cbn [state fst snd].
  - exists (w_fs w). by rewrite set_fs_same.
  - by exists fs'.
Qed.

Local Ltac only_files_step :=
  first
    [ apply only_files_bind; [|intros ?]
    | apply only_files_try_except; [|intros ? ? ?]
    | apply only_files_self_verify
    | apply only_files_subprocess
    | apply only_files_symlink
    | apply only_files_quiet, quiet_fs_step
    | apply only_files_quiet, quiet_rmtree
    | match goal with
      | H : (if ?b then _ else _) = Some _ |- _ =>
          destruct b; [|discriminate]; injection H as <-
      | |- only_files (if ?b then _ else _) => destruct b
      | |- only_files (match ?x with _ => _ end) => destruct x
      end
    | by apply only_files_world ].

Lemma only_files_configure_make_install :
  only_files (configure_make_install P).
Proof.
  unfold configure_make_install, configure, make, make_install,
    assert_src_prefix.
  repeat only_files_step.
Qed.

Lemma only_files_build_from_source : only_files (build_from_source P).
Proof.
  unfold build_from_source, util_mkdtemp.
  repeat first [ apply only_files_stages, (stages_prepare_src_fuel 1000)
               | apply only_files_configure_make_install
               | only_files_step ].
Qed.

Lemma only_files_install_own force : only_files (install_own P force).
Proof.
  unfold install_own.
  repeat first [apply only_files_build_from_source | only_files_step].
Qed.

Lemma each_dependency_only_files
  (method : Installation -> World P -> Res unit * St P * list Event) deps :
  Forall (fun d => forall w,
            exists fs', (state (method d.2 w)).2 = set_fs P fs' w) deps ->
  forall w,
    exists fs', (state (each_dependency P method deps w)).2 = set_fs P fs' w.
Proof.
  induction 1 as [|[k d] rest Hd _ IH]; intros w.
  - exists (w_fs w). cbn. by rewrite set_fs_same.
  - cbn [each_dependency]. destruct (Hd w) as [fs1 H1]. cbn [snd] in H1.
    destruct (method d w) as [[[e|[]] [d' w1]] t1];
      cbn [state fst snd] in H1 |- *; [by exists fs1|].
    destruct (IH w1) as [fs2 H2].
    destruct (each_dependency P method rest w1) as [[r [rest' w2]] t2].
    cbn [state fst snd] in H2 |- *. exists fs2. by rewrite H2, H1.
Qed.

Lemma install_only_files force self :
  forall w, exists fs', (state (install P force self w)).2 = set_fs P fs' w.
Proof.
  induction self as [self IH] using Installation_tree_ind. intros w.
  rewrite install_unfold.
  destruct (each_dependency_only_files (install P force) (dependencies self)
              IH w) as [fs1 H1].
  destruct (each_dependency P _ _ _) as [[r [deps' w1]] t1];
    cbn [state fst snd] in H1.
  destruct r as [e|[]]; [by exists fs1|].
  destruct (only_files_install_own force (set_dependencies deps' self, w1))
    as [fs2 H2].
  destruct (install_own P force _) as [[r2 s2] t2].
  cbn [state fst snd] in H2 |- *. exists fs2. by rewrite H2, H1.
Qed.

(** X18. Whatever its outcome, [install] changes only the files of the
    world, and of the package and its dependencies only the attributes
    [is_installed] and [src_prefix]: sources, prefixes and requirements are
    as before, and so are the locks ([install] does not take the lock of the
    installation) and the environment. *)
Theorem install_changes_files_and_flags force self w :
  skeleton (state (install P force self w)).1 = skeleton self
  /\ exists fs', (state (install P force self w)).2 = set_fs P fs' w.
Proof. split; [apply install_keeps|apply install_only_files]. Qed.

(** X19. [install] cannot return when the package or one of its
    dependencies, at any depth, has no source: not even when every
    installation of the tree is valid. *)
Theorem install_needs_all_sources force self w :
  all_sources self = false ->
  failed (result (install P force self w)) = true.
Proof.
  intros Hsrc.
  destruct (install P force self w) as [[[e|[]] s1] t] eqn:E; [done|].
  apply install_returns in E as [H _]. congruence.
Qed.

(** X20. On a tree of valid installations that all have a source,
    [install(force_reinstall=False)] only verifies: every event is a query of
    the file system, the world is as before, and the packages are marked
    installed. *)
Theorem install_valid_only_verifies self w :
  all_sources self = true ->
  valid P (w_fs w) self = true ->
  exists t,
    install P false self w = (inr tt, (mark_installed self, w), t)
    /\ Forall (fun e => is_query e = true) t.
Proof. apply install_fast. Qed.

(** X21. A forced reinstallation of a package with a source does not
    verify first: it starts by removing the installation prefix, if it is a
    directory, and asking for a build directory in shared memory, before
    any source is looked for. *)
Theorem forced_install_cleans_first self w :
  truthy (src self) = true ->
  exists t,
    events (install_own P true (self, w))
    = cleaning_events self w ++ EvMkdtemp "/dev/shm" :: t.
Proof.
  intros Hsrc.
  destruct (install_own_run true self w) as (r & sv & tv & _ & ->).
  rewrite Hsrc. cbn [negb]. rewrite build_from_source_start. cbv zeta.
  destruct (bind _ _ _) as [[r' s'] t'].
  by exists t'.
Qed.

(** X22. A package without a source whose installation fails
    verification is left alone: [install] raises [SoftwarePackageError] with
    the reason and the hint to specify a source, after the checks of
    [verify] and nothing else; the world is as before. *)
Theorem install_broken_without_source force self w :
  truthy (src self) = false ->
  valid P (w_fs w) self = false ->
  exists msg self' t,
    install_own P force (self, w)
    = (inl (SoftwarePackageError
              ("Invalid " +:+ title self +:+ " installation at "
                 +:+ quoted (install_prefix self) +:+ ": " +:+ msg)
              (Some "Specify source code path or URL to enable broken package reinstallation.")),
       (self', w), t)
    /\ Forall (fun e => is_query e = true) t
    /\ skeleton self' = skeleton self.
Proof.
  intros Hsrc Hv.
  destruct (install_own_run force self w) as (r & sv & tv & Ev & ->).
  destruct (verify_run self w) as (r' & sv' & tv' & Ev' & Hq & Hsk & Hr).
  rewrite Ev in Ev'. injection Ev' as <- <- <-.
  rewrite Hv in Hr. destruct Hr as [msg ->].
  rewrite Hsrc. cbn [negb str_exn].
  by exists msg, sv, tv.
Qed.

(** ** The paths of an installation *)

Lemma skeleton_paths a b :
  skeleton a = skeleton b -> paths_derived b -> paths_derived a.
Proof.
  rewrite (skeleton_unfold a), (skeleton_unfold b). unfold paths_derived.
  destruct a, b; cbn. intros [=]. by subst.
Qed.

Lemma paths_derived_change value self :
  paths_derived (_change_install_prefix value self).
Proof. done. Qed.

Lemma search_storage_paths levels prefix name uid :
  forall self w,
    dependencies self = [] -> src_prefix self = None ->
    paths_derived self \/ levels <> [] ->
    exists r self' w' t,
      search_storage P levels prefix name uid (self, w) = (r, (self', w'), t)
      /\ paths_derived self' /\ dependencies self' = []
      /\ src_prefix self' = None.
Proof.
  induction levels as [|st rest IH]; intros self w Hdeps Hsp Hp.
  - destruct Hp as [Hp|]; [|done]. by exists (inr false), self, w, [].
  - cbn [search_storage].
    unfold bind at 1, modify_self at 1; cbn [fst snd].
    unfold bind at 1, try_except, bind, self_verify; cbn [fst snd].
    set (obj := _change_install_prefix
                  (os_path_join_all (storage_prefix st) [prefix; name; uid])
                  self).
    assert (dependencies obj = []) as Hdo by (by destruct self).
    assert (src_prefix obj = None) as Hso by (by destruct self).
    destruct (verify_leaf obj w Hdo) as (r & t & -> & Hr).
    set (obj' := if own_valid P (w_fs w) obj then set_is_installed true obj
                 else obj) in *.
    assert (paths_derived obj' /\ dependencies obj' = []
            /\ src_prefix obj' = None) as (Hd' & Hdeps' & Hsp').
    { unfold obj'. destruct (own_valid P (w_fs w) obj); unfold obj;
        by destruct self. }
    destruct r as [e|[]]; cbn [ret fst snd].
    + destruct (is_SoftwarePackageError e); cbn [ret fst snd];
        [|by do 4 eexists].
      destruct (IH obj' w Hdeps' Hsp' (or_introl Hd'))
        as (r2 & self2 & w2 & t2 & -> & I).
      by do 4 eexists.
    + by do 4 eexists.
Qed.

(** X23. When the constructor returns, the object is complete: its
    include, binary and library directories and its lock file are those of
    its install prefix, it has no dependencies, and no sources are
    staged. *)
Theorem init_derives_paths name title prefix sources target_arch target_os
  compilers repos commands libraries headers w self w' t :
  __init__ P name title prefix sources target_arch target_os compilers
    repos commands libraries headers w = (inr tt, (self, w'), t) ->
  paths_derived self /\ dependencies self = [] /\ src_prefix self = None.
Proof.
  unfold __init__.
  unfold bind at 1.
  match goal with
  | |- context [_lookup_target_os_list P _ _ commands ?s] =>
      destruct (lookup_run target_arch target_os commands s) as (r1 & -> & H1)
  end.
  destruct r1 as [e|cmds]; [done|].
  unfold bind at 1.
  match goal with
  | |- context [_lookup_target_os_list P _ _ libraries ?s] =>
      destruct (lookup_run target_arch target_os libraries s) as (r2 & -> & H2)
  end.
  destruct r2 as [e|libs]; [done|].
  unfold bind at 1.
  match goal with
  | |- context [_lookup_target_os_list P _ _ headers ?s] =>
      destruct (lookup_run target_arch target_os headers s) as (r3 & -> & H3)
  end.
  destruct r3 as [e|hdrs]; [done|].
  unfold bind at 1, modify_self at 1; cbn [fst snd].
  destruct (sources !! name) as [src0|]; [|done].
  unfold bind at 1, os_path_isdir at 1, query at 1; cbn [fst snd w_fs].
  set (obj := mkInstallation name title target_arch target_os compilers
                (default [] cmds) (default [] libs) (default [] hdrs)
                None false None "" "" "" "" "" []).
  destruct (fs_isdir P (w_fs w) src0).
  - unfold bind at 1, modify_self at 1; cbn [fst snd].
    unfold bind at 1, modify_self at 1; cbn [fst snd].
    unfold self_verify; cbn [fst snd].
    match goal with
    | |- context [verify P ?o w] =>
        destruct (verify_leaf o w eq_refl) as (r & t' & -> & _);
        set (o' := o) in *
    end.
    intros [= _ <- _ _].
    by destruct (own_valid P (w_fs w) o').
  - unfold bind at 1.
    assert (exists r4,
      (if negb (String.eqb (lower src0) "download") then ret (Some src0)
       else _lookup_target_os_list P target_arch target_os repos) (obj, w)
      = (r4, (obj, w), [])) as (r4 & ->).
    { destruct (negb _); [by exists (inr (Some src0))|].
      destruct (lookup_run target_arch target_os repos (obj, w))
        as (r4 & -> & _). by exists r4. }
    destruct r4 as [e|[url|]]; [done| |done].
    unfold bind at 1, modify_self at 1; cbn [fst snd].
    unfold bind at 1.
    destruct (rev (ORDERED_LEVELS P)) as [|st0 scan] eqn:Hlevels.
    { cbn [search_storage ret fst snd find].
      unfold highest_writable_storage. rewrite Hlevels. done. }
    destruct (search_storage_paths (st0 :: scan) prefix name
                (md5_hexdigest P url) (set_src (Some url) obj) w
                eq_refl eq_refl (or_intror (not_eq_sym (@nil_cons _ _ _))))
      as (r5 & self1 & w1 & t1 & -> & Hd & Hdeps & Hsp).
    destruct r5 as [e|found]; [done|].
    destruct found.
    + cbn [ret fst snd]. by intros [= <- _ _].
    + unfold highest_writable_storage. rewrite Hlevels.
      destruct (find is_writable (st0 :: scan)) as [st|]; [|done].
      unfold bind, ret, modify_self; cbn [fst snd].
      intros [= <- _ _]. split; [done|]. by destruct self1.
Qed.

End Properties.

(** ** The properties on the small platform *)

(** C2, as stated, fails: a package without requirements whose prefix does
    not exist fails verification, although no command, library or header is
    missing and it has no dependency. *)
Lemma verification_completeness_counterexample :
  ~ verification_completeness Toy.linux
      (Toy.package "papi" (Some "http://icl.cs.utk.edu/papi-5.4.1.tar.gz")
         "/opt/tau/papi" [] [] [])
      (Toy.linux_world Toy.empty_disk).
Proof.
  unfold verification_completeness. intros [Hfail _].
  assert (verify_fails Toy.linux
            (Toy.linux_world Toy.empty_disk)
            (Toy.package "papi"
               (Some "http://icl.cs.utk.edu/papi-5.4.1.tar.gz")
               "/opt/tau/papi" [] [] [])) as Hv by (by vm_compute).
  destruct (Hfail Hv) as [H|[H|[H|H]]]; by inversion H.
Qed.

(** C6 on a machine with four cores where the parallel build fails: the
    serial build is run once, and succeeds. *)
Lemma make_retries_serially_once_witness :
  make (Toy.platform Toy.flaky 4 Toy.levels) [] ∅ true
    (Toy.staged_pdt, Toy.world Toy.flaky 4 Toy.levels Toy.empty_disk)
  = (inr tt,
     (Toy.staged_pdt, Toy.world Toy.flaky 4 Toy.levels Toy.empty_disk),
     [EvSubprocess ["make"; "-j"; "3"] "/dev/shm/tmp0/pkg" 2;
      EvSubprocess ["make"] "/dev/shm/tmp0/pkg" 0]).
Proof.
  exact (make_retries_serially_once (Toy.platform Toy.flaky 4 Toy.levels)
           [] ∅ Toy.staged_pdt
           (Toy.world Toy.flaky 4 Toy.levels Toy.empty_disk) eq_refl).
Defined.

(** C3 on a machine where PDT is not installed: the first call downloads,
    builds and verifies, the second only verifies. *)
Lemma install_idempotent_witness :
  result (install Toy.workshop false Toy.pdt Toy.fresh_world) = inr tt
  /\ Exists (fun e => is_subprocess e = true)
       (events (install Toy.workshop false Toy.pdt Toy.fresh_world))
  /\ exists t2,
       install Toy.workshop false
         (state (install Toy.workshop false Toy.pdt Toy.fresh_world)).1
         (state (install Toy.workshop false Toy.pdt Toy.fresh_world)).2
       = (inr tt,
          ((state (install Toy.workshop false Toy.pdt Toy.fresh_world)).1,
           (state (install Toy.workshop false Toy.pdt Toy.fresh_world)).2),
          t2)
       /\ Forall (fun e => is_query e = true) t2.
Proof.
  split; [vm_compute; reflexivity|]. split.
  - vm_compute. do 12 apply Exists_cons_tl. apply Exists_cons_hd.
    reflexivity.
  - refine (install_idempotent Toy.workshop Toy.pdt Toy.fresh_world
              (state (install Toy.workshop false Toy.pdt Toy.fresh_world)).1
              (state (install Toy.workshop false Toy.pdt Toy.fresh_world)).2
              (events (install Toy.workshop false Toy.pdt Toy.fresh_world))
              _).
    vm_compute; reflexivity.
Defined.

(** C7 on a machine where PAPI is installed under [/opt/papi] and passes
    verification: both hypotheses of the theorem hold there. *)
Lemma install_preinstalled_rebuilds_witness :
  exists tv w',
    install_own Toy.linux false (Toy.papi, Toy.linux_world Toy.papi_disk)
    = (inl (ConfigurationError
              ("No source code provided for " +:+ title Toy.papi) None),
       (mark_installed Toy.papi, w'),
       tv ++ [EvIsdir (install_prefix Toy.papi);
              EvRmtree (install_prefix Toy.papi);
              EvMkdtemp "/dev/shm"])
    /\ Forall (fun e => is_query e = true) tv
    /\ w_fs w'
       = match fs_mkdtemp Toy.linux "/dev/shm"
                 (fs_rmtree Toy.linux (install_prefix Toy.papi)
                    (w_fs (Toy.linux_world Toy.papi_disk))) with
         | inl _ =>
             fs_rmtree Toy.linux (install_prefix Toy.papi)
               (w_fs (Toy.linux_world Toy.papi_disk))
         | inr (_, fs') => fs'
         end.
Proof.
  apply (install_preinstalled_rebuilds Toy.linux false Toy.papi
           (Toy.linux_world Toy.papi_disk)); vm_compute; reflexivity.
Defined.

(** The same run, evaluated: [install] on the valid PAPI installation
    raises, and leaves a disk from which the installation is gone. *)
Lemma install_preinstalled_example :
  result (install Toy.linux false Toy.papi (Toy.linux_world Toy.papi_disk))
  = inl (ConfigurationError "No source code provided for papi" None)
  /\ events (install Toy.linux false Toy.papi (Toy.linux_world Toy.papi_disk))
     = [EvExists "/opt/papi"; EvAccessible "/opt/papi/lib/libpapi.a";
        EvAccessible "/opt/papi/include/papi.h"; EvIsdir "/opt/papi";
        EvRmtree "/opt/papi"; EvMkdtemp "/dev/shm"]
  /\ w_fs (state (install Toy.linux false Toy.papi
                    (Toy.linux_world Toy.papi_disk))).2
     = Toy.empty_disk.
Proof. repeat split; vm_compute; reflexivity. Qed.

(** C1, as stated, fails: with the same PDT installed at the user level
    (lowest precedence) and at the system level (highest), the constructor
    settles on the system level, which a scan from lowest to highest
    precedence would not. *)
Lemma resolves_lowest_first_counterexample :
  ~ resolves_lowest_first Toy.linux "pdt" "PDT" "x86_64" Toy.pdt_sources
      "x86_64" "Linux" Toy.gcc None Toy.pdt_commands None None
      (Toy.linux_world Toy.twice_disk).
Proof.
  intros H.
  assert (__init__ Toy.linux "pdt" "PDT" "x86_64" Toy.pdt_sources
            "x86_64" "Linux" Toy.gcc None Toy.pdt_commands None None
            (Toy.linux_world Toy.twice_disk)
          = (inr tt,
             (_change_install_prefix "/opt/tau/x86_64/pdt/md5_30"
                (mkInstallation "pdt" "PDT" "x86_64" "Linux" Toy.gcc
                   ["cparse"] [] [] None true (Some Toy.pdt_url)
                   "" "" "" "" "" []),
              Toy.linux_world Toy.twice_disk),
             [EvIsdir "http://tau.uoregon.edu/pdt.tgz";
              EvExists "/opt/tau/x86_64/pdt/md5_30";
              EvExists "/opt/tau/x86_64/pdt/md5_30/bin/cparse";
              EvAccess "/opt/tau/x86_64/pdt/md5_30/bin/cparse"])) as E
    by (vm_compute; reflexivity).
  destruct (H _ _ _ E) as (url & Hurl & Hp).
  vm_compute in Hurl. injection Hurl as <-.
  vm_compute in Hp. discriminate Hp.
Qed.

(** C1 (amended) on that machine. *)
Lemma init_resolves_prefix_witness :
  exists r self t,
    __init__ Toy.linux "pdt" "PDT" "x86_64" Toy.pdt_sources
      "x86_64" "Linux" Toy.gcc None Toy.pdt_commands None None
      (Toy.linux_world Toy.twice_disk)
    = (r, (self, Toy.linux_world Toy.twice_disk), t) /\
    match r with
    | inr _ =>
        resolved_by Toy.linux (rev (ORDERED_LEVELS Toy.linux)) "x86_64" "pdt"
          (Toy.linux_world Toy.twice_disk) self
    | inl e =>
        e = KeyError "None"
        \/ e = TypeError "must be string or buffer, not list"
        \/ (e = ConfigurationError "No writable storage levels" None
            /\ find is_writable (rev (ORDERED_LEVELS Toy.linux)) = None
            /\ exists url,
                 src self = Some url
                 /\ find (verifies_at Toy.linux
                            (Toy.linux_world Toy.twice_disk) self
                            "x86_64" "pdt" (md5_hexdigest Toy.linux url))
                      (rev (ORDERED_LEVELS Toy.linux)) = None)
    end.
Proof.
  apply (init_resolves_prefix Toy.linux "pdt" "PDT" "x86_64" Toy.pdt_sources
           "x86_64" "Linux" Toy.gcc None Toy.pdt_commands None None
           (Toy.linux_world Toy.twice_disk) Toy.pdt_url);
    vm_compute; reflexivity.
Defined.


(** The set through which the options go does not keep their order. *)
Lemma list_of_set_example :
  list_of_set ["-g"; "-O2"; "-g"; "-Wall"] = ["-O2"; "-Wall"; "-g"].
Proof. vm_compute. reflexivity. Qed.

(** ** The further properties on the small platform *)

(** X3 on the machine where PAPI is installed: [verify] returns. *)
Lemma verify_marks_and_repeats_witness :
  (state (verify Toy.linux Toy.papi (Toy.linux_world Toy.papi_disk))).1
  = mark_installed Toy.papi
  /\ exists t',
       verify Toy.linux
         (state (verify Toy.linux Toy.papi
                   (Toy.linux_world Toy.papi_disk))).1
         (Toy.linux_world Toy.papi_disk)
       = (inr tt,
          ((state (verify Toy.linux Toy.papi
                     (Toy.linux_world Toy.papi_disk))).1,
           Toy.linux_world Toy.papi_disk), t').
Proof.
  apply (verify_marks_and_repeats Toy.linux Toy.papi
           (Toy.linux_world Toy.papi_disk) _
           (events (verify Toy.linux Toy.papi
                      (Toy.linux_world Toy.papi_disk)))).
  vm_compute; reflexivity.
Defined.

(** X4 for PDT before its sources are staged. *)
Lemma build_steps_need_staged_source_witness :
  configure Toy.linux [] ∅ (Toy.pdt, Toy.linux_world Toy.empty_disk)
  = (inl AssertionError, (Toy.pdt, Toy.linux_world Toy.empty_disk), [])
  /\ make Toy.linux [] ∅ true (Toy.pdt, Toy.linux_world Toy.empty_disk)
     = (inl AssertionError, (Toy.pdt, Toy.linux_world Toy.empty_disk), [])
  /\ make_install Toy.linux [] ∅ true
       (Toy.pdt, Toy.linux_world Toy.empty_disk)
     = (inl AssertionError, (Toy.pdt, Toy.linux_world Toy.empty_disk), []).
Proof.
  exact (build_steps_need_staged_source Toy.linux [] ∅ true Toy.pdt
           (Toy.linux_world Toy.empty_disk) eq_refl).
Defined.

(** X5 for PDT once its sources are staged. *)
Lemma configure_installs_to_prefix_witness :
  exists rc fs',
    configure Toy.linux ["--prefix=/tmp"] ∅
      (Toy.staged_pdt, Toy.linux_world Toy.empty_disk)
    = (if (rc =? 0)%Z then inr tt
       else inl (SoftwarePackageError
                   (title Toy.staged_pdt +:+ " configure failed") None),
       (Toy.staged_pdt,
        set_fs Toy.linux fs' (Toy.linux_world Toy.empty_disk)),
       [EvSubprocess
          ("./configure"
             :: ["--prefix=/tmp"]
                ++ ["--prefix=" +:+ install_prefix Toy.staged_pdt])
          (default "" (src_prefix Toy.staged_pdt)) rc]).
Proof.
  exact (configure_installs_to_prefix Toy.linux ["--prefix=/tmp"] ∅
           Toy.staged_pdt (Toy.linux_world Toy.empty_disk) eq_refl).
Defined.

(** X6 for a serial build of the staged PDT. *)
Lemma make_attempts_witness :
  exists r fs' t,
    make Toy.linux ["all"] ∅ false
      (Toy.staged_pdt, Toy.linux_world Toy.empty_disk)
    = (r, (Toy.staged_pdt,
           set_fs Toy.linux fs' (Toy.linux_world Toy.empty_disk)), t) /\
    ((r = inr tt /\
      t = [EvSubprocess (first_make (P:=Toy.linux) ["all"] false)
             (default "" (src_prefix Toy.staged_pdt)) 0])
     \/ exists rc1 rc2,
          rc1 <> 0%Z /\
          t = [EvSubprocess (first_make (P:=Toy.linux) ["all"] false)
                 (default "" (src_prefix Toy.staged_pdt)) rc1;
               EvSubprocess ("make" :: ["all"])
                 (default "" (src_prefix Toy.staged_pdt)) rc2] /\
          r = if (rc2 =? 0)%Z then inr tt
              else inl (SoftwarePackageError
                          (title Toy.staged_pdt +:+ " compilation failed")
                          None)).
Proof.
  exact (make_attempts Toy.linux ["all"] ∅ false Toy.staged_pdt
           (Toy.linux_world Toy.empty_disk) eq_refl).
Defined.

(** X7 for the staged PDT. *)
Lemma make_install_links_lib64_witness :
  exists r fs' rc fs1 t,
    make_install Toy.linux [] ∅ false
      (Toy.staged_pdt, Toy.linux_world Toy.empty_disk)
    = (r, (Toy.staged_pdt,
           set_fs Toy.linux fs' (Toy.linux_world Toy.empty_disk)),
       EvSubprocess ("make" :: "install" :: [])
         (default "" (src_prefix Toy.staged_pdt)) rc :: t) /\
    fs_create_subprocess Toy.linux ("make" :: "install" :: [])
      (default "" (src_prefix Toy.staged_pdt)) ∅
      (w_fs (Toy.linux_world Toy.empty_disk)) = (rc, fs1) /\
    if (rc =? 0)%Z then
      (Exists (fun e => e = EvSymlink (lib_path Toy.staged_pdt +:+ "64")
                               (lib_path Toy.staged_pdt)
                               (negb (failed r))) t
       <-> fs_isdir Toy.linux fs1 (lib_path Toy.staged_pdt +:+ "64") = true
           /\ fs_isdir Toy.linux fs1 (lib_path Toy.staged_pdt) = false)
      /\ Forall (fun e => is_symlink e = true ->
                   e = EvSymlink (lib_path Toy.staged_pdt +:+ "64")
                         (lib_path Toy.staged_pdt) (negb (failed r))) t
    else
      t = [] /\ fs' = fs1 /\
      r = inl (SoftwarePackageError
                 (title Toy.staged_pdt +:+ " installation failed") None).
Proof.
  exact (make_install_links_lib64 Toy.linux [] ∅ false Toy.staged_pdt
           (Toy.linux_world Toy.empty_disk) eq_refl).
Defined.

(** X10 for PAPI installed under [/opt/papi]. *)
Lemma init_existing_installation_witness :
  exists r self t,
    __init__ Toy.linux "papi" "PAPI" "x86_64" Examples.papi_sources
      "x86_64" "Linux" Toy.gcc None None Examples.papi_libraries
      Examples.papi_headers (Toy.linux_world Toy.papi_disk)
    = (r, (self, Toy.linux_world Toy.papi_disk), t) /\
    (r = inl (KeyError "None") \/
     (src self = None /\ install_prefix self = "/opt/papi" /\
      dependencies self = [] /\
      Forall (fun e => is_query e = true) t /\
      is_installed self
      = own_valid Toy.linux (w_fs (Toy.linux_world Toy.papi_disk)) self /\
      if own_valid Toy.linux (w_fs (Toy.linux_world Toy.papi_disk)) self
      then r = inr tt
      else exists msg, r = inl (SoftwarePackageError msg None))).
Proof.
  apply (init_existing_installation Toy.linux "papi" "PAPI" "x86_64"
           Examples.papi_sources "x86_64" "Linux" Toy.gcc None None
           Examples.papi_libraries Examples.papi_headers
           (Toy.linux_world Toy.papi_disk) "/opt/papi");
    vm_compute; reflexivity.
Defined.

(** X11 for PDT asked for by [Download], with no repository. *)
Lemma init_download_needs_repos_witness :
  exists e self t,
    __init__ Toy.linux "pdt" "PDT" "x86_64" Examples.download_sources
      "x86_64" "Linux" Toy.gcc None Toy.pdt_commands None None
      (Toy.linux_world Toy.empty_disk)
    = (inl e, (self, Toy.linux_world Toy.empty_disk), t) /\
    (e = KeyError "None" /\ t = []
     \/ e = TypeError "must be string or buffer, not list"
        /\ t = [EvIsdir "Download"]).
Proof.
  apply (init_download_needs_repos Toy.linux "pdt" "PDT" "x86_64"
           Examples.download_sources "x86_64" "Linux" Toy.gcc None
           Toy.pdt_commands None None (Toy.linux_world Toy.empty_disk)
           "Download");
    vm_compute; reflexivity.
Defined.

(** X12 for a package of which [sources] knows nothing. *)
Lemma init_needs_source_entry_witness :
  exists k self,
    __init__ Toy.linux "papi" "PAPI" "x86_64" Toy.pdt_sources
      "x86_64" "Linux" Toy.gcc None None None None
      (Toy.linux_world Toy.empty_disk)
    = (inl (KeyError k), (self, Toy.linux_world Toy.empty_disk), []) /\
    (k = "None" \/ k = "papi").
Proof.
  apply (init_needs_source_entry Toy.linux "papi" "PAPI" "x86_64"
           Toy.pdt_sources "x86_64" "Linux" Toy.gcc None None None None
           (Toy.linux_world Toy.empty_disk)).
  vm_compute; reflexivity.
Defined.

(** X14 for PAPI, which has no source. *)
Lemma prepare_src_needs_source_witness :
  _prepare_src Toy.linux None true
    (Toy.papi, Toy.linux_world Toy.papi_disk)
  = (inl (ConfigurationError
            ("No source code provided for " +:+ title Toy.papi) None),
     (Toy.papi, Toy.linux_world Toy.papi_disk), []).
Proof.
  exact (prepare_src_needs_source Toy.linux None true Toy.papi
           (Toy.linux_world Toy.papi_disk) eq_refl).
Defined.

(** X15 for PDT: the archive goes to the user level, the highest that is
    writable. *)
Lemma prepare_src_fresh_downloads_first_witness :
  exists t,
    events (_prepare_src Toy.workshop None false (Toy.pdt, Toy.fresh_world))
    = EvDownload Toy.pdt_url "/home/u/.tau/src/pdt.tgz" :: t
    /\ Forall (fun e => is_download e = false) t.
Proof.
  exact (prepare_src_fresh_downloads_first Toy.workshop None Toy.pdt
           Toy.fresh_world eq_refl).
Defined.

(** X17 for PDT on the machine whose stored archive is unreadable: the
    system level comes first in the search. *)
Lemma prepare_src_retry_target_witness :
  Forall (fun e =>
            is_download e = true ->
            e = EvDownload Toy.pdt_url "/opt/tau/src/pdt.tgz")
    (events (_prepare_src Toy.workshop None true
               (Toy.pdt, Examples.stale_world))).
Proof.
  exact (prepare_src_retry_target Toy.workshop None Toy.pdt
           Examples.stale_world Toy.system_storage [Toy.user_storage]
           eq_refl eq_refl).
Defined.

(** That run, evaluated: the source is downloaded into the [src] directory
    of the system level, which is not writable, and copied from there to the
    user level. *)
Lemma prepare_src_retry_example :
  events (_prepare_src Toy.workshop None true (Toy.pdt, Examples.stale_world))
  = [EvExists "/opt/tau/src/pdt.tgz";
     EvArchiveToplevel "/opt/tau/src/pdt.tgz" false;
     EvDownload Toy.pdt_url "/opt/tau/src/pdt.tgz";
     EvMkdirp "/home/u/.tau/src";
     EvCopy "/opt/tau/src/pdt.tgz" "/home/u/.tau/src/pdt.tgz";
     EvArchiveToplevel "/opt/tau/src/pdt.tgz" false].
Proof. vm_compute. reflexivity. Qed.

(** C5 on that machine: the archive kept by the system level cannot be
    read, and the one retry downloads the source anew. *)
Lemma prepare_src_retries_once_witness :
  _prepare_src Toy.workshop None true (Toy.pdt, Examples.stale_world)
  = after ([EvExists "/opt/tau/src/pdt.tgz"]
             ++ [EvArchiveToplevel "/opt/tau/src/pdt.tgz" false])
      (_prepare_src Toy.workshop Examples.stale_found.1 false
         (Toy.pdt, Examples.stale_world))
  /\ (forall rec,
        _prepare_src Toy.workshop Examples.stale_found.1 false
          (Toy.pdt, Examples.stale_world)
        = _prepare_src_body Toy.workshop rec Examples.stale_found.1 false
            (Toy.pdt, Examples.stale_world))
  /\ match find is_writable (rev (ORDERED_LEVELS Toy.workshop)) with
     | None =>
         _prepare_src Toy.workshop Examples.stale_found.1 false
           (Toy.pdt, Examples.stale_world)
         = (inl (ConfigurationError "No writable storage levels" None),
            (Toy.pdt, Examples.stale_world), [])
     | Some _ =>
         exists t,
           events (_prepare_src Toy.workshop Examples.stale_found.1 false
                     (Toy.pdt, Examples.stale_world))
           = EvDownload (default "" (src Toy.pdt))
               (os_path_join (default "" Examples.stale_found.1)
                  (os_path_basename (default "" (src Toy.pdt)))) :: t
           /\ Forall (fun e => is_download e = false) t
     end
  /\ (forall found2 s2 t2 archive2 msg2,
        acquire_archive Toy.workshop Toy.pdt
          (os_path_basename (default "" (src Toy.pdt)))
          Examples.stale_found.1 (Toy.pdt, Examples.stale_world)
        = (inr found2, s2, t2) ->
        found2.2 = Some archive2 ->
        fs_archive_toplevel Toy.workshop archive2 (w_fs s2.2) = inl msg2 ->
        _prepare_src Toy.workshop Examples.stale_found.1 false
          (Toy.pdt, Examples.stale_world)
        = (inl (ConfigurationError
                  ("Cannot read " +:+ title Toy.pdt +:+ " archive file "
                     +:+ quoted archive2 +:+ ": " +:+ msg2) None),
           s2, t2 ++ [EvArchiveToplevel archive2 false]))
  /\ (length (List.filter is_archive_read
                (events (_prepare_src Toy.workshop None true
                           (Toy.pdt, Examples.stale_world)))) <= 2)%nat.
Proof.
  apply (prepare_src_retries_once Toy.workshop None Toy.pdt
           Examples.stale_world Examples.stale_found
           (Toy.pdt, Examples.stale_world)
           [EvExists "/opt/tau/src/pdt.tgz"] "/opt/tau/src/pdt.tgz"
           "not an archive"); vm_compute; reflexivity.
Defined.

(** The outcome of that run: the archive downloaded anew cannot be read
    either, and the method gives up. *)
Lemma prepare_src_gives_up_example :
  result (_prepare_src Toy.workshop None true
            (Toy.pdt, Examples.stale_world))
  = inl (ConfigurationError
           "Cannot read pdt archive file '/opt/tau/src/pdt.tgz': not an archive"
           None).
Proof. vm_compute. reflexivity. Qed.

(** X19 for PAPI, valid and without source. *)
Lemma install_needs_all_sources_witness :
  failed (result (install Toy.linux false Toy.papi
                    (Toy.linux_world Toy.papi_disk))) = true.
Proof.
  exact (install_needs_all_sources Toy.linux false Toy.papi
           (Toy.linux_world Toy.papi_disk) eq_refl).
Defined.

(** X20 for PDT on the machine where it is installed. *)
Lemma install_valid_only_verifies_witness :
  exists t,
    install Toy.linux false Toy.pdt (Toy.linux_world Examples.pdt_disk)
    = (inr tt,
       (mark_installed Toy.pdt, Toy.linux_world Examples.pdt_disk), t)
    /\ Forall (fun e => is_query e = true) t.
Proof.
  apply (install_valid_only_verifies Toy.linux Toy.pdt
           (Toy.linux_world Examples.pdt_disk)); vm_compute; reflexivity.
Defined.

(** X21 for PDT. *)
Lemma forced_install_cleans_first_witness :
  exists t,
    events (install_own Toy.workshop true (Toy.pdt, Toy.fresh_world))
    = cleaning_events Toy.pdt Toy.fresh_world ++ EvMkdtemp "/dev/shm" :: t.
Proof.
  exact (forced_install_cleans_first Toy.workshop Toy.pdt Toy.fresh_world
           eq_refl).
Defined.

(** X22 for PAPI on a machine where it is not installed. *)
Lemma install_broken_without_source_witness :
  exists msg self' t,
    install_own Toy.linux false (Toy.papi, Toy.linux_world Toy.empty_disk)
    = (inl (SoftwarePackageError
              ("Invalid " +:+ title Toy.papi +:+ " installation at "
                 +:+ quoted (install_prefix Toy.papi) +:+ ": " +:+ msg)
              (Some "Specify source code path or URL to enable broken package reinstallation.")),
       (self', Toy.linux_world Toy.empty_disk), t)
    /\ Forall (fun e => is_query e = true) t
    /\ skeleton self' = skeleton Toy.papi.
Proof.
  exact (install_broken_without_source Toy.linux false Toy.papi
           (Toy.linux_world Toy.empty_disk) eq_refl eq_refl).
Defined.

(** X23 for PDT constructed on the machine where it is installed twice. *)
Lemma init_derives_paths_witness :
  paths_derived (state Examples.pdt_init).1
  /\ dependencies (state Examples.pdt_init).1 = []
  /\ src_prefix (state Examples.pdt_init).1 = None.
Proof.
  apply (init_derives_paths Toy.linux "pdt" "PDT" "x86_64" Toy.pdt_sources
           "x86_64" "Linux" Toy.gcc None Toy.pdt_commands None None
           (Toy.linux_world Toy.twice_disk)
           (state Examples.pdt_init).1 (state Examples.pdt_init).2
           (events Examples.pdt_init)).
  vm_compute; reflexivity.
Defined.
